(** * fas-back: order lifecycle, payment settlement, access control, audit trail

    A shallow embedding of the storefront backend's core handlers
    (routes/orders.ts, routes/payments.ts, routes/delivery.ts,
    routes/admin.ts, routes/auth.ts, middleware/permissions.ts,
    middleware/auditLogger.ts, models/Order.ts, models/AuditLog.ts) and the
    properties the specification states about them.

    Conventions.  A request handler is a function from the request and the
    collections it touches to an [Outcome] and the collections afterwards.
    A Mongo collection is a finite map from document ids to documents.
    The clock ([new Date()], [Date.now()]), the random source
    ([crypto.randomBytes]) and the generated ObjectId of a new document are
    inputs of the handler that consults them.  Library functions whose code
    is not part of the repository (HMAC, JSON.stringify, jwt.verify, bcrypt,
    the ObjectId cast) are the fields of the class [Externals]. *)

From Stdlib Require Import ZArith String Ascii List Bool Lia.
From stdpp Require Import gmap strings list fin_maps pretty sorting.
Import ListNotations.
Local Open Scope string_scope.
Local Open Scope Z_scope.
Set Warnings "-register-all".

(** ** JavaScript values *)

Module Js.

(** Request bodies, parameters and response bodies are untyped in the
    source ([any]).  Numbers are the integers: the handlers only test
    numbers for truthiness, compare them with constants or store them. *)
Inductive jsval :=
| JUndefined
| JNull
| JBool (b : bool)
| JNum (n : Z)
| JStr (s : string)
| JArr (xs : list jsval)
| JObj (fields : list (string * jsval)).

(** [!!v] of JavaScript. *)
Definition truthy (v : jsval) : bool :=
  match v with
  | JUndefined | JNull => false
  | JBool b => b
  | JNum n => negb (n =? 0)
  | JStr s => negb (s =? "")%string
  | JArr _ | JObj _ => true
  end.

Fixpoint lookup_field (k : string) (fields : list (string * jsval)) : jsval :=
  match fields with
  | [] => JUndefined
  | (k', v) :: rest => if (k =? k')%string then v else lookup_field k rest
  end.

(** [v[k]] on a value that is neither null nor undefined, for a key
    that is not an array index. *)
Definition get (k : string) (v : jsval) : jsval :=
  match v with
  | JObj fields => lookup_field k fields
  | _ => JUndefined
  end.

(** [o[k] = x] for a key the object already has. *)
Fixpoint assign_field (k : string) (x : jsval) (fields : list (string * jsval))
  : list (string * jsval) :=
  match fields with
  | [] => []
  | (k', v) :: rest =>
      (k', if (k =? k')%string then x else v) :: assign_field k x rest
  end.

(** [xs.push(x)] *)
Definition push {A : Type} (xs : list A) (x : A) : list A := app xs [x].

(** [a || b] *)
Definition or_else (a b : jsval) : jsval := if truthy a then a else b.

(** [xs.includes(v)] for an array of string literals. *)
Definition includes (xs : list string) (v : jsval) : bool :=
  match v with
  | JStr s => existsb (String.eqb s) xs
  | _ => false
  end.

(** Truthiness of an optional string ([string | undefined]). *)
Definition truthy_str (s : option string) : bool :=
  match s with
  | Some s => negb (s =? "")%string
  | None => false
  end.

End Js.
Import Js.

(** ** What a handler does with the response object *)

(** An uncaught exception leaves the handler without any response written
    (the payment handlers have no [try]/[catch]). *)
Inductive Outcome (B : Type) :=
| Sent (statusCode : Z) (body : B)
| Uncaught (error : string).
Arguments Sent {B} statusCode body.
Arguments Uncaught {B} error.

Definition status_of {B} (o : Outcome B) : option Z :=
  match o with
  | Sent c _ => Some c
  | Uncaught _ => None
  end.

(** ** models/Order.ts *)

Record CartItem := {
  productId : string;
  title : string;
  slug : string;
  price : Z;
  qty : Z;
  color : option string;
  size : option string;
  image : string
}.

Record Address := {
  fullName : string;
  phone : string;
  country : string;
  city : string;
  street : string;
  zip : string;
  isDefault : bool
}.

Record Totals := {
  subtotal : Z;
  shipping : Z;
  tax : Z;
  total : Z
}.

(** The nested paths [coordinates.latitude] and [coordinates.longitude],
    each an optional Number. *)
Record Coordinates := {
  latitude : option Z;
  longitude : option Z
}.

Record Delivery := {
  coordinates : Coordinates;
  d_address : Address;
  estimatedTime : option Z;
  courierId : option string;
  courierName : option string;
  courierPhone : option string;
  instructions : option string
}.

(** A stored order document.  [status], [paymentStatus] and
    [paymentMethod] hold a string or [null] ([None]): the schema's [enum]
    is a validator, run by [create] and [save] and not by
    [findByIdAndUpdate], and it passes [null], so the collection can hold
    other values.  [extra] holds the paths a document has outside the
    schema (none when the schema is strict). *)
Record Order := {
  _id : string;
  userId : string;
  items : list CartItem;
  totals : Totals;
  status : option string;
  address : Address;
  delivery : Delivery;
  paymentStatus : option string;
  paymentMethod : option string;
  notes : option string;
  createdAt : Z;
  updatedAt : Z;
  extra : list (string * jsval)
}.

Abbreviation Orders := (gmap string Order).

Definition status_enum : list string :=
  ["pending"; "confirmed"; "preparing"; "ready_for_delivery"; "in_transit";
   "delivered"; "cancelled"].
Definition status_default : string := "pending".
Definition paymentStatus_enum : list string := ["pending"; "paid"; "failed"].
Definition paymentStatus_default : string := "pending".
Definition paymentMethod_enum : list string := ["cash"; "card"; "payme"; "click"].

Definition in_enum (enum : list string) (s : string) : bool :=
  existsb (String.eqb s) enum.

(** The [enum] validator of a String path; it passes [null]. *)
Definition enum_validator (enum : list string) (v : option string) : bool :=
  match v with
  | Some s => in_enum enum s
  | None => true
  end.

Definition set_status (s : string) (o : Order) : Order :=
  {| _id := _id o; userId := userId o; items := items o; totals := totals o;
     status := Some s; address := address o; delivery := delivery o;
     paymentStatus := paymentStatus o; paymentMethod := paymentMethod o;
     notes := notes o; createdAt := createdAt o; updatedAt := updatedAt o;
     extra := extra o |}.

Definition set_paymentStatus (s : string) (o : Order) : Order :=
  {| _id := _id o; userId := userId o; items := items o; totals := totals o;
     status := status o; address := address o; delivery := delivery o;
     paymentStatus := Some s; paymentMethod := paymentMethod o;
     notes := notes o; createdAt := createdAt o; updatedAt := updatedAt o;
     extra := extra o |}.

Definition set_paymentMethod (s : string) (o : Order) : Order :=
  {| _id := _id o; userId := userId o; items := items o; totals := totals o;
     status := status o; address := address o; delivery := delivery o;
     paymentStatus := paymentStatus o; paymentMethod := Some s;
     notes := notes o; createdAt := createdAt o; updatedAt := updatedAt o;
     extra := extra o |}.

Definition set_notes (s : string) (o : Order) : Order :=
  {| _id := _id o; userId := userId o; items := items o; totals := totals o;
     status := status o; address := address o; delivery := delivery o;
     paymentStatus := paymentStatus o; paymentMethod := paymentMethod o;
     notes := Some s; createdAt := createdAt o; updatedAt := updatedAt o;
     extra := extra o |}.

Definition set_updatedAt (t : Z) (o : Order) : Order :=
  {| _id := _id o; userId := userId o; items := items o; totals := totals o;
     status := status o; address := address o; delivery := delivery o;
     paymentStatus := paymentStatus o; paymentMethod := paymentMethod o;
     notes := notes o; createdAt := createdAt o; updatedAt := t;
     extra := extra o |}.

Definition set_extra (p : string) (v : jsval) (o : Order) : Order :=
  {| _id := _id o; userId := userId o; items := items o; totals := totals o;
     status := status o; address := address o; delivery := delivery o;
     paymentStatus := paymentStatus o; paymentMethod := paymentMethod o;
     notes := notes o; createdAt := createdAt o; updatedAt := updatedAt o;
     extra := (p, v) :: filter (fun kv => negb (fst kv =? p)%string) (extra o) |}.

(** ** Exceptions and library functions *)

(** A computation that returns or throws. *)
Inductive Exn (A : Type) :=
| Ret (a : A)
| Throw (error : string).
Arguments Ret {A} a.
Arguments Throw {A} error.

(** The payload [signToken] puts into a token: [{ id, role }]. *)
Record TokenPayload := {
  tp_id : string;
  tp_role : string
}.

(** The User documents the admin routes work on.  The model file of this
    version of the routes is not among the repository's files; the record
    holds the fields the handlers read and write.  A document's [id] is its
    key in the collection. *)
Record User := {
  u_name : string;
  u_phone : string;
  u_password : string;
  u_role : string;
  u_isActive : bool;
  u_createdBy : option string
}.

Abbreviation Users := (gmap string User).

(** Library and runtime behaviour the handlers rely on.
    - [hmac_sha256_hex secret raw] is
      [crypto.createHmac("sha256", secret).update(raw).digest("hex")];
    - [JSON_stringify] is [JSON.stringify];
    - [jwt_verify token secret] is [jwt.verify], [None] when it throws;
    - [bcrypt_hash] is [bcrypt.hash(_, 10)];
    - [castObjectId] is Mongoose's cast of a query id to a document key,
      [None] when it throws a CastError;
    - [toStr] is the string conversion of a template literal;
    - [build_user name phone password role createdBy] is [new User(...)]
      followed by the validation of [save], [None] when it fails (the
      schema file of the admin routes' User model is not among the
      repository's files);
    - [hmac_hex_length]: a SHA-256 digest in hex has 64 characters;
    - [strictMode] is the schemas' [strict] option, which no schema of the
      repository sets (the library default is [true]): under it the paths
      of an update that the schema does not declare are dropped. *)
Class Externals := {
  hmac_sha256_hex : string -> string -> string;
  JSON_stringify : jsval -> string;
  jwt_verify : string -> string -> option TokenPayload;
  bcrypt_hash : string -> string;
  castObjectId : jsval -> option string;
  toStr : jsval -> string;
  build_user : jsval -> jsval -> string -> jsval -> string -> option User;
  strictMode : bool;
  hmac_hex_length :
    forall secret raw, String.length (hmac_sha256_hex secret raw) = 64%nat
}.

(** ** The Order model: validation, create, update *)

Module OrderModel.

(** Casts are modelled on values of the declared type: a String path
    takes a string, a Number path a number, a sub-document path an object,
    and a path that is not required also takes [null], stored as it is.
    A value of another type counts as a failed cast. *)

(** A required String path: present, a string, and not empty. *)
Definition required_string (v : jsval) : option string :=
  match v with
  | JStr s => if (s =? "")%string then None else Some s
  | _ => None
  end.

Definition optional_string (v : jsval) : option (option string) :=
  match v with
  | JUndefined | JNull => Some None
  | JStr s => Some (Some s)
  | _ => None
  end.

Definition required_number (v : jsval) : option Z :=
  match v with
  | JNum n => Some n
  | _ => None
  end.

Definition optional_number (v : jsval) : option (option Z) :=
  match v with
  | JUndefined | JNull => Some None
  | JNum n => Some (Some n)
  | _ => None
  end.

(** A String path with an [enum] and a [default]: the default replaces
    [undefined] only, and the enum validator passes [null], which is
    stored as it is. *)
Definition enum_with_default (enum : list string) (dflt : string) (v : jsval)
  : option (option string) :=
  match v with
  | JUndefined => Some (Some dflt)
  | JNull => Some None
  | JStr s => if in_enum enum s then Some (Some s) else None
  | _ => None
  end.

Definition optional_enum (enum : list string) (v : jsval)
  : option (option string) :=
  match v with
  | JUndefined | JNull => Some None
  | JStr s => if in_enum enum s then Some (Some s) else None
  | _ => None
  end.

(** CartItemSchema; [qty] has [min: 1]. *)
Definition castCartItem (v : jsval) : option CartItem :=
  match v with
  | JObj _ =>
      pid ← required_string (get "productId" v);
      ttl ← required_string (get "title" v);
      slg ← required_string (get "slug" v);
      prc ← required_number (get "price" v);
      q ← required_number (get "qty" v);
      col ← optional_string (get "color" v);
      sz ← optional_string (get "size" v);
      img ← required_string (get "image" v);
      if 1 <=? q
      then Some {| productId := pid; title := ttl; slug := slg; price := prc;
                   qty := q; color := col; size := sz; image := img |}
      else None
  | _ => None
  end.

(** [items: { type: [CartItemSchema], required: true }]: the path must be
    present; a value that is not an array is cast as a one-element array. *)
Definition castItems (v : jsval) : option (list CartItem) :=
  match v with
  | JUndefined | JNull => None
  | JArr xs => mapM castCartItem xs
  | _ => mapM castCartItem [v]
  end.

Definition castAddress (v : jsval) : option Address :=
  match v with
  | JObj _ =>
      fn ← required_string (get "fullName" v);
      ph ← required_string (get "phone" v);
      co ← required_string (get "country" v);
      ci ← required_string (get "city" v);
      st ← required_string (get "street" v);
      zp ← required_string (get "zip" v);
      dflt ← match get "isDefault" v with
              | JUndefined => Some false
              | JBool b => Some b
              | _ => None
              end;
      Some {| fullName := fn; phone := ph; country := co; city := ci;
              street := st; zip := zp; isDefault := dflt |}
  | _ => None
  end.

Definition castTotals (v : jsval) : option Totals :=
  match v with
  | JObj _ =>
      sb ← required_number (get "subtotal" v);
      sh ← required_number (get "shipping" v);
      tx ← required_number (get "tax" v);
      tt ← required_number (get "total" v);
      Some {| subtotal := sb; shipping := sh; tax := tx; total := tt |}
  | _ => None
  end.

(** The nested path [coordinates]: [latitude] and [longitude] are two
    optional Number paths, each stored when it is given. *)
Definition castCoordinates (v : jsval) : option Coordinates :=
  match v with
  | JUndefined | JNull => Some {| latitude := None; longitude := None |}
  | JObj _ =>
      la ← optional_number (get "latitude" v);
      lo ← optional_number (get "longitude" v);
      Some {| latitude := la; longitude := lo |}
  | _ => None
  end.

(** [delivery: { type: DeliverySchema, required: true }]: a sub-document
    path has no default, so an absent [delivery] fails validation. *)
Definition castDelivery (v : jsval) : option Delivery :=
  match v with
  | JObj _ =>
      co ← castCoordinates (get "coordinates" v);
      ad ← castAddress (get "address" v);
      et ← optional_number (get "estimatedTime" v);
      cid ← optional_string (get "courierId" v);
      cn ← optional_string (get "courierName" v);
      cp ← optional_string (get "courierPhone" v);
      ins ← optional_string (get "instructions" v);
      Some {| coordinates := co; d_address := ad; estimatedTime := et;
              courierId := cid; courierName := cn; courierPhone := cp;
              instructions := ins |}
  | _ => None
  end.

(** [new Order(doc)] followed by validation: [None] is a ValidationError.
    [timestamps: true] stamps [createdAt] and [updatedAt]. *)
Definition build (fresh_id : string) (now : Z) (doc : list (string * jsval))
  : option Order :=
  uid ← required_string (lookup_field "userId" doc);
  its ← castItems (lookup_field "items" doc);
  tot ← castTotals (lookup_field "totals" doc);
  st ← enum_with_default status_enum status_default (lookup_field "status" doc);
  adr ← castAddress (lookup_field "address" doc);
  dlv ← castDelivery (lookup_field "delivery" doc);
  pst ← enum_with_default paymentStatus_enum paymentStatus_default
          (lookup_field "paymentStatus" doc);
  pm ← optional_enum paymentMethod_enum (lookup_field "paymentMethod" doc);
  nts ← optional_string (lookup_field "notes" doc);
  Some {| _id := fresh_id; userId := uid; items := its; totals := tot;
          status := st; address := adr; delivery := dlv;
          paymentStatus := pst; paymentMethod := pm; notes := nts;
          createdAt := now; updatedAt := now; extra := [] |}.

(** [Order.create(doc)] *)
Definition create (fresh_id : string) (now : Z) (doc : list (string * jsval))
    (db : Orders) : Exn Order * Orders :=
  match build fresh_id now doc with
  | Some o => (Ret o, <[fresh_id := o]> db)
  | None => (Throw "ValidationError", db)
  end.

(** The part of a path before its first dot. *)
Fixpoint head_segment (p : string) : string :=
  match p with
  | EmptyString => EmptyString
  | String c rest =>
      if Ascii.eqb c "." then EmptyString else String c (head_segment rest)
  end.

Definition schema_paths : list string :=
  ["userId"; "items"; "totals"; "status"; "address"; "delivery";
   "paymentStatus"; "paymentMethod"; "notes"].

Definition in_schema (p : string) : bool := in_enum schema_paths (head_segment p).

Definition cast_string (v : jsval) : option string :=
  match v with
  | JStr s => Some s
  | _ => None
  end.

(** One [$set] of an update.  The handlers set [status] and paths under
    [payment]; the String paths of the schema are modelled, an update of
    any other declared path counts as a failed cast.  Update validators are
    off by default, so no [enum] is checked here. *)
Definition apply_set (strict : bool) (o : Order) (pv : string * jsval)
  : option Order :=
  let '(p, v) := pv in
  if (p =? "status")%string then s ← cast_string v; Some (set_status s o)
  else if (p =? "paymentStatus")%string then
    s ← cast_string v; Some (set_paymentStatus s o)
  else if (p =? "paymentMethod")%string then
    s ← cast_string v; Some (set_paymentMethod s o)
  else if (p =? "notes")%string then s ← cast_string v; Some (set_notes s o)
  else if in_schema p then None
  else if strict then Some o
  else Some (set_extra p v o).

Definition apply_update (strict : bool) (upd : list (string * jsval)) (o : Order)
  : option Order :=
  foldl (fun acc pv => o' ← acc; apply_set strict o' pv) (Some o) upd.

(** [Order.findById(id)] *)
Definition findById `{Externals} (id : jsval) (db : Orders) : Exn (option Order) :=
  match castObjectId id with
  | None => Throw "CastError"
  | Some k => Ret (db !! k)
  end.

(** [Order.findByIdAndUpdate(id, update, { new })]: the document found
    (after the update when [new] is set), or [null]. *)
Definition findByIdAndUpdate `{Externals} (new : bool) (now : Z) (id : jsval)
    (upd : list (string * jsval)) (db : Orders) : Exn (option Order) * Orders :=
  match castObjectId id with
  | None => (Throw "CastError", db)
  | Some k =>
      match db !! k with
      | None => (Ret None, db)
      | Some o =>
          match apply_update strictMode upd o with
          | None => (Throw "CastError", db)
          | Some o' =>
              let o'' := set_updatedAt now o' in
              (Ret (Some (if new then o'' else o)), <[k := o'']> db)
          end
      end
  end.

End OrderModel.

(** ** Response bodies *)

Record TimelineEntry := {
  te_status : string;
  te_title : string;
  te_description : string;
  te_timestamp : option Z;
  te_completed : bool
}.

(** The body of [trackOrder]: [{ order: { id, status, total, estimatedTime },
    timeline, courier }]. *)
Record TrackInfo := {
  tr_id : option string;
  tr_status : option string;
  tr_total : Z;
  tr_estimatedTime : option Z;
  tr_timeline : list TimelineEntry;
  tr_courier : option (option string * option string)
}.

(** What the handlers pass to [res.json]: [{ message }]; [order.toJSON()],
    the stored fields with [id] in place of [_id]; [{ ok: true }];
    [{ intentId, redirectUrl }]; the tracker's body; and [{ message, user }]
    with the new user's id, name, phone, role and isActive. *)
Inductive Body :=
| Message (message : string)
| OrderJSON (order : Order)
| OkTrue
| Intent (intentId redirectUrl : string)
| Tracking (info : TrackInfo)
| UserCreated (message : string) (id : string) (user : User).

(** [process.env] *)
Record Env := {
  CLIENT_URL : option string;
  PAYME_SECRET : option string;
  CLICK_SECRET : option string;
  JWT_SECRET_env : option string
}.

(** ** routes/orders.ts *)

Module Orders.

(** The document [{ userId, items, totals, address }] that [createOrder]
    hands to [Order.create], for the caller [u] and the body [b]. *)
Definition new_order_doc (u : TokenPayload) (b : jsval) : list (string * jsval) :=
  [("userId", JStr (tp_id u)); ("items", get "items" b);
   ("totals", get "totals" b); ("address", get "address" b)].

(** [req.user] is what [requireAuth] stored, or absent when the route is
    mounted without it; [req.user.id] on an absent user is a TypeError,
    caught by the handler's [catch]. *)
Definition createOrder (user : option TokenPayload) (body : jsval)
    (fresh_id : string) (now : Z) (db : Orders) : Outcome Body * Orders :=
  match user with
  | None => (Sent 500 (Message "Server error"), db)
  | Some u =>
      let userId := tp_id u in
      let b := or_else body (JObj []) in
      let items := get "items" b in
      let totals := get "totals" b in
      let address := get "address" b in
      if negb (truthy items) || negb (truthy totals) || negb (truthy address)
      then (Sent 400 (Message "items, totals, address required"), db)
      else
        match OrderModel.create fresh_id now
                [("userId", JStr userId); ("items", items);
                 ("totals", totals); ("address", address)] db with
        | (Ret order, db') => (Sent 201 (OrderJSON order), db')
        | (Throw _, db') => (Sent 500 (Message "Server error"), db')
        end
  end.

Definition okStatuses : list string :=
  ["pending"; "processing"; "in_transit"; "delivered"; "cancelled"].

Definition updateOrderStatus `{Externals} (orderId : string) (body : jsval)
    (now : Z) (db : Orders) : Outcome Body * Orders :=
  let status := get "status" (or_else body (JObj [])) in
  if negb (includes okStatuses status)
  then (Sent 400 (Message "Invalid status"), db)
  else
    match OrderModel.findByIdAndUpdate true now (JStr orderId)
            [("status", status)] db with
    | (Ret (Some order), db') => (Sent 200 (OrderJSON order), db')
    | (Ret None, db') => (Sent 404 (Message "Order not found"), db')
    | (Throw _, db') => (Sent 500 (Message "Server error"), db')
    end.

End Orders.

(** ** routes/delivery.ts: the delivery tracker *)

Module Delivery.

Definition stage (st ttl descr : string) (ts : option Z) : TimelineEntry :=
  {| te_status := st; te_title := ttl; te_description := descr;
     te_timestamp := ts; te_completed := true |}.

(** [xs.includes(s)] for an array of strings; [null] is in none. *)
Definition is_one_of (xs : list string) (s : option string) : bool :=
  match s with
  | Some s => existsb (String.eqb s) xs
  | None => false
  end.

(** [s === lit] *)
Definition is_exactly (s : option string) (lit : string) : bool :=
  match s with
  | Some s => (s =? lit)%string
  | None => false
  end.

(** The [timeline] array [trackOrder] builds, push by push. *)
Definition timeline (order : Order) : list TimelineEntry :=
  let t0 :=
    [stage "pending" "Buyurtma qabul qilindi"
       "Sizning buyurtmangiz qabul qilingan" (Some (createdAt order))] in
  let t1 :=
    if is_one_of ["confirmed"; "preparing"; "ready_for_delivery";
                  "in_transit"; "delivered"] (status order)
    then push t0 (stage "confirmed" "Buyurtma tasdiqlandi"
                  "Buyurtmangiz tasdiqlangan va tayyorlanmoqda" None)
    else t0 in
  let t2 :=
    if is_one_of ["preparing"; "ready_for_delivery"; "in_transit";
                  "delivered"] (status order)
    then push t1 (stage "preparing" "Tayyorlanmoqda"
                  "Mahsulotlar yig'ilib, qadoqlanmoqda" None)
    else t1 in
  let t3 :=
    if is_one_of ["ready_for_delivery"; "in_transit"; "delivered"]
         (status order)
    then push t2 (stage "ready_for_delivery" "Yetkazish uchun tayyor"
                  "Buyurtma kuryerga berilish uchun tayyor" None)
    else t2 in
  let t4 :=
    if is_one_of ["in_transit"; "delivered"] (status order)
    then push t3 (stage "in_transit" "Yo'lda"
                  ("Kuryer: " ++
                   (if truthy_str (courierName (delivery order))
                    then default "" (courierName (delivery order))
                    else "Noma'lum")) None)
    else t3 in
  if is_exactly (status order) "delivered"
  then push t4 (stage "delivered" "Yetkazib berildi"
                "Buyurtma muvaffaqiyatli yetkazib berildi" None)
  else t4.

(** [Order.findById(orderId).lean()] returns the stored fields without the
    [id] virtual, so [order.id] is undefined in the summary.  A stored
    document has the sub-documents the schema requires, so reading
    [order.delivery.courierId] does not throw. *)
Definition trackOrder `{Externals} (orderId : string) (db : Orders)
  : Outcome Body :=
  match OrderModel.findById (JStr orderId) db with
  | Throw _ => Sent 500 (Message "Server error")
  | Ret None => Sent 404 (Message "Order not found")
  | Ret (Some order) =>
      Sent 200 (Tracking
        {| tr_id := None;
           tr_status := status order;
           tr_total := total (totals order);
           tr_estimatedTime := estimatedTime (delivery order);
           tr_timeline := timeline order;
           tr_courier :=
             if truthy_str (courierId (delivery order))
             then Some (courierName (delivery order),
                        courierPhone (delivery order))
             else None |})
  end.

(** The delivery stages in their order. *)
Definition stages : list string :=
  ["pending"; "confirmed"; "preparing"; "ready_for_delivery"; "in_transit";
   "delivered"].

(** The statuses an order has held, oldest first: an order starts in the
    schema's default status ([createOrder] passes no [status] to
    [Order.create]), and the last entry is the status it holds now. *)
Definition lifecycle (history : list string) (order : Order) : Prop :=
  head history = Some status_default /\ last history = status order.

End Delivery.

(** ** routes/payments.ts *)

Module Payments.

Definition hex_digit (n : N) : ascii :=
  match n with
  | 0 => "0" | 1 => "1" | 2 => "2" | 3 => "3" | 4 => "4" | 5 => "5"
  | 6 => "6" | 7 => "7" | 8 => "8" | 9 => "9" | 10 => "a" | 11 => "b"
  | 12 => "c" | 13 => "d" | 14 => "e" | _ => "f"
  end%N%char.

(** [buffer.toString("hex")]: two digits per byte, high nibble first. *)
Fixpoint toString_hex (bs : list Byte.byte) : string :=
  match bs with
  | [] => EmptyString
  | b :: rest =>
      String (hex_digit (Byte.to_N b / 16))
        (String (hex_digit (Byte.to_N b mod 16)) (toString_hex rest))
  end.

(** A lower-case hexadecimal digit. *)
Definition is_hex (c : ascii) : bool :=
  existsb (Ascii.eqb c) (list_ascii_of_string "0123456789abcdef").

(** [randomBytes8] is the result of [crypto.randomBytes(8)]. *)
Definition idempotencyKey (id : option string) (randomBytes8 : list Byte.byte)
  : string :=
  if truthy_str id then default "" id else toString_hex randomBytes8.

(** [process.env.CLIENT_URL || "http://localhost:5173"] *)
Definition client_url (env : Env) : string :=
  if truthy_str (CLIENT_URL env) then default "" (CLIENT_URL env)
  else "http://localhost:5173".

Definition redirect `{Externals} (env : Env) (orderId : jsval)
    (intentId : string) : string :=
  client_url env ++ "/payment/success?orderId=" ++ toStr orderId
    ++ "&intentId=" ++ intentId.

Definition createPayme `{Externals} (env : Env) (body : jsval)
    (randomBytes8 : list Byte.byte) (now : Z) (db : Orders)
  : Outcome Body * Orders :=
  let b := or_else body (JObj []) in
  let orderId := get "orderId" b in
  let amount := get "amount" b in
  if negb (truthy orderId) || negb (truthy amount)
  then (Sent 400 (Message "orderId and amount required"), db)
  else
    let intentId := idempotencyKey None randomBytes8 in
    match OrderModel.findByIdAndUpdate false now orderId
            [("payment.method", JStr "payme");
             ("payment.status", JStr "pending");
             ("payment.intentId", JStr intentId)] db with
    | (Throw e, db') => (Uncaught e, db')
    | (Ret _, db') =>
        (Sent 200 (Intent intentId (redirect env orderId intentId)), db')
    end.

Definition createClick `{Externals} (env : Env) (body : jsval)
    (randomBytes8 : list Byte.byte) (now : Z) (db : Orders)
  : Outcome Body * Orders :=
  let b := or_else body (JObj []) in
  let orderId := get "orderId" b in
  let amount := get "amount" b in
  if negb (truthy orderId) || negb (truthy amount)
  then (Sent 400 (Message "orderId and amount required"), db)
  else
    let intentId := idempotencyKey None randomBytes8 in
    match OrderModel.findByIdAndUpdate false now orderId
            [("payment.method", JStr "click");
             ("payment.status", JStr "pending");
             ("payment.intentId", JStr intentId)] db with
    | (Throw e, db') => (Uncaught e, db')
    | (Ret _, db') =>
        (Sent 200 (Intent intentId (redirect env orderId intentId)), db')
    end.

(** [crypto.timingSafeEqual(Buffer.from(a), Buffer.from(b))]: a RangeError
    when the two buffers differ in byte length.  A string is the sequence
    of its bytes. *)
Definition timingSafeEqual (a b : string) : Exn bool :=
  if Nat.eqb (String.length a) (String.length b)
  then Ret (a =? b)%string
  else Throw "RangeError".

Definition verifySignature `{Externals} (raw : string)
    (signature secret : option string) : Exn bool :=
  if negb (truthy_str signature) || negb (truthy_str secret) then Ret false
  else
    let hmac := hmac_sha256_hex (default "" secret) raw in
    timingSafeEqual hmac (default "" signature).

(** [x_signature] is [req.headers["x-signature"]]; [now] is [new Date()]. *)
Definition paymeWebhook `{Externals} (env : Env) (x_signature : option string)
    (body : jsval) (now : Z) (db : Orders) : Outcome Body * Orders :=
  let raw := JSON_stringify (or_else body (JObj [])) in
  match verifySignature raw x_signature (PAYME_SECRET env) with
  | Throw e => (Uncaught e, db)
  | Ret false => (Sent 401 (Message "invalid"), db)
  | Ret true =>
      let b := or_else body (JObj []) in
      let intentId := get "intentId" b in
      let orderId := get "orderId" b in
      if negb (truthy intentId) || negb (truthy orderId)
      then (Sent 400 (Message "invalid payload"), db)
      else
        match OrderModel.findByIdAndUpdate false now orderId
                [("status", JStr "paid");
                 ("payment.status", JStr "paid");
                 ("payment.paidAt", JNum now)] db with
        | (Throw e, db') => (Uncaught e, db')
        | (Ret _, db') => (Sent 200 OkTrue, db')
        end
  end.

Definition clickWebhook `{Externals} (env : Env) (x_signature : option string)
    (body : jsval) (now : Z) (db : Orders) : Outcome Body * Orders :=
  let raw := JSON_stringify (or_else body (JObj [])) in
  match verifySignature raw x_signature (CLICK_SECRET env) with
  | Throw e => (Uncaught e, db)
  | Ret false => (Sent 401 (Message "invalid"), db)
  | Ret true =>
      let b := or_else body (JObj []) in
      let intentId := get "intentId" b in
      let orderId := get "orderId" b in
      if negb (truthy intentId) || negb (truthy orderId)
      then (Sent 400 (Message "invalid payload"), db)
      else
        match OrderModel.findByIdAndUpdate false now orderId
                [("status", JStr "paid");
                 ("payment.status", JStr "paid");
                 ("payment.paidAt", JNum now)] db with
        | (Throw e, db') => (Uncaught e, db')
        | (Ret _, db') => (Sent 200 OkTrue, db')
        end
  end.

(** A delivery the provider signed, for a stored order: the secret is
    configured, the header is the digest of the body as the handler
    serialises it, [intentId] and [orderId] are present, and [orderId]
    names the stored order [k]. *)
Definition signed_delivery `{Externals} (env : Env) (sig : option string)
    (body : jsval) (k : string) : Prop :=
  let b := or_else body (JObj []) in
  (exists secret,
     PAYME_SECRET env = Some secret /\ secret <> "" /\
     sig = Some (hmac_sha256_hex secret (JSON_stringify b)))
  /\ truthy (get "intentId" b) = true
  /\ truthy (get "orderId" b) = true
  /\ castObjectId (get "orderId" b) = Some k.

(** Repeated deliveries of one request to [handler], at the times [nows]:
    the responses in order and the collection afterwards. *)
Fixpoint replay (handler : Z -> Orders -> Outcome Body * Orders)
    (nows : list Z) (db : Orders) : list (Outcome Body) * Orders :=
  match nows with
  | [] => ([], db)
  | now :: rest =>
      let '(out, db1) := handler now db in
      let '(outs, db2) := replay handler rest db1 in
      (out :: outs, db2)
  end.

End Payments.

(** ** The User model *)

Module UserModel.

(** [User.findById(id)]: the document with its id, or [null]. *)
Definition findById `{Externals} (id : jsval) (users : Users)
  : Exn (option (string * User)) :=
  match castObjectId id with
  | None => Throw "CastError"
  | Some k => Ret (pair k <$> users !! k)
  end.

End UserModel.

(** ** routes/auth.ts and middleware/permissions.ts *)

(** What a middleware does: call [next()] with [req.user] set, or answer. *)
Inductive Gate (U : Type) :=
| Next (user : U)
| Rejected (statusCode : Z) (message : string).
Arguments Next {U} user.
Arguments Rejected {U} statusCode message.

Module Auth.

(** [const JWT_SECRET = process.env.JWT_SECRET || "dev_secret_change_me"] *)
Definition JWT_SECRET (env : Env) : string :=
  if truthy_str (JWT_SECRET_env env) then default "" (JWT_SECRET_env env)
  else "dev_secret_change_me".

(** [s.slice(n)] *)
Fixpoint slice (n : nat) (s : string) : string :=
  match n, s with
  | O, _ => s
  | S n', String _ rest => slice n' rest
  | S _, EmptyString => EmptyString
  end.

(** [authorization] is [req.headers.authorization]. *)
Definition requireAuth `{Externals} (env : Env) (authorization : option string)
  : Gate TokenPayload :=
  let auth := default "" authorization in
  let token := if String.prefix "Bearer " auth then Some (slice 7 auth) else None in
  if negb (truthy_str token) then Rejected 401 "Missing token"
  else
    match jwt_verify (default "" token) (JWT_SECRET env) with
    | Some decoded => Next decoded
    | None => Rejected 401 "Invalid token"
    end.

Definition requireRole (roles : list string) (current : option TokenPayload)
  : Gate TokenPayload :=
  match current with
  | None => Rejected 403 "Forbidden"
  | Some c =>
      if (tp_role c =? "")%string then Rejected 403 "Forbidden"
      else if negb (existsb (String.eqb (tp_role c)) roles)
      then Rejected 403 "Forbidden"
      else Next c
  end.

End Auth.

Module Permissions.

(** [req.user] as [authenticateToken] sets it. *)
Record AuthUser := {
  au_id : string;
  au_role : string;
  au_name : string;
  au_phone : string
}.

(** [s.split(sep)] *)
Fixpoint split (sep : ascii) (s : string) : list string :=
  match s with
  | EmptyString => [EmptyString]
  | String c rest =>
      if Ascii.eqb c sep then EmptyString :: split sep rest
      else
        match split sep rest with
        | [] => [String c EmptyString]
        | w :: ws => String c w :: ws
        end
  end.

Fixpoint contains (c : ascii) (s : string) : bool :=
  match s with
  | EmptyString => false
  | String c' rest => Ascii.eqb c' c || contains c rest
  end.

(** [authHeader && authHeader.split(' ')[1]] *)
Definition token_of (authHeader : option string) : option string :=
  if truthy_str authHeader
  then split " " (default "" authHeader) !! 1%nat
  else None.

(** [process.env.JWT_SECRET || 'fallback-secret'] *)
Definition secret (env : Env) : string :=
  if truthy_str (JWT_SECRET_env env) then default "" (JWT_SECRET_env env)
  else "fallback-secret".

Definition authenticateToken `{Externals} (env : Env)
    (authorization : option string) (users : Users) : Gate AuthUser :=
  let token := token_of authorization in
  if negb (truthy_str token) then Rejected 401 "Access token required"
  else
    match jwt_verify (default "" token) (secret env) with
    | None => Rejected 403 "Invalid token"
    | Some decoded =>
        match UserModel.findById (JStr (tp_id decoded)) users with
        | Throw _ => Rejected 403 "Invalid token"
        | Ret None => Rejected 401 "Invalid or inactive user"
        | Ret (Some (id, user)) =>
            if negb (u_isActive user)
            then Rejected 401 "Invalid or inactive user"
            else Next {| au_id := id; au_role := u_role user;
                         au_name := u_name user; au_phone := u_phone user |}
        end
    end.

End Permissions.

(** ** routes/admin.ts: user management *)

Module Admin.

(** The identity of the caller who is logged in as the account stored
    under [k]: the [{ id, role }] that [signToken] is given for it. *)
Definition identity_of (k : string) (account : User) : TokenPayload :=
  {| tp_id := k; tp_role := u_role account |}.

(** [v === s] for a string literal [s]. *)
Definition is_str (v : jsval) (s : string) : bool :=
  match v with
  | JStr s' => (s' =? s)%string
  | _ => false
  end.

(** [role === r && currentUser.role !== 'admin']: [None] is the TypeError
    of reading [role] from an absent [currentUser]. *)
Definition only_admin (role : jsval) (r : string)
    (currentUser : option TokenPayload) : option bool :=
  if is_str role r then
    match currentUser with
    | None => None
    | Some cu => Some (negb (tp_role cu =? "admin")%string)
    end
  else Some false.

(** Truthiness of [await User.findOne({ phone })]. *)
Definition phone_registered (phone : jsval) (users : Users) : bool :=
  match phone with
  | JStr p =>
      existsb (fun kv => (u_phone (snd kv) =? p)%string) (map_to_list users)
  | _ => false
  end.

Definition createUser `{Externals} (currentUser : option TokenPayload)
    (body : jsval) (fresh_id : string) (users : Users)
  : Outcome Body * Users :=
  match body with
  | JUndefined | JNull => (Sent 500 (Message "Server error"), users)
  | _ =>
      let name := get "name" body in
      let phone := get "phone" body in
      let password := get "password" body in
      let role := get "role" body in
      match only_admin role "admin" currentUser with
      | None => (Sent 500 (Message "Server error"), users)
      | Some true =>
          (Sent 403 (Message "Only admin can create admin accounts"), users)
      | Some false =>
          match only_admin role "moderator" currentUser with
          | None => (Sent 500 (Message "Server error"), users)
          | Some true =>
              (Sent 403 (Message "Only admin can create moderator accounts"),
               users)
          | Some false =>
              if phone_registered phone users
              then (Sent 400 (Message "Phone number already registered"), users)
              else
                match password, currentUser with
                | JStr pw, Some cu =>
                    match build_user name phone (bcrypt_hash pw) role
                            (tp_id cu) with
                    | Some user =>
                        (Sent 201 (UserCreated "User created successfully"
                                     fresh_id user),
                         <[fresh_id := user]> users)
                    | None => (Sent 500 (Message "Server error"), users)
                    end
                | _, _ => (Sent 500 (Message "Server error"), users)
                end
          end
      end
  end.

(** [id] is [req.params.id]; [user.id] is the key the document is stored
    under.  Reading [currentUser.id] from an absent [currentUser] is a
    TypeError, caught by the handler. *)
Definition deleteUser `{Externals} (currentUser : option TokenPayload)
    (id : string) (users : Users) : Outcome Body * Users :=
  match UserModel.findById (JStr id) users with
  | Throw _ => (Sent 500 (Message "Server error"), users)
  | Ret None => (Sent 404 (Message "User not found"), users)
  | Ret (Some (user_id, user)) =>
      match only_admin (JStr (u_role user)) "admin" currentUser with
      | None => (Sent 500 (Message "Server error"), users)
      | Some true =>
          (Sent 403 (Message "Only admin can delete admin accounts"), users)
      | Some false =>
          match currentUser with
          | None => (Sent 500 (Message "Server error"), users)
          | Some cu =>
              if (user_id =? tp_id cu)%string
              then (Sent 400 (Message "Cannot delete your own account"), users)
              else (Sent 200 (Message "User deleted successfully"),
                    delete user_id users)
          end
      end
  end.

End Admin.

(** ** models/AuditLog.ts and middleware/auditLogger.ts *)

Module Audit.

Import Permissions.

(** The parts of the request the middleware reads. *)
Record Request := {
  req_user : option AuthUser;
  req_method : string;
  req_originalUrl : string;
  req_params : list (string * string);
  req_query : jsval;
  req_body : jsval;
  req_ip : option string;
  req_remoteAddress : option string;
  req_userAgent : option string
}.

Record Details := {
  d_method : string;
  d_url : string;
  d_params : list (string * string);
  d_query : jsval;
  d_body : jsval;
  d_responseTime : Z;
  d_statusCode : Z
}.

(** The argument of [logAction]. *)
Record LogData := {
  l_userId : string;
  l_userName : string;
  l_userRole : string;
  l_action : string;
  l_resource : string;
  l_resourceId : jsval;
  l_details : Details;
  l_ipAddress : option string;
  l_userAgent : option string;
  l_success : bool;
  l_errorMessage : jsval
}.

(** A persisted AuditLog document: [{ ...logData, timestamp }]. *)
Record AuditLog := {
  a_data : LogData;
  a_timestamp : Z
}.

Definition userRole_enum : list string := ["admin"; "moderator"; "user"].

Definition action_enum : list string :=
  ["login"; "logout"; "register"; "profile_update";
   "create"; "read"; "update"; "delete"; "list";
   "approve"; "reject"; "moderate"; "assign"; "unassign";
   "activate"; "deactivate"; "reset_password"; "change_role";
   "order_create"; "order_update"; "order_cancel"; "order_deliver";
   "backup"; "restore"; "system_config"].

Definition resource_enum : list string :=
  ["user"; "product"; "category"; "order"; "comment";
   "delivery"; "payment"; "coupon"; "analytics"; "system"].

(** A value a String path accepts: arrays and objects fail the cast. *)
Definition string_castable (v : jsval) : bool :=
  match v with
  | JArr _ | JObj _ => false
  | _ => true
  end.

(** AuditLogSchema's validation of a new document. *)
Definition valid (d : LogData) : bool :=
  negb (l_userId d =? "")%string
  && negb (l_userName d =? "")%string
  && in_enum userRole_enum (l_userRole d)
  && in_enum action_enum (l_action d)
  && in_enum resource_enum (l_resource d)
  && string_castable (l_resourceId d)
  && string_castable (l_errorMessage d).

(** [logAction]: the document is saved with [timestamp: new Date()]; an
    error of [save] is caught and only printed. *)
Definition logAction (logData : LogData) (now : Z) (logs : list AuditLog)
  : list AuditLog :=
  if valid logData
  then app logs [{| a_data := logData; a_timestamp := now |}]
  else logs.

Definition sensitiveFields : list string :=
  ["password"; "confirmPassword"; "oldPassword"; "newPassword"; "token";
   "secret"].

(** [typeof body === 'object'] *)
Definition is_object (body : jsval) : bool :=
  match body with
  | JNull | JArr _ | JObj _ => true
  | _ => false
  end.

(** [{ ...body }]: an object's own fields; an array's elements under their
    indices. *)
Definition spread (body : jsval) : list (string * jsval) :=
  match body with
  | JObj fields => fields
  | JArr xs => imap (fun i x => (pretty i, x)) xs
  | _ => []
  end.

Definition redact (sanitized : list (string * jsval)) (field : string)
  : list (string * jsval) :=
  if truthy (lookup_field field sanitized)
  then assign_field field (JStr "[REDACTED]") sanitized
  else sanitized.

Definition sanitizeBody (body : jsval) : jsval :=
  if negb (truthy body) || negb (is_object body) then body
  else JObj (fold_left redact sensitiveFields (spread body)).

Definition lower_ascii (c : ascii) : ascii :=
  let n := N_of_ascii c in
  if ((65 <=? n) && (n <=? 90))%N then ascii_of_N (n + 32) else c.

(** [s.toLowerCase()] on ASCII text. *)
Fixpoint toLowerCase (s : string) : string :=
  match s with
  | EmptyString => EmptyString
  | String c rest => String (lower_ascii c) (toLowerCase rest)
  end.

Fixpoint param (k : string) (params : list (string * string)) : option string :=
  match params with
  | [] => None
  | (k', v) :: rest => if (k =? k')%string then Some v else param k rest
  end.

(** [req.params.id || req.params.userId || req.params.productId ||
    req.body.id]; reading [id] from an absent body is a TypeError. *)
Definition resourceId (req : Request) : Exn jsval :=
  let ps := req_params req in
  if truthy_str (param "id" ps) then Ret (JStr (default "" (param "id" ps)))
  else if truthy_str (param "userId" ps)
  then Ret (JStr (default "" (param "userId" ps)))
  else if truthy_str (param "productId" ps)
  then Ret (JStr (default "" (param "productId" ps)))
  else
    match req_body req with
    | JUndefined | JNull => Throw "TypeError"
    | b => Ret (get "id" b)
    end.

(** [res.statusCode >= 400 ? body.message || 'Unknown error' : undefined] *)
Definition errorMessage (statusCode : Z) (body : jsval) : Exn jsval :=
  if 400 <=? statusCode then
    match body with
    | JUndefined | JNull => Throw "TypeError"
    | _ => Ret (or_else (get "message" body) (JStr "Unknown error"))
    end
  else Ret JUndefined.

Definition or_str (a : option string) (b : string) : string :=
  if truthy_str a then default "" a else b.

(** The object [logData] of the wrapped [res.json]. *)
Definition logData_of (resource : string) (action : option string)
    (req : Request) (u : AuthUser) (responseTime statusCode : Z)
    (rid msg : jsval) : LogData :=
  {| l_userId := au_id u;
     l_userName := or_str (Some (au_name u)) "Unknown";
     l_userRole := or_str (Some (au_role u)) "unknown";
     l_action := or_str action (toLowerCase (req_method req));
     l_resource := resource;
     l_resourceId := rid;
     l_details :=
       {| d_method := req_method req;
          d_url := req_originalUrl req;
          d_params := req_params req;
          d_query := req_query req;
          d_body := sanitizeBody (req_body req);
          d_responseTime := responseTime;
          d_statusCode := statusCode |};
     l_ipAddress :=
       if truthy_str (req_ip req) then req_ip req else req_remoteAddress req;
     l_userAgent := req_userAgent req;
     l_success := statusCode <? 400;
     l_errorMessage := msg |}.

(** One call [res.json(body)] on the response the middleware
    [auditLogger(resource, action)] has wrapped, with [res.statusCode =
    statusCode]: [Ret tt] when the original [json] is reached (the response
    is written), and the audit collection afterwards.  [startTime] and
    [endTime] are the two readings of [Date.now()], [now] is the
    [new Date()] of [logAction]. *)
Definition auditLogger (resource : string) (action : option string)
    (req : Request) (startTime endTime now : Z) (statusCode : Z)
    (body : jsval) (logs : list AuditLog) : Exn unit * list AuditLog :=
  let responseTime := endTime - startTime in
  match req_user req with
  | Some u =>
      if negb (au_id u =? "")%string then
        match resourceId req with
        | Throw e => (Throw e, logs)
        | Ret rid =>
            match errorMessage statusCode body with
            | Throw e => (Throw e, logs)
            | Ret msg =>
                let logData :=
                  logData_of resource action req u responseTime statusCode
                    rid msg in
                (Ret tt, logAction logData now logs)
            end
        end
      else (Ret tt, logs)
  | None => (Ret tt, logs)
  end.

End Audit.

(** ** A concrete platform for the worked examples *)

Module Example.

Import Payments.

(** A stand-in digest of the right shape: 32 bytes in hex, the last one a
    checksum of the key and the message. *)
Fixpoint checksum (s : string) : N :=
  match s with
  | EmptyString => 0%N
  | String c rest => ((N_of_ascii c + checksum rest) mod 256)%N
  end.

Definition digest (secret raw : string) : string :=
  toString_hex
    (app (repeat Byte.x00 31)
         [default Byte.x00 (Byte.of_N (checksum (secret ++ raw)))]).

Definition render (v : jsval) : string :=
  match v with
  | JStr s => s
  | JNum n => pretty n
  | JBool true => "true"
  | JBool false => "false"
  | JNull => "null"
  | JUndefined => "undefined"
  | JArr _ => "array"
  | JObj _ => "[object Object]"
  end.

(** Field names and rendered values, in order. *)
Definition stringify (v : jsval) : string :=
  match v with
  | JObj fields =>
      fold_right (fun kv acc => fst kv ++ ":" ++ render (snd kv) ++ ";" ++ acc)
        "" fields
  | _ => render v
  end.

(** Tokens of the form [id.role], signed with any secret. *)
Definition verify (token secret : string) : option TokenPayload :=
  match Permissions.split "." token with
  | [i; r] => Some {| tp_id := i; tp_role := r |}
  | _ => None
  end.

Definition cast (v : jsval) : option string :=
  match v with
  | JStr s => if (s =? "")%string then None else Some s
  | _ => None
  end.

Definition build (name phone : jsval) (hashed : string) (role : jsval)
    (createdBy : string) : option User :=
  match name, phone, role with
  | JStr n, JStr p, JStr r =>
      if in_enum ["admin"; "moderator"; "user"] r
      then Some {| u_name := n; u_phone := p; u_password := hashed;
                   u_role := r; u_isActive := true;
                   u_createdBy := Some createdBy |}
      else None
  | _, _, _ => None
  end.

Definition platform : Externals :=
  {| hmac_sha256_hex := digest;
     JSON_stringify := stringify;
     jwt_verify := verify;
     bcrypt_hash := fun pw => "$2a$10$" ++ pw;
     castObjectId := cast;
     toStr := render;
     build_user := build;
     strictMode := true;
     hmac_hex_length := fun _ _ => eq_refl |}.

(** The environment of the test suite. *)
Definition env : Env :=
  {| CLIENT_URL := Some "http://localhost:5173";
     PAYME_SECRET := Some "payme_secret";
     CLICK_SECRET := Some "click_secret";
     JWT_SECRET_env := None |}.

Definition addr : Address :=
  {| fullName := "John"; phone := "123"; country := "UZ"; city := "Tashkent";
     street := "Main"; zip := "100000"; isDefault := false |}.

(** A stored order [o1]: one Tee, pending, unpaid. *)
Definition o1 : Order :=
  {| _id := "o1"; userId := "u1";
     items := [{| productId := "p1"; title := "Tee"; slug := "tee";
                  price := 10; qty := 1; color := None; size := None;
                  image := "img" |}];
     totals := {| subtotal := 10; shipping := 0; tax := 0; total := 10 |};
     status := Some "pending"; address := addr;
     delivery := {| coordinates := {| latitude := None; longitude := None |};
                    d_address := addr;
                    estimatedTime := None; courierId := None;
                    courierName := None; courierPhone := None;
                    instructions := None |};
     paymentStatus := Some "pending"; paymentMethod := None; notes := None;
     createdAt := 1000; updatedAt := 1000; extra := [] |}.

Definition db1 : Orders := {[ "o1" := o1 ]}.

(** The payload of the webhook tests. *)
Definition payload : jsval :=
  JObj [("intentId", JStr "i1"); ("orderId", JStr "o1"); ("amount", JNum 1000)].

Definition good_signature : string := digest "payme_secret" (stringify payload).

(** The request body of the order-creation scenario. *)
Definition order_body (items : jsval) : jsval :=
  JObj [("items", items);
        ("totals", JObj [("subtotal", JNum 10); ("shipping", JNum 0);
                         ("tax", JNum 0); ("total", JNum 10)]);
        ("address", JObj [("fullName", JStr "John"); ("phone", JStr "123");
                          ("country", JStr "UZ"); ("city", JStr "Tashkent");
                          ("street", JStr "Main"); ("zip", JStr "100000")])].

Definition tee (q : Z) : jsval :=
  JObj [("productId", JStr "p1"); ("title", JStr "Tee"); ("slug", JStr "tee");
        ("price", JNum 10); ("qty", JNum q); ("image", JStr "img")].

Definition admin_u1 : User :=
  {| u_name := "Root"; u_phone := "+998900000001"; u_password := "h1";
     u_role := "admin"; u_isActive := true; u_createdBy := None |}.

Definition moderator_u2 : User :=
  {| u_name := "Mod"; u_phone := "+998900000002"; u_password := "h2";
     u_role := "moderator"; u_isActive := true; u_createdBy := Some "u1" |}.

Definition inactive_u3 : User :=
  {| u_name := "Gone"; u_phone := "+998900000003"; u_password := "h3";
     u_role := "user"; u_isActive := false; u_createdBy := Some "u1" |}.

Definition users1 : Users :=
  {[ "u1" := admin_u1; "u2" := moderator_u2; "u3" := inactive_u3 ]}.

Definition admin : Permissions.AuthUser :=
  {| Permissions.au_id := "u1"; Permissions.au_role := "admin";
     Permissions.au_name := "Root"; Permissions.au_phone := "+998900000001" |}.

(** [POST /api/admin/users] by the admin, with the given body. *)
Definition post_user (body : jsval) : Audit.Request :=
  {| Audit.req_user := Some admin; Audit.req_method := "POST";
     Audit.req_originalUrl := "/api/admin/users"; Audit.req_params := [];
     Audit.req_query := JObj []; Audit.req_body := body;
     Audit.req_ip := Some "10.0.0.1"; Audit.req_remoteAddress := None;
     Audit.req_userAgent := Some "curl" |}.

Definition new_user_fields : list (string * jsval) :=
  [("name", JStr "Eve"); ("phone", JStr "+998900000009");
   ("password", JStr "hunter2"); ("role", JStr "user")].

End Example.

(** * Properties *)

(** ** Signature verification and rejection (routes/payments.ts) *)

Section Signature.
Context `{Externals}.
Import Payments.

Lemma length_64_nonempty (s : string) :
  String.length s = 64%nat -> (s =? "")%string = false.
Proof. destruct s; [discriminate | reflexivity]. Qed.

Lemma truthy_str_Some (s : string) :
  truthy_str (Some s) = true <-> s <> "".
Proof.
  unfold truthy_str. destruct (String.eqb_spec s "") as [-> | Hne]; simpl.
  - split; [discriminate | congruence].
  - split; auto.
Qed.

(** What [verifySignature] returns, case by case. *)
Lemma verifySignature_cases (raw : string) (signature secret : option string) :
  verifySignature raw signature secret =
    if negb (truthy_str signature) || negb (truthy_str secret) then Ret false
    else if Nat.eqb (String.length (default "" signature)) 64
    then Ret (hmac_sha256_hex (default "" secret) raw =? default "" signature)%string
    else Throw "RangeError".
Proof.
  unfold verifySignature, timingSafeEqual.
  destruct (negb (truthy_str signature) || negb (truthy_str secret)); [reflexivity |].
  rewrite hmac_hex_length.
  rewrite (Nat.eqb_sym 64). reflexivity.
Qed.

(** The digest of the raw body under a configured secret verifies. *)
Lemma verifySignature_valid (raw secret : string) :
  secret <> "" ->
  verifySignature raw (Some (hmac_sha256_hex secret raw)) (Some secret) = Ret true.
Proof.
  intros Hs. rewrite verifySignature_cases. simpl.
  rewrite (length_64_nonempty _ (hmac_hex_length secret raw)). simpl.
  destruct (String.eqb_spec secret "") as [? | _]; [contradiction |]. simpl.
  rewrite hmac_hex_length. simpl. now rewrite String.eqb_refl.
Qed.

(** An absent or empty header, or an absent or empty secret: fail closed. *)
Lemma verifySignature_fail_closed (raw : string) (signature secret : option string) :
  truthy_str signature = false \/ truthy_str secret = false ->
  verifySignature raw signature secret = Ret false.
Proof.
  intros [E | E]; rewrite verifySignature_cases, E; simpl;
    [reflexivity | now rewrite orb_true_r].
Qed.

(** A header of the digest's length that differs from it is refused. *)
Lemma verifySignature_wrong_same_length (raw sig secret : string) :
  String.length sig = 64%nat ->
  sig <> hmac_sha256_hex secret raw ->
  verifySignature raw (Some sig) (Some secret) = Ret false.
Proof.
  intros Hlen Hne. rewrite verifySignature_cases. simpl.
  rewrite (length_64_nonempty _ Hlen). simpl.
  destruct (secret =? "")%string; simpl; [reflexivity |].
  rewrite Hlen. simpl.
  destruct (String.eqb_spec (hmac_sha256_hex secret raw) sig); congruence.
Qed.

(** A present header of any other length makes the comparison throw. *)
Lemma verifySignature_length_mismatch (raw sig secret : string) :
  sig <> "" -> secret <> "" -> String.length sig <> 64%nat ->
  verifySignature raw (Some sig) (Some secret) = Throw "RangeError".
Proof.
  intros Hsig Hsec Hlen. rewrite verifySignature_cases.
  apply truthy_str_Some in Hsig, Hsec. rewrite Hsig, Hsec. simpl.
  apply Nat.eqb_neq in Hlen. now rewrite Hlen.
Qed.

(** Whenever [verifySignature] returns [false], the webhook answers 401
    and leaves the collection alone. *)
Lemma paymeWebhook_unverified (env : Env) (sig : option string) (body : jsval)
    (now : Z) (db : Orders) :
  verifySignature (JSON_stringify (or_else body (JObj []))) sig (PAYME_SECRET env)
    = Ret false ->
  paymeWebhook env sig body now db = (Sent 401 (Message "invalid"), db).
Proof. intros E. unfold paymeWebhook. now rewrite E. Qed.

(** 401 and no state change for an absent header, an absent secret, or a
    wrong signature of the digest's length. *)
Lemma paymeWebhook_rejects (env : Env) (sig : option string) (body : jsval)
    (now : Z) (db : Orders) :
  truthy_str sig = false \/ truthy_str (PAYME_SECRET env) = false \/
  (exists s secret, sig = Some s /\ PAYME_SECRET env = Some secret /\
     String.length s = 64%nat /\
     s <> hmac_sha256_hex secret (JSON_stringify (or_else body (JObj [])))) ->
  paymeWebhook env sig body now db = (Sent 401 (Message "invalid"), db).
Proof.
  intros Hc. apply paymeWebhook_unverified.
  destruct Hc as [E | [E | (s & secret & -> & -> & Hlen & Hne)]].
  - apply verifySignature_fail_closed; auto.
  - apply verifySignature_fail_closed; auto.
  - now apply verifySignature_wrong_same_length.
Qed.

(** C3 (code defect).  A webhook whose x-signature header is present but
    not 64 characters long does not equal the hex HMAC-SHA256 of the body,
    yet the handler does not answer 401: [crypto.timingSafeEqual] throws a
    RangeError on buffers of different length, nothing catches it, and no
    response is written.  The collection is left unchanged. *)
Theorem paymeWebhook_signature_length_mismatch (env : Env) (sig secret : string)
    (body : jsval) (now : Z) (db : Orders) :
  PAYME_SECRET env = Some secret -> secret <> "" ->
  sig <> "" -> String.length sig <> 64%nat ->
  sig <> hmac_sha256_hex secret (JSON_stringify (or_else body (JObj [])))
  /\ paymeWebhook env (Some sig) body now db = (Uncaught "RangeError", db).
Proof.
  intros Henv Hsec Hsig Hlen. split.
  - intros ->. now rewrite hmac_hex_length in Hlen.
  - unfold paymeWebhook. rewrite Henv.
    now rewrite verifySignature_length_mismatch.
Qed.

End Signature.

(** The failing delivery of C3: the test payload with the header [abc]. *)
Lemma paymeWebhook_signature_length_mismatch_witness :
  "abc" <> Example.digest "payme_secret"
             (Example.stringify (or_else Example.payload (JObj [])))
  /\ @Payments.paymeWebhook Example.platform Example.env (Some "abc")
       Example.payload 2000 Example.db1
     = (Uncaught "RangeError", Example.db1).
Proof.
  apply (@paymeWebhook_signature_length_mismatch Example.platform Example.env
           "abc" "payme_secret" Example.payload 2000 Example.db1);
    [reflexivity | discriminate | discriminate | discriminate].
Defined.

(** ** Updates of the order collection *)

Section Store.
Context `{Externals}.
Import OrderModel.

Lemma findByIdAndUpdate_found (new : bool) (now : Z) (id : jsval)
    (upd : list (string * jsval)) (db : Orders) (k : string) (o o' : Order) :
  castObjectId id = Some k -> db !! k = Some o ->
  apply_update strictMode upd o = Some o' ->
  findByIdAndUpdate new now id upd db =
    (Ret (Some (if new then set_updatedAt now o' else o)),
     <[k := set_updatedAt now o']> db).
Proof.
  intros Hk Ho Hu. unfold findByIdAndUpdate. now rewrite Hk, Ho, Hu.
Qed.

Lemma findByIdAndUpdate_missing (new : bool) (now : Z) (id : jsval)
    (upd : list (string * jsval)) (db : Orders) (k : string) :
  castObjectId id = Some k -> db !! k = None ->
  findByIdAndUpdate new now id upd db = (Ret None, db).
Proof. intros Hk Ho. unfold findByIdAndUpdate. now rewrite Hk, Ho. Qed.

(** The update of the two webhooks writes [status]; its two [payment.*]
    paths are not paths of the schema, so [paymentStatus] and
    [paymentMethod] keep their values whatever the strict option is. *)
Lemma apply_update_settle (strict : bool) (now : Z) (o : Order) :
  exists o',
    apply_update strict
      [("status", JStr "paid"); ("payment.status", JStr "paid");
       ("payment.paidAt", JNum now)] o = Some o'
    /\ status o' = Some "paid"
    /\ paymentStatus o' = paymentStatus o
    /\ paymentMethod o' = paymentMethod o
    /\ createdAt o' = createdAt o
    /\ delivery o' = delivery o
    /\ totals o' = totals o
    /\ (strict = true -> o' = set_status "paid" o).
Proof.
  destruct strict; eexists; (split; [vm_compute; reflexivity |]);
    repeat split; try reflexivity; discriminate.
Qed.

(** The update of the two create handlers touches no path of the schema. *)
Lemma apply_update_intent (strict : bool) (provider intentId : string) (o : Order) :
  exists o',
    apply_update strict
      [("payment.method", JStr provider); ("payment.status", JStr "pending");
       ("payment.intentId", JStr intentId)] o = Some o'
    /\ status o' = status o
    /\ paymentStatus o' = paymentStatus o
    /\ paymentMethod o' = paymentMethod o
    /\ (strict = true -> o' = o).
Proof.
  destruct strict; eexists; (split; [vm_compute; reflexivity |]);
    repeat split; try reflexivity; discriminate.
Qed.

Lemma apply_update_status (strict : bool) (s : string) (o : Order) :
  apply_update strict [("status", JStr s)] o = Some (set_status s o).
Proof. reflexivity. Qed.

End Store.

(** ** The delivery tracker (routes/delivery.ts) *)

Section Tracker.
Context `{Externals}.
Import Delivery.

Lemma timeline_completed (order : Order) :
  Forall (fun e => te_completed e = true) (timeline order).
Proof.
  unfold timeline.
  repeat match goal with
         | |- context [if ?b then _ else _] => destruct b
         end;
    repeat constructor.
Qed.

(** The statuses of the timeline of an order in the [i]-th stage. *)
Lemma timeline_stage (order : Order) (i : nat) (s : string) :
  stages !! i = Some s -> status order = Some s ->
  map te_status (timeline order) = take (S i) stages.
Proof.
  intros Hi Hs. unfold timeline. rewrite Hs.
  do 6 (destruct i as [| i];
        [injection Hi as <-; vm_compute; reflexivity |]).
  discriminate.
Qed.

(** A status that is none of the five later stages shows [pending] only. *)
Lemma timeline_pending_only (order : Order) :
  is_one_of ["confirmed"; "preparing"; "ready_for_delivery"; "in_transit";
             "delivered"] (status order) = false ->
  map te_status (timeline order) = ["pending"].
Proof.
  unfold timeline, is_one_of, is_exactly.
  destruct (status order) as [s |]; [| reflexivity].
  simpl. intros Hno.
  repeat (apply orb_false_elim in Hno; destruct Hno as [? Hno]).
  repeat match goal with
         | E : (_ =? _)%string = false |- _ => rewrite E; clear E
         end.
  reflexivity.
Qed.

Lemma trackOrder_found (orderId k : string) (db : Orders) (order : Order) :
  castObjectId (JStr orderId) = Some k -> db !! k = Some order ->
  exists info,
    trackOrder orderId db = Sent 200 (Tracking info)
    /\ tr_timeline info = timeline order
    /\ tr_status info = status order.
Proof.
  intros Hk Ho. unfold trackOrder, OrderModel.findById. rewrite Hk, Ho.
  eexists. split; [reflexivity |]. split; reflexivity.
Qed.

Lemma trackOrder_not_found (orderId k : string) (db : Orders) :
  castObjectId (JStr orderId) = Some k -> db !! k = None ->
  trackOrder orderId db = Sent 404 (Message "Order not found").
Proof.
  intros Hk Ho. unfold trackOrder, OrderModel.findById. now rewrite Hk, Ho.
Qed.

(** C8.  For every stored order, [trackOrder] answers 200 with a timeline
    whose entries are all marked completed and whose statuses are, for an
    order in a delivery stage, exactly the stages up to and including the
    current one, in the order pending < confirmed < preparing <
    ready_for_delivery < in_transit < delivered.  For a cancelled order the
    timeline holds the [pending] entry alone: every entry is a status the
    order has held, and no later stage is filled in. *)
Theorem trackOrder_timeline (orderId k : string) (db : Orders) (order : Order) :
  castObjectId (JStr orderId) = Some k -> db !! k = Some order ->
  exists info,
    trackOrder orderId db = Sent 200 (Tracking info)
    /\ Forall (fun e => te_completed e = true) (tr_timeline info)
    /\ (forall (i : nat) (s : string),
          stages !! i = Some s -> status order = Some s ->
          map te_status (tr_timeline info) = take (S i) stages)
    /\ (status order = Some "cancelled" ->
          map te_status (tr_timeline info) = ["pending"]
          /\ forall history, lifecycle history order ->
               forall s, In s (map te_status (tr_timeline info)) ->
                         In s history).
Proof.
  intros Hk Ho.
  destruct (trackOrder_found orderId k db order Hk Ho) as (info & Hr & Ht & _).
  exists info. rewrite Ht. split; [exact Hr |].
  split; [apply timeline_completed |].
  split; [intros i s; apply timeline_stage |].
  intros Hc.
  assert (Hp : map te_status (timeline order) = ["pending"])
    by (apply timeline_pending_only; rewrite Hc; reflexivity).
  split; [exact Hp |].
  intros history [Hhd _] s Hin. rewrite Hp in Hin.
  destruct Hin as [<- | []].
  destruct history as [| h rest]; [discriminate |].
  injection Hhd as ->. now left.
Qed.

End Tracker.

(** C8 at the stored order [o1], moved to [in_transit]. *)
Lemma trackOrder_timeline_witness :
  exists info,
    @Delivery.trackOrder Example.platform "o1"
      {[ "o1" := set_status "in_transit" Example.o1 ]}
    = Sent 200 (Tracking info)
    /\ Forall (fun e => te_completed e = true) (tr_timeline info)
    /\ (forall (i : nat) (s : string),
          Delivery.stages !! i = Some s ->
          status (set_status "in_transit" Example.o1) = Some s ->
          map te_status (tr_timeline info) = take (S i) Delivery.stages)
    /\ (status (set_status "in_transit" Example.o1) = Some "cancelled" ->
          map te_status (tr_timeline info) = ["pending"]
          /\ forall history,
               Delivery.lifecycle history
                 (set_status "in_transit" Example.o1) ->
               forall s, In s (map te_status (tr_timeline info)) ->
                         In s history).
Proof.
  apply (@trackOrder_timeline Example.platform "o1" "o1"
           {[ "o1" := set_status "in_transit" Example.o1 ]}
           (set_status "in_transit" Example.o1));
    [reflexivity | vm_compute; reflexivity].
Defined.

Example timeline_in_transit :
  map te_status (Delivery.timeline (set_status "in_transit" Example.o1))
  = ["pending"; "confirmed"; "preparing"; "ready_for_delivery"; "in_transit"].
Proof. reflexivity. Qed.

Example timeline_cancelled :
  map te_status (Delivery.timeline (set_status "cancelled" Example.o1))
  = ["pending"].
Proof. reflexivity. Qed.

(** ** Settlement by webhook (routes/payments.ts) *)

Section Webhook.
Context `{Externals}.
Import Payments.

(** One signed delivery: 200 [{ ok: true }]; the order's [status] becomes
    [paid]; [paymentStatus] and [paymentMethod] are as before. *)
Lemma paymeWebhook_settles (env : Env) (sig : option string) (body : jsval)
    (now : Z) (db : Orders) (k : string) (o : Order) :
  signed_delivery env sig body k -> db !! k = Some o ->
  exists o',
    paymeWebhook env sig body now db = (Sent 200 OkTrue, <[k := o']> db)
    /\ status o' = Some "paid"
    /\ paymentStatus o' = paymentStatus o
    /\ paymentMethod o' = paymentMethod o
    /\ createdAt o' = createdAt o
    /\ updatedAt o' = now.
Proof.
  intros ((secret & Henv & Hsec & ->) & Hi & Ho & Hk) Hdb.
  destruct (apply_update_settle strictMode now o)
    as (o' & Hu & Hst & Hps & Hpm & Hca & _).
  exists (set_updatedAt now o').
  unfold paymeWebhook. rewrite Henv, (verifySignature_valid _ _ Hsec).
  rewrite Hi, Ho. simpl.
  rewrite (findByIdAndUpdate_found false now _ _ db k o o' Hk Hdb Hu).
  repeat split; assumption.
Qed.

(** The two webhooks differ in the secret they read and in nothing else. *)
Lemma clickWebhook_as_payme (env : Env) (sig : option string) (body : jsval)
    (now : Z) (db : Orders) :
  clickWebhook env sig body now db =
  paymeWebhook {| CLIENT_URL := CLIENT_URL env; PAYME_SECRET := CLICK_SECRET env;
                  CLICK_SECRET := CLICK_SECRET env;
                  JWT_SECRET_env := JWT_SECRET_env env |} sig body now db.
Proof. reflexivity. Qed.

(** Every response of the handler other than 200 leaves the collection
    as it was. *)
Lemma paymeWebhook_no_change (env : Env) (sig : option string) (body : jsval)
    (now : Z) (db : Orders) :
  fst (paymeWebhook env sig body now db) <> Sent 200 OkTrue ->
  snd (paymeWebhook env sig body now db) = db.
Proof.
  unfold paymeWebhook, OrderModel.findByIdAndUpdate.
  destruct (verifySignature _ _ _) as [[|] | e]; simpl; try reflexivity.
  destruct (negb _ || negb _); simpl; try reflexivity.
  destruct (castObjectId _) as [k |]; simpl; try reflexivity.
  destruct (db !! k) as [o |]; simpl; try congruence.
  destruct (OrderModel.apply_update _ _ _); simpl; congruence.
Qed.

(** C10.  A signed, well-formed webhook for a stored order leaves the
    order's [status] field equal to the string [paid], which is none of the
    seven values of the schema's enum; [trackOrder] on that order then
    answers with a timeline that holds the [pending] entry alone. *)
Theorem webhook_sets_status_paid (env : Env) (sig : option string) (body : jsval)
    (now : Z) (db : Orders) (k : string) (o : Order) :
  signed_delivery env sig body k -> db !! k = Some o ->
  exists db' o',
    paymeWebhook env sig body now db = (Sent 200 OkTrue, db')
    /\ db' !! k = Some o'
    /\ status o' = Some "paid"
    /\ enum_validator status_enum (status o') = false
    /\ forall orderId, castObjectId (JStr orderId) = Some k ->
         exists info,
           Delivery.trackOrder orderId db' = Sent 200 (Tracking info)
           /\ map te_status (tr_timeline info) = ["pending"].
Proof.
  intros Hsd Hdb.
  destruct (paymeWebhook_settles env sig body now db k o Hsd Hdb)
    as (o' & Hr & Hst & _).
  exists (<[k := o']> db), o'.
  split; [exact Hr |].
  assert (Hl : (<[k := o']> db : Orders) !! k = Some o') by apply lookup_insert_eq.
  split; [exact Hl |]. split; [exact Hst |].
  split; [now rewrite Hst |].
  intros orderId Hk.
  destruct (trackOrder_found orderId k _ o' Hk Hl) as (info & Ht & Htl & _).
  exists info. split; [exact Ht |].
  rewrite Htl. apply timeline_pending_only. now rewrite Hst.
Qed.

(** Deliveries of one signed request at the times [nows]: every response
    is 200 [{ ok: true }], [status] ends as [paid], and [paymentStatus] and
    [paymentMethod] end as they began. *)
Lemma replay_signed (env : Env) (sig : option string) (body : jsval)
    (k : string) (nows : list Z) :
  signed_delivery env sig body k ->
  forall (db : Orders) (o : Order),
    db !! k = Some o ->
    exists db' o',
      replay (paymeWebhook env sig body) nows db
        = (repeat (Sent 200 OkTrue) (length nows), db')
      /\ db' !! k = Some o'
      /\ paymentStatus o' = paymentStatus o
      /\ paymentMethod o' = paymentMethod o
      /\ (nows <> [] -> status o' = Some "paid").
Proof.
  intros Hsd. induction nows as [| now rest IH]; intros db o Hdb.
  - exists db, o. simpl. repeat split; try assumption. congruence.
  - destruct (paymeWebhook_settles env sig body now db k o Hsd Hdb)
      as (o1 & Hr & Hst & Hps & Hpm & _).
    assert (Hl : (<[k := o1]> db : Orders) !! k = Some o1)
      by apply lookup_insert_eq.
    destruct (IH _ _ Hl) as (db' & o' & Hrep & Hl' & Hps' & Hpm' & Hst').
    exists db', o'. simpl. rewrite Hr, Hrep.
    repeat split; try assumption; try congruence.
    intros _. destruct rest as [| now' rest'].
    + simpl in Hrep. injection Hrep as <-. congruence.
    + apply Hst'. discriminate.
Qed.

(** C2 (code defect).  Replaying a signed, well-formed webhook any number
    of times never errors and answers 200 [{ ok: true }] each time, but the
    order's [paymentStatus] is never written: the update names the path
    [payment.status], which the schema does not declare, so the field keeps
    the value it had before the first delivery. *)
Theorem webhook_replay_keeps_paymentStatus (env : Env) (sig : option string)
    (body : jsval) (k : string) (nows : list Z) (db : Orders) (o : Order) :
  signed_delivery env sig body k -> db !! k = Some o -> nows <> [] ->
  exists db' o',
    replay (paymeWebhook env sig body) nows db
      = (repeat (Sent 200 OkTrue) (length nows), db')
    /\ db' !! k = Some o'
    /\ status o' = Some "paid"
    /\ paymentStatus o' = paymentStatus o.
Proof.
  intros Hsd Hdb Hne.
  destruct (replay_signed env sig body k nows Hsd db o Hdb)
    as (db' & o' & Hrep & Hl & Hps & _ & Hst).
  exists db', o'. repeat split; auto.
Qed.

End Webhook.

Lemma example_signed_delivery :
  @Payments.signed_delivery Example.platform Example.env
    (Some Example.good_signature) Example.payload "o1".
Proof.
  split; [| repeat split].
  exists "payme_secret". repeat split. discriminate.
Qed.

(** C10 at the test payload: [o1] ends with [status = paid]. *)
Lemma webhook_sets_status_paid_witness :
  exists db' o',
    @Payments.paymeWebhook Example.platform Example.env
      (Some Example.good_signature) Example.payload 2000 Example.db1
    = (Sent 200 OkTrue, db')
    /\ db' !! "o1" = Some o'
    /\ status o' = Some "paid"
    /\ enum_validator status_enum (status o') = false
    /\ forall orderId,
         @castObjectId Example.platform (JStr orderId) = Some "o1" ->
         exists info,
           @Delivery.trackOrder Example.platform orderId db'
           = Sent 200 (Tracking info)
           /\ map te_status (tr_timeline info) = ["pending"].
Proof.
  apply (@webhook_sets_status_paid Example.platform Example.env
           (Some Example.good_signature) Example.payload 2000 Example.db1
           "o1" Example.o1);
    [exact example_signed_delivery | reflexivity].
Defined.

(** The failing input of C2: three deliveries of the signed test payload
    for the unpaid order [o1] leave [paymentStatus] at [pending]. *)
Lemma webhook_replay_keeps_paymentStatus_witness :
  exists db' o',
    Payments.replay
      (@Payments.paymeWebhook Example.platform Example.env
         (Some Example.good_signature) Example.payload)
      [2000; 3000; 4000] Example.db1
    = ([Sent 200 OkTrue; Sent 200 OkTrue; Sent 200 OkTrue], db')
    /\ db' !! "o1" = Some o'
    /\ status o' = Some "paid"
    /\ paymentStatus o' = Some "pending".
Proof.
  apply (@webhook_replay_keeps_paymentStatus Example.platform Example.env
           (Some Example.good_signature) Example.payload "o1"
           [2000; 3000; 4000] Example.db1 Example.o1);
    [exact example_signed_delivery | reflexivity | discriminate].
Defined.

Example scenario_C_paymentStatus :
  paymentStatus <$>
    (snd (@Payments.paymeWebhook Example.platform Example.env
            (Some Example.good_signature) Example.payload 2000 Example.db1)
       !! "o1")
  = Some (Some "pending").
Proof. vm_compute. reflexivity. Qed.

(** ** Payment intents (routes/payments.ts) *)

Section Intent.
Context `{Externals}.
Import Payments.

Lemma hex_digit_is_hex (n : N) : is_hex (hex_digit n) = true.
Proof.
  destruct n as [| p]; [reflexivity |].
  do 4 (destruct p as [p | p |]; try reflexivity).
Qed.

Lemma toString_hex_length (bs : list Byte.byte) :
  String.length (toString_hex bs) = (2 * length bs)%nat.
Proof.
  induction bs as [| b bs IH]; [reflexivity |].
  cbn [toString_hex String.length length]. rewrite IH. lia.
Qed.

Lemma toString_hex_chars (bs : list Byte.byte) :
  forallb is_hex (list_ascii_of_string (toString_hex bs)) = true.
Proof.
  induction bs as [| b bs IH]; [reflexivity |].
  cbn [toString_hex list_ascii_of_string forallb].
  now rewrite !hex_digit_is_hex, IH.
Qed.

(** Two bytes with the same two hex digits are the same byte. *)
Lemma hex_digits_inj (a b : Byte.byte) :
  hex_digit (Byte.to_N a / 16) = hex_digit (Byte.to_N b / 16) ->
  hex_digit (Byte.to_N a mod 16) = hex_digit (Byte.to_N b mod 16) ->
  a = b.
Proof.
  intros Eh El.
  assert (D : forall x,
             Byte.of_N
               (match find (fun i => Ascii.eqb (hex_digit i)
                                       (hex_digit (Byte.to_N x / 16)))
                        (map N.of_nat (seq 0 16)) with
                | Some i => i | None => 0 end * 16 +
                match find (fun i => Ascii.eqb (hex_digit i)
                                       (hex_digit (Byte.to_N x mod 16)))
                        (map N.of_nat (seq 0 16)) with
                | Some i => i | None => 0 end)%N = Some x)
    by (intros x; destruct x; vm_compute; reflexivity).
  pose proof (D a) as Da. rewrite Eh, El, (D b) in Da. congruence.
Qed.

(** Different draws of the random bytes give different intent ids. *)
Lemma toString_hex_inj (xs ys : list Byte.byte) :
  length xs = length ys -> toString_hex xs = toString_hex ys -> xs = ys.
Proof.
  revert ys. induction xs as [| x xs IH]; intros [| y ys] Hlen E;
    try discriminate; [reflexivity |].
  cbn [toString_hex] in E. injection E as E1 E2 E3.
  f_equal; [now apply hex_digits_inj | apply IH; [simpl in Hlen; lia | assumption]].
Qed.

(** Without a truthy [orderId] and a truthy [amount]: 400 with the message
    of the tests, and nothing written. *)
Lemma createPayme_requires (env : Env) (body : jsval)
    (randomBytes8 : list Byte.byte) (now : Z) (db : Orders) :
  truthy (get "orderId" (or_else body (JObj []))) = false \/
  truthy (get "amount" (or_else body (JObj []))) = false ->
  createPayme env body randomBytes8 now db
  = (Sent 400 (Message "orderId and amount required"), db).
Proof.
  intros Hf. unfold createPayme.
  destruct Hf as [-> | ->]; simpl; [reflexivity | now rewrite orb_true_r].
Qed.

(** C6 (code defect).  A create call with truthy [orderId] and [amount]
    answers with a fresh intent id of 16 hex characters, but persists none
    of the three payment fields: the update names [payment.method],
    [payment.status] and [payment.intentId], paths the schema does not
    declare, so [paymentMethod] and [paymentStatus] of the referenced order
    keep their values, and under the strict schema the order is rewritten
    with a new [updatedAt] and nothing else. *)
Theorem createPayme_keeps_payment_fields (env : Env) (body : jsval)
    (randomBytes8 : list Byte.byte) (now : Z) (db : Orders) (k : string)
    (o : Order) :
  truthy (get "orderId" (or_else body (JObj []))) = true ->
  truthy (get "amount" (or_else body (JObj []))) = true ->
  castObjectId (get "orderId" (or_else body (JObj []))) = Some k ->
  db !! k = Some o ->
  length randomBytes8 = 8%nat ->
  exists intentId url o',
    createPayme env body randomBytes8 now db
      = (Sent 200 (Intent intentId url), <[k := o']> db)
    /\ intentId = toString_hex randomBytes8
    /\ String.length intentId = 16%nat
    /\ forallb is_hex (list_ascii_of_string intentId) = true
    /\ paymentMethod o' = paymentMethod o
    /\ paymentStatus o' = paymentStatus o
    /\ (strictMode = true -> o' = set_updatedAt now o).
Proof.
  intros Ho Ha Hk Hdb Hlen.
  destruct (apply_update_intent strictMode "payme" (toString_hex randomBytes8) o)
    as (o' & Hu & _ & Hps & Hpm & Hstrict).
  exists (toString_hex randomBytes8), (redirect env (get "orderId" (or_else body (JObj [])))
                                (toString_hex randomBytes8)),
    (set_updatedAt now o').
  unfold createPayme. rewrite Ho, Ha. simpl.
  unfold idempotencyKey. simpl.
  rewrite (findByIdAndUpdate_found false now _ _ db k o o' Hk Hdb Hu).
  split; [reflexivity |]. split; [reflexivity |].
  split; [rewrite toString_hex_length, Hlen; reflexivity |].
  split; [apply toString_hex_chars |].
  split; [exact Hpm |]. split; [exact Hps |].
  intros Hs. now rewrite (Hstrict Hs).
Qed.

End Intent.

(** The failing input of C6: a create call for the stored order [o1]. *)
Lemma createPayme_keeps_payment_fields_witness :
  exists intentId url o',
    @Payments.createPayme Example.platform Example.env
      (JObj [("orderId", JStr "o1"); ("amount", JNum 1000)])
      [Byte.x01; Byte.x23; Byte.x45; Byte.x67; Byte.x89; Byte.xab; Byte.xcd;
       Byte.xef] 2000 Example.db1
    = (Sent 200 (Intent intentId url), <["o1" := o']> Example.db1)
    /\ intentId = "0123456789abcdef"
    /\ String.length intentId = 16%nat
    /\ forallb Payments.is_hex (list_ascii_of_string intentId) = true
    /\ paymentMethod o' = None
    /\ paymentStatus o' = Some "pending"
    /\ (true = true -> o' = set_updatedAt 2000 Example.o1).
Proof.
  apply (@createPayme_keeps_payment_fields Example.platform Example.env
           (JObj [("orderId", JStr "o1"); ("amount", JNum 1000)])
           [Byte.x01; Byte.x23; Byte.x45; Byte.x67; Byte.x89; Byte.xab;
            Byte.xcd; Byte.xef] 2000 Example.db1 "o1" Example.o1);
    reflexivity.
Defined.

Example scenario_B :
  @Payments.createPayme Example.platform Example.env (JObj []) [] 2000 Example.db1
  = (Sent 400 (Message "orderId and amount required"), Example.db1).
Proof. reflexivity. Qed.

(** ** Status updates (routes/orders.ts) *)

Section StatusUpdate.
Context `{Externals}.
Import Orders.

(** A value outside [okStatuses]: 400, nothing written. *)
Lemma updateOrderStatus_invalid (orderId : string) (body : jsval) (now : Z)
    (db : Orders) :
  includes okStatuses (get "status" (or_else body (JObj []))) = false ->
  updateOrderStatus orderId body now db
  = (Sent 400 (Message "Invalid status"), db).
Proof. intros E. unfold updateOrderStatus. now rewrite E. Qed.

(** A value of [okStatuses] for a stored order: 200, the value is written
    as it is. *)
Lemma updateOrderStatus_ok (orderId : string) (body : jsval) (now : Z)
    (db : Orders) (k s : string) (o : Order) :
  get "status" (or_else body (JObj [])) = JStr s ->
  In s okStatuses ->
  castObjectId (JStr orderId) = Some k -> db !! k = Some o ->
  updateOrderStatus orderId body now db
  = (Sent 200 (OrderJSON (set_updatedAt now (set_status s o))),
     <[k := set_updatedAt now (set_status s o)]> db).
Proof.
  intros Hs Hin Hk Hdb. unfold updateOrderStatus. rewrite Hs.
  assert (Hinc : includes okStatuses (JStr s) = true).
  { unfold includes. apply existsb_exists. exists s. split; [assumption |].
    apply String.eqb_refl. }
  rewrite Hinc. simpl.
  now rewrite (findByIdAndUpdate_found true now _ _ db k o (set_status s o)
                 Hk Hdb (apply_update_status _ s o)).
Qed.

Lemma updateOrderStatus_unknown_order (orderId : string) (body : jsval)
    (now : Z) (db : Orders) (k : string) :
  includes okStatuses (get "status" (or_else body (JObj []))) = true ->
  castObjectId (JStr orderId) = Some k -> db !! k = None ->
  updateOrderStatus orderId body now db
  = (Sent 404 (Message "Order not found"), db).
Proof.
  intros Hinc Hk Hdb. unfold updateOrderStatus. rewrite Hinc. simpl.
  now rewrite (findByIdAndUpdate_missing true now _ _ db k Hk Hdb).
Qed.

(** C1 (code defect).  The handler checks the supplied status against its
    own list [pending, processing, in_transit, delivered, cancelled] and
    not against the seven values of the schema's enum.  For a stored
    order, the enum value [confirmed] is answered 400 and nothing is
    written, and the value [processing], which the enum does not hold, is
    answered 200 and written to the order's [status]. *)
Theorem updateOrderStatus_list_differs_from_enum (orderId k : string) (now : Z)
    (db : Orders) (o : Order) :
  castObjectId (JStr orderId) = Some k -> db !! k = Some o ->
  (in_enum status_enum "confirmed" = true
   /\ updateOrderStatus orderId (JObj [("status", JStr "confirmed")]) now db
      = (Sent 400 (Message "Invalid status"), db))
  /\ (in_enum status_enum "processing" = false
      /\ exists o',
           updateOrderStatus orderId (JObj [("status", JStr "processing")]) now db
           = (Sent 200 (OrderJSON o'), <[k := o']> db)
           /\ status o' = Some "processing").
Proof.
  intros Hk Hdb. split; split; try reflexivity.
  exists (set_updatedAt now (set_status "processing" o)).
  split; [| reflexivity].
  apply (updateOrderStatus_ok orderId _ now db k "processing" o);
    [reflexivity | simpl; tauto | assumption | assumption].
Qed.

End StatusUpdate.

(** The failing inputs of C1, on the stored order [o1]. *)
Lemma updateOrderStatus_list_differs_from_enum_witness :
  (in_enum status_enum "confirmed" = true
   /\ @Orders.updateOrderStatus Example.platform "o1"
        (JObj [("status", JStr "confirmed")]) 2000 Example.db1
      = (Sent 400 (Message "Invalid status"), Example.db1))
  /\ (in_enum status_enum "processing" = false
      /\ exists o',
           @Orders.updateOrderStatus Example.platform "o1"
             (JObj [("status", JStr "processing")]) 2000 Example.db1
           = (Sent 200 (OrderJSON o'), <["o1" := o']> Example.db1)
           /\ status o' = Some "processing").
Proof.
  apply (@updateOrderStatus_list_differs_from_enum Example.platform "o1" "o1"
           2000 Example.db1 Example.o1); reflexivity.
Defined.

(** ** Authentication gates (routes/auth.ts, middleware/permissions.ts) *)

Section Gates.
Context `{Externals}.
Import Auth Permissions.

Lemma split_no_separator (sep : ascii) (s : string) :
  contains sep s = false -> split sep s = [s].
Proof.
  induction s as [| c s IH]; [reflexivity |].
  simpl. intros Hc. apply orb_false_elim in Hc as [Hc Hs].
  now rewrite Hc, (IH Hs).
Qed.

Lemma token_of_bearer (token : string) :
  contains " " token = false ->
  token_of (Some ("Bearer " ++ token)) = Some token.
Proof.
  intros Hc. unfold token_of.
  change (truthy_str (Some ("Bearer " ++ token))) with true.
  cbv iota.
  change (split " " (default "" (Some ("Bearer " ++ token))))
    with ("Bearer" :: split " " token).
  now rewrite (split_no_separator _ _ Hc).
Qed.

Lemma prefix_append (s t : string) : String.prefix s (s ++ t) = true.
Proof.
  induction s as [| a s IH].
  - now destruct t.
  - change (String a s ++ t) with (String a (s ++ t)).
    cbn [String.prefix]. now destruct (ascii_dec a a).
Qed.

(** [requireAuth] on a bearer token that verifies: the request passes
    with the decoded payload; no collection is consulted. *)
Lemma requireAuth_verified (env : Env) (token : string) (payload : TokenPayload) :
  token <> "" ->
  jwt_verify token (JWT_SECRET env) = Some payload ->
  requireAuth env (Some ("Bearer " ++ token)) = Next payload.
Proof.
  intros Ht Hv. unfold requireAuth.
  cbn [default from_option id]. rewrite prefix_append.
  change (slice 7 ("Bearer " ++ token)) with token.
  apply truthy_str_Some in Ht. rewrite Ht. simpl. now rewrite Hv.
Qed.

(** [authenticateToken] on a bearer token that verifies: the request
    passes exactly when the account exists and is active, and is answered
    401 otherwise. *)
Lemma authenticateToken_verified (env : Env) (token : string)
    (payload : TokenPayload) (users : Users) (k : string) :
  token <> "" -> contains " " token = false ->
  jwt_verify token (secret env) = Some payload ->
  castObjectId (JStr (tp_id payload)) = Some k ->
  authenticateToken env (Some ("Bearer " ++ token)) users =
    match users !! k with
    | Some user =>
        if u_isActive user
        then Next {| au_id := k; au_role := u_role user;
                     au_name := u_name user; au_phone := u_phone user |}
        else Rejected 401 "Invalid or inactive user"
    | None => Rejected 401 "Invalid or inactive user"
    end.
Proof.
  intros Ht Hc Hv Hk. unfold authenticateToken.
  rewrite (token_of_bearer _ Hc).
  apply truthy_str_Some in Ht. rewrite Ht. simpl. rewrite Hv.
  unfold UserModel.findById. rewrite Hk.
  destruct (users !! k) as [user |]; simpl; [| reflexivity].
  now destruct (u_isActive user).
Qed.

(** C4 (code defect).  [requireAuth], the gate the server mounts, verifies
    the token and nothing else: a request whose token verifies passes even
    when the account it names is deleted or inactive.  The sibling
    middleware [authenticateToken] looks the account up and answers 401 on
    the same request. *)
Theorem requireAuth_skips_account_check (env : Env) (s token : string)
    (payload : TokenPayload) (users : Users) (k : string) :
  JWT_SECRET_env env = Some s -> s <> "" ->
  token <> "" -> contains " " token = false ->
  jwt_verify token s = Some payload ->
  castObjectId (JStr (tp_id payload)) = Some k ->
  (users !! k = None \/
   exists user, users !! k = Some user /\ u_isActive user = false) ->
  requireAuth env (Some ("Bearer " ++ token)) = Next payload
  /\ authenticateToken env (Some ("Bearer " ++ token)) users
     = Rejected 401 "Invalid or inactive user".
Proof.
  intros Henv Hs Ht Hc Hv Hk Hacct.
  apply truthy_str_Some in Hs.
  assert (E1 : JWT_SECRET env = s) by (unfold JWT_SECRET; now rewrite Henv, Hs).
  assert (E2 : secret env = s) by (unfold secret; now rewrite Henv, Hs).
  split.
  - apply requireAuth_verified; [assumption | now rewrite E1].
  - rewrite (authenticateToken_verified env token payload users k);
      [| assumption | assumption | now rewrite E2 | assumption].
    destruct Hacct as [-> | (user & -> & ->)]; reflexivity.
Qed.

End Gates.

(** The failing inputs of C4: the token of the deactivated account [u3]. *)
Lemma requireAuth_skips_account_check_witness :
  @Auth.requireAuth Example.platform
    {| CLIENT_URL := None; PAYME_SECRET := None; CLICK_SECRET := None;
       JWT_SECRET_env := Some "s3cret" |}
    (Some ("Bearer " ++ "u3.user"))
  = Next {| tp_id := "u3"; tp_role := "user" |}
  /\ @Permissions.authenticateToken Example.platform
       {| CLIENT_URL := None; PAYME_SECRET := None; CLICK_SECRET := None;
          JWT_SECRET_env := Some "s3cret" |}
       (Some ("Bearer " ++ "u3.user")) Example.users1
     = Rejected 401 "Invalid or inactive user".
Proof.
  apply (@requireAuth_skips_account_check Example.platform
           {| CLIENT_URL := None; PAYME_SECRET := None; CLICK_SECRET := None;
              JWT_SECRET_env := Some "s3cret" |}
           "s3cret" "u3.user" {| tp_id := "u3"; tp_role := "user" |}
           Example.users1 "u3");
    [reflexivity | discriminate | discriminate | reflexivity | reflexivity
    | reflexivity |].
  right. exists Example.inactive_u3. split; reflexivity.
Defined.

Example requireAuth_deleted_account :
  @Auth.requireAuth Example.platform Example.env (Some "Bearer u9.admin")
  = Next {| tp_id := "u9"; tp_role := "admin" |}
  /\ Example.users1 !! "u9" = None.
Proof. split; reflexivity. Qed.

(** ** Order creation (routes/orders.ts, models/Order.ts) *)

Section Creation.
Import Orders OrderModel.

(** What a document that names neither [status] nor [paymentStatus] is
    stored as, when it passes validation: both fields take the schema's
    defaults, and the other fields are the casts of what was supplied. *)
Lemma build_defaults (fresh_id : string) (now : Z)
    (doc : list (string * jsval)) (order : Order) :
  lookup_field "status" doc = JUndefined ->
  lookup_field "paymentStatus" doc = JUndefined ->
  build fresh_id now doc = Some order ->
  status order = Some "pending" /\ paymentStatus order = Some "pending"
  /\ _id order = fresh_id
  /\ required_string (lookup_field "userId" doc) = Some (userId order)
  /\ castItems (lookup_field "items" doc) = Some (items order)
  /\ castTotals (lookup_field "totals" doc) = Some (totals order)
  /\ castAddress (lookup_field "address" doc) = Some (address order).
Proof.
  unfold build. intros -> -> Hb.
  destruct (required_string _) as [uid |]; [| discriminate].
  destruct (castItems _) as [its |]; [| discriminate].
  destruct (castTotals _) as [tot |]; [| discriminate].
  destruct (castAddress _) as [adr |]; [| discriminate].
  cbn in Hb.
  destruct (castDelivery _) as [dlv |]; [| discriminate].
  cbn in Hb.
  destruct (optional_enum _ _) as [pm |]; [| discriminate].
  destruct (optional_string _) as [nts |]; [| discriminate].
  cbn in Hb. injection Hb as <-. repeat split; reflexivity.
Qed.

Lemma build_new_order (u : TokenPayload) (b : jsval) (fresh_id : string)
    (now : Z) (order : Order) :
  build fresh_id now (new_order_doc u b) = Some order ->
  status order = Some "pending" /\ paymentStatus order = Some "pending"
  /\ _id order = fresh_id /\ userId order = tp_id u
  /\ castItems (get "items" b) = Some (items order)
  /\ castTotals (get "totals" b) = Some (totals order)
  /\ castAddress (get "address" b) = Some (address order).
Proof.
  intros Hb.
  destruct (build_defaults fresh_id now (new_order_doc u b) order
              eq_refl eq_refl Hb)
    as (Hs & Hp & Hi & Hu & Hit & Ht & Ha).
  cbn in Hu. destruct (tp_id u =? "")%string; [discriminate |].
  injection Hu as Hu. repeat split; auto.
Qed.

(** The schema requires [delivery], and a sub-document path has no
    default: a document without it fails validation. *)
Lemma build_requires_delivery (fresh_id : string) (now : Z)
    (doc : list (string * jsval)) :
  lookup_field "delivery" doc = JUndefined -> build fresh_id now doc = None.
Proof.
  intros Hd. unfold build. rewrite Hd.
  destruct (required_string _); [| reflexivity].
  destruct (castItems _); [| reflexivity].
  destruct (castTotals _); [| reflexivity].
  destruct (enum_with_default status_enum _ _); [| reflexivity].
  destruct (castAddress _); reflexivity.
Qed.

(** C5 (as amended).  [createOrder] answers 400 with [items, totals,
    address required] exactly when [items], [totals] or [address] is
    missing or otherwise falsy, and then stores nothing.  Input that
    passes this check (an empty [items] array does, being truthy, and so
    does an item with [qty < 1]) is never answered 400: it is answered 201
    with the created order, stored under its generated id with [status =
    pending], [paymentStatus = pending], the caller's [userId] and the
    supplied items, totals and address, or 500 with nothing stored when
    [Order.create] rejects the document. *)
Theorem createOrder_responses (u : TokenPayload) (body : jsval)
    (fresh_id : string) (now : Z) (db : Orders) :
  let b := or_else body (JObj []) in
  let missing :=
    negb (truthy (get "items" b)) || negb (truthy (get "totals" b))
    || negb (truthy (get "address" b)) in
  let result := createOrder (Some u) body fresh_id now db in
  (status_of (fst result) = Some 400 <-> missing = true)
  /\ (missing = true ->
      result = (Sent 400 (Message "items, totals, address required"), db))
  /\ (missing = false ->
      (exists order,
         result = (Sent 201 (OrderJSON order), <[fresh_id := order]> db)
         /\ status order = Some "pending" /\ paymentStatus order = Some "pending"
         /\ _id order = fresh_id /\ userId order = tp_id u
         /\ castItems (get "items" b) = Some (items order)
         /\ castTotals (get "totals" b) = Some (totals order)
         /\ castAddress (get "address" b) = Some (address order))
      \/ result = (Sent 500 (Message "Server error"), db)).
Proof.
  intros b missing result.
  assert (Hyes : missing = true ->
            result = (Sent 400 (Message "items, totals, address required"), db)).
  { intros Hm. subst result. unfold createOrder. fold b. fold missing.
    now rewrite Hm. }
  assert (Hno : missing = false ->
            (exists order,
               result = (Sent 201 (OrderJSON order), <[fresh_id := order]> db)
               /\ status order = Some "pending" /\ paymentStatus order = Some "pending"
               /\ _id order = fresh_id /\ userId order = tp_id u
               /\ castItems (get "items" b) = Some (items order)
               /\ castTotals (get "totals" b) = Some (totals order)
               /\ castAddress (get "address" b) = Some (address order))
            \/ result = (Sent 500 (Message "Server error"), db)).
  { intros Hm. subst result. unfold createOrder. fold b. fold missing.
    rewrite Hm. unfold create. fold (new_order_doc u b).
    destruct (build fresh_id now (new_order_doc u b)) as [order |] eqn:Eb.
    - left. exists order. split; [reflexivity |].
      exact (build_new_order u b fresh_id now order Eb).
    - right. reflexivity. }
  split; [| split; assumption].
  split.
  - intros H400. destruct missing; [reflexivity |].
    destruct (Hno eq_refl) as [(order & Hr & _) | Hr];
      rewrite Hr in H400; discriminate.
  - intros Hm. now rewrite (Hyes Hm).
Qed.

(** Against the schema of models/Order.ts the handler's document, which
    never carries [delivery], is rejected: input that passes the check is
    answered 500. *)
Lemma createOrder_without_delivery (u : TokenPayload) (body : jsval)
    (fresh_id : string) (now : Z) (db : Orders) :
  negb (truthy (get "items" (or_else body (JObj []))))
  || negb (truthy (get "totals" (or_else body (JObj []))))
  || negb (truthy (get "address" (or_else body (JObj [])))) = false ->
  createOrder (Some u) body fresh_id now db
  = (Sent 500 (Message "Server error"), db).
Proof.
  intros Hm. unfold createOrder. rewrite Hm. unfold create.
  now rewrite build_requires_delivery.
Qed.

End Creation.

(** C5 as stated fails: an empty [items] array is not answered 400. *)
Lemma createOrder_empty_items_not_400 :
  status_of (fst (Orders.createOrder (Some {| tp_id := "u1"; tp_role := "user" |})
                    (Example.order_body (JArr [])) "o2" 2000 Example.db1))
  <> Some 400.
Proof. vm_compute. discriminate. Qed.

Example createOrder_zero_qty :
  Orders.createOrder (Some {| tp_id := "u1"; tp_role := "user" |})
    (Example.order_body (JArr [Example.tee 0])) "o2" 2000 Example.db1
  = (Sent 500 (Message "Server error"), Example.db1).
Proof. reflexivity. Qed.

Example createOrder_no_body :
  Orders.createOrder (Some {| tp_id := "u1"; tp_role := "user" |})
    JUndefined "o2" 2000 Example.db1
  = (Sent 400 (Message "items, totals, address required"), Example.db1).
Proof. reflexivity. Qed.

Example castCartItem_min_qty :
  OrderModel.castCartItem (Example.tee 0) = None
  /\ OrderModel.castCartItem (Example.tee 1)
     = Some {| productId := "p1"; title := "Tee"; slug := "tee"; price := 10;
               qty := 1; color := None; size := None; image := "img" |}.
Proof. split; reflexivity. Qed.

(** ** User management guards (routes/admin.ts) *)

Section UserGuards.
Context `{Externals}.
Import Admin.

(** Deleting the account one is logged in as: 400, whatever its role. *)
Lemma deleteUser_self (users : Users) (id k : string) (account : User) :
  castObjectId (JStr id) = Some k -> users !! k = Some account ->
  deleteUser (Some (identity_of k account)) id users
  = (Sent 400 (Message "Cannot delete your own account"), users).
Proof.
  intros Hk Hu. unfold deleteUser, UserModel.findById. rewrite Hk, Hu. simpl.
  unfold only_admin, is_str, identity_of. simpl.
  destruct (u_role account =? "admin")%string; simpl;
    now rewrite String.eqb_refl.
Qed.

(** A caller that targets the account stored under its own id never
    deletes it, whatever role its token carries. *)
Lemma deleteUser_self_never_deletes (users : Users) (id : string)
    (caller : TokenPayload) (account : User) :
  castObjectId (JStr id) = Some (tp_id caller) ->
  users !! tp_id caller = Some account ->
  snd (deleteUser (Some caller) id users) = users
  /\ (status_of (fst (deleteUser (Some caller) id users)) = Some 400
      \/ status_of (fst (deleteUser (Some caller) id users)) = Some 403).
Proof.
  intros Hk Hu. unfold deleteUser, UserModel.findById. rewrite Hk, Hu. simpl.
  destruct (only_admin _ _ _) as [[|] |] eqn:E; simpl.
  - split; [reflexivity | now right].
  - rewrite String.eqb_refl. split; [reflexivity | now left].
  - unfold only_admin in E. destruct (is_str _ _); discriminate.
Qed.

Lemma deleteUser_admin_by_other (users : Users) (id k : string) (target : User)
    (caller : TokenPayload) :
  tp_role caller <> "admin" ->
  castObjectId (JStr id) = Some k -> users !! k = Some target ->
  u_role target = "admin" ->
  deleteUser (Some caller) id users
  = (Sent 403 (Message "Only admin can delete admin accounts"), users).
Proof.
  intros Hr Hk Hu Hadmin. unfold deleteUser, UserModel.findById.
  rewrite Hk, Hu. simpl. unfold only_admin, is_str. rewrite Hadmin. simpl.
  apply String.eqb_neq in Hr. now rewrite Hr.
Qed.

Lemma createUser_admin_by_other (users : Users) (caller : TokenPayload)
    (body : jsval) (fresh_id : string) :
  tp_role caller <> "admin" ->
  get "role" body = JStr "admin" ->
  createUser (Some caller) body fresh_id users
  = (Sent 403 (Message "Only admin can create admin accounts"), users).
Proof.
  intros Hr Hrole. unfold createUser.
  destruct body; try discriminate.
  rewrite Hrole. unfold only_admin, is_str. simpl.
  apply String.eqb_neq in Hr. now rewrite Hr.
Qed.

(** C9.  Whatever its role, an account cannot delete itself: the request
    is answered 400 and the collection is unchanged.  A caller whose role
    is not [admin] is answered 403, with the collection unchanged, when it
    deletes a user whose role is [admin] and when it creates a user with
    role [admin]. *)
Theorem user_management_guards (users : Users) :
  (forall (id k : string) (account : User),
      castObjectId (JStr id) = Some k -> users !! k = Some account ->
      deleteUser (Some (identity_of k account)) id users
      = (Sent 400 (Message "Cannot delete your own account"), users))
  /\ (forall (caller : TokenPayload),
        tp_role caller <> "admin" ->
        (forall (id k : string) (target : User),
            castObjectId (JStr id) = Some k -> users !! k = Some target ->
            u_role target = "admin" ->
            deleteUser (Some caller) id users
            = (Sent 403 (Message "Only admin can delete admin accounts"),
               users))
        /\ (forall (body : jsval) (fresh_id : string),
              get "role" body = JStr "admin" ->
              createUser (Some caller) body fresh_id users
              = (Sent 403 (Message "Only admin can create admin accounts"),
                 users))).
Proof.
  split.
  - intros id k account. apply deleteUser_self.
  - intros caller Hr. split.
    + intros id k target. now apply deleteUser_admin_by_other.
    + intros body fresh_id. now apply createUser_admin_by_other.
Qed.

End UserGuards.

(** C9 on the example collection: the admin [u1] and the moderator [u2]
    each try to delete themselves; [u2] tries to delete [u1] and to create
    an admin. *)
Lemma user_management_guards_witness :
  (@Admin.deleteUser Example.platform
     (Some {| tp_id := "u1"; tp_role := "admin" |}) "u1" Example.users1
   = (Sent 400 (Message "Cannot delete your own account"), Example.users1)
   /\ @Admin.deleteUser Example.platform
        (Some {| tp_id := "u2"; tp_role := "moderator" |}) "u2" Example.users1
      = (Sent 400 (Message "Cannot delete your own account"), Example.users1))
  /\ @Admin.deleteUser Example.platform
       (Some {| tp_id := "u2"; tp_role := "moderator" |}) "u1" Example.users1
     = (Sent 403 (Message "Only admin can delete admin accounts"),
        Example.users1)
  /\ @Admin.createUser Example.platform
       (Some {| tp_id := "u2"; tp_role := "moderator" |})
       (JObj [("name", JStr "Eve"); ("phone", JStr "+998900000009");
              ("password", JStr "pw"); ("role", JStr "admin")])
       "u9" Example.users1
     = (Sent 403 (Message "Only admin can create admin accounts"),
        Example.users1).
Proof.
  destruct (@user_management_guards Example.platform Example.users1)
    as [Hself Hother].
  destruct (Hother {| tp_id := "u2"; tp_role := "moderator" |})
    as [Hdel Hcreate]; [discriminate |].
  split; [split |]; [| | split].
  - exact (Hself "u1" "u1" Example.admin_u1 eq_refl eq_refl).
  - exact (Hself "u2" "u2" Example.moderator_u2 eq_refl eq_refl).
  - exact (Hdel "u1" "u1" Example.admin_u1 eq_refl eq_refl eq_refl).
  - apply Hcreate. reflexivity.
Defined.

Example deleteUser_other :
  @Admin.deleteUser Example.platform
    (Some {| tp_id := "u1"; tp_role := "admin" |}) "u3" Example.users1
  = (Sent 200 (Message "User deleted successfully"),
     delete "u3" Example.users1).
Proof. reflexivity. Qed.

(** ** The audit trail (middleware/auditLogger.ts, models/AuditLog.ts) *)

Section AuditTrail.
Import Audit Permissions.

Lemma assign_field_keys (f : string) (x : jsval) (fields : list (string * jsval)) :
  map fst (assign_field f x fields) = map fst fields.
Proof.
  induction fields as [| [k v] rest IH]; [reflexivity |].
  simpl. now rewrite IH.
Qed.

Lemma lookup_assign_other (k f : string) (x : jsval)
    (fields : list (string * jsval)) :
  k <> f -> lookup_field k (assign_field f x fields) = lookup_field k fields.
Proof.
  intros Hne. induction fields as [| [k' v] rest IH]; [reflexivity |].
  simpl. destruct (String.eqb_spec k k') as [-> | _]; [| exact IH].
  apply not_eq_sym in Hne. apply String.eqb_neq in Hne. now rewrite Hne.
Qed.

Lemma lookup_assign_same (f : string) (x : jsval)
    (fields : list (string * jsval)) :
  truthy (lookup_field f fields) = true ->
  lookup_field f (assign_field f x fields) = x.
Proof.
  induction fields as [| [k' v] rest IH]; [discriminate |].
  simpl. destruct (String.eqb_spec f k') as [_ | _]; [reflexivity | exact IH].
Qed.

Lemma redact_keys (fields : list (string * jsval)) (f : string) :
  map fst (redact fields f) = map fst fields.
Proof.
  unfold redact. destruct (truthy _); [apply assign_field_keys | reflexivity].
Qed.

Lemma lookup_redact (k f : string) (fields : list (string * jsval)) :
  lookup_field k (redact fields f) =
    if (k =? f)%string && truthy (lookup_field k fields)
    then JStr "[REDACTED]" else lookup_field k fields.
Proof.
  unfold redact. destruct (String.eqb_spec k f) as [-> | Hne]; simpl.
  - destruct (truthy (lookup_field f fields)) eqn:Et; [| reflexivity].
    now apply lookup_assign_same.
  - destruct (truthy (lookup_field f fields)); [| reflexivity].
    now apply lookup_assign_other.
Qed.

(** What the loop over the sensitive fields leaves under each key. *)
Lemma lookup_redact_all (names : list string) (k : string) :
  forall fields,
    lookup_field k (fold_left redact names fields) =
      if existsb (String.eqb k) names && truthy (lookup_field k fields)
      then JStr "[REDACTED]" else lookup_field k fields.
Proof.
  induction names as [| f names IH]; intros fields; [reflexivity |].
  cbn [fold_left existsb]. rewrite IH, lookup_redact.
  destruct (k =? f)%string; cbn [orb andb]; [| reflexivity].
  destruct (truthy (lookup_field k fields)) eqn:Et.
  - now destruct (existsb (String.eqb k) names).
  - now rewrite Et, andb_false_r.
Qed.

Lemma redact_all_keys (names : list string) :
  forall fields, map fst (fold_left redact names fields) = map fst fields.
Proof.
  induction names as [| f names IH]; intros fields; [reflexivity |].
  cbn [fold_left]. now rewrite IH, redact_keys.
Qed.

(** [sanitizeBody] on an object: the same keys in the same order; the
    marker under every sensitive key whose value is truthy; every other
    value as it was. *)
Lemma sanitizeBody_object (fields : list (string * jsval)) :
  exists sanitized,
    sanitizeBody (JObj fields) = JObj sanitized
    /\ map fst sanitized = map fst fields
    /\ forall k,
         lookup_field k sanitized =
           if in_enum sensitiveFields k && truthy (lookup_field k fields)
           then JStr "[REDACTED]" else lookup_field k fields.
Proof.
  exists (fold_left redact sensitiveFields fields).
  split; [reflexivity |]. split; [apply redact_all_keys |].
  intros k. apply lookup_redact_all.
Qed.

(** Values that are not objects are logged as they are. *)
Lemma sanitizeBody_other (body : jsval) :
  is_object body = false -> sanitizeBody body = body.
Proof.
  intros E. unfold sanitizeBody. rewrite E. now rewrite orb_true_r.
Qed.

(** When the entry built from a request passes the AuditLog schema's
    validation, in terms of the request: the name always has a value, so
    what decides is the role, the action, the resource and the two String
    paths. *)
Lemma valid_logData_of (resource : string) (action : option string)
    (req : Request) (u : AuthUser) (responseTime statusCode : Z)
    (rid msg : jsval) :
  au_id u <> "" ->
  valid (logData_of resource action req u responseTime statusCode rid msg)
  = in_enum userRole_enum (au_role u)
    && in_enum action_enum (or_str action (toLowerCase (req_method req)))
    && in_enum resource_enum resource
    && string_castable rid && string_castable msg.
Proof.
  intros Hid. unfold valid, logData_of.
  cbn [l_userId l_userName l_userRole l_action l_resource l_resourceId
       l_errorMessage].
  apply String.eqb_neq in Hid. rewrite Hid. cbn [negb andb].
  assert (Hname : (or_str (Some (au_name u)) "Unknown" =? "")%string = false).
  { unfold or_str, truthy_str. cbn [default from_option id].
    destruct (String.eqb_spec (au_name u) "") as [E | N]; cbn [negb];
      [reflexivity | now apply String.eqb_neq]. }
  rewrite Hname. cbn [negb andb].
  assert (Hrole : in_enum userRole_enum (or_str (Some (au_role u)) "unknown")
                  = in_enum userRole_enum (au_role u)).
  { unfold or_str, truthy_str. cbn [default from_option id].
    destruct (String.eqb_spec (au_role u) "") as [-> | N]; cbn [negb];
      reflexivity. }
  now rewrite Hrole.
Qed.

(** C7 (as amended).  For a request with an authenticated user and a JSON
    object as body, one call of the wrapped [res.json], with a response
    body that is not [undefined] or [null] when the status is 400 or more,
    writes the response and builds exactly one entry, the object
    [logData] of the source, which [logAction] appends to the audit
    collection, stamped with the time of the write, exactly when it passes
    the AuditLog schema's validation: when the user's role, the action
    (the middleware's, else the lower-cased method) and the resource are
    values of the schema's enums and neither [resourceId] nor
    [errorMessage] is an array or an object.  Otherwise the rejected write
    is swallowed and the collection stays as it was.  The entry carries
    the user's id and the middleware's resource, its [success] flag equals
    [statusCode < 400], and its [details.body] is the request body with
    the marker [[REDACTED]] in place of the value of every top-level field
    named password, confirmPassword, oldPassword, newPassword, token or
    secret whose value is truthy; every other field, a sensitive field
    with a falsy value included, is as supplied. *)
Theorem auditLogger_records (resource : string) (action : option string)
    (req : Request) (u : AuthUser) (fields : list (string * jsval))
    (body : jsval) (startTime endTime now statusCode : Z)
    (logs : list AuditLog) :
  req_user req = Some u -> au_id u <> "" ->
  req_body req = JObj fields ->
  (400 <= statusCode -> body <> JUndefined /\ body <> JNull) ->
  exists (rid msg : jsval) (d : LogData) (sanitized : list (string * jsval)),
    resourceId req = Ret rid
    /\ errorMessage statusCode body = Ret msg
    /\ d = logData_of resource action req u (endTime - startTime) statusCode
             rid msg
    /\ auditLogger resource action req startTime endTime now statusCode
         body logs
       = (Ret tt,
          if valid d then app logs [{| a_data := d; a_timestamp := now |}]
          else logs)
    /\ valid d
       = in_enum userRole_enum (au_role u)
         && in_enum action_enum (or_str action (toLowerCase (req_method req)))
         && in_enum resource_enum resource
         && string_castable rid && string_castable msg
    /\ l_userId d = au_id u
    /\ l_resource d = resource
    /\ l_success d = (statusCode <? 400)
    /\ d_body (l_details d) = JObj sanitized
    /\ map fst sanitized = map fst fields
    /\ forall k,
         lookup_field k sanitized =
           if in_enum sensitiveFields k && truthy (lookup_field k fields)
           then JStr "[REDACTED]" else lookup_field k fields.
Proof.
  intros Hu Hid Hbody Hresp.
  assert (Hrid : exists rid, resourceId req = Ret rid).
  { unfold resourceId. rewrite Hbody.
    repeat match goal with
           | |- context [if ?b then _ else _] => destruct b
           end; eauto. }
  destruct Hrid as (rid & Hrid).
  assert (Hmsg : exists msg, errorMessage statusCode body = Ret msg).
  { unfold errorMessage.
    destruct (Z.leb_spec 400 statusCode) as [Hge | Hlt]; [| eauto].
    destruct (Hresp Hge) as [Hu' Hn'].
    destruct body; eauto; contradiction. }
  destruct Hmsg as (msg & Hmsg).
  destruct (sanitizeBody_object fields) as (sanitized & Hs & Hkeys & Hlook).
  exists rid, msg,
    (logData_of resource action req u (endTime - startTime) statusCode
       rid msg), sanitized.
  split; [exact Hrid |]. split; [exact Hmsg |]. split; [reflexivity |].
  split.
  { unfold auditLogger. rewrite Hu.
    apply String.eqb_neq in Hid. rewrite Hid. cbn [negb].
    rewrite Hrid, Hmsg. reflexivity. }
  split; [now apply valid_logData_of |].
  split; [reflexivity |]. split; [reflexivity |]. split; [reflexivity |].
  split; [| split; assumption].
  cbn [logData_of l_details d_body]. now rewrite Hbody.
Qed.

End AuditTrail.

(** C7 on the creation of a user by the admin, answered 201: the entry
    is valid and the collection grows by it. *)
Lemma auditLogger_records_witness :
  exists (rid msg : jsval) (d : Audit.LogData)
         (sanitized : list (string * jsval)),
    Audit.resourceId (Example.post_user (JObj Example.new_user_fields))
    = Ret rid
    /\ Audit.errorMessage 201
         (JObj [("message", JStr "User created successfully")]) = Ret msg
    /\ d = Audit.logData_of "user" (Some "create")
             (Example.post_user (JObj Example.new_user_fields))
             Example.admin (130 - 100) 201 rid msg
    /\ Audit.auditLogger "user" (Some "create")
         (Example.post_user (JObj Example.new_user_fields))
         100 130 2000 201
         (JObj [("message", JStr "User created successfully")]) []
       = (Ret tt,
          if Audit.valid d
          then app [] [{| Audit.a_data := d; Audit.a_timestamp := 2000 |}]
          else [])
    /\ Audit.valid d
       = in_enum Audit.userRole_enum "admin"
         && in_enum Audit.action_enum
              (Audit.or_str (Some "create") (Audit.toLowerCase "POST"))
         && in_enum Audit.resource_enum "user"
         && Audit.string_castable rid && Audit.string_castable msg
    /\ Audit.l_userId d = "u1"
    /\ Audit.l_resource d = "user"
    /\ Audit.l_success d = (201 <? 400)
    /\ Audit.d_body (Audit.l_details d) = JObj sanitized
    /\ map fst sanitized = map fst Example.new_user_fields
    /\ forall k,
         lookup_field k sanitized =
           if in_enum Audit.sensitiveFields k
              && truthy (lookup_field k Example.new_user_fields)
           then JStr "[REDACTED]"
           else lookup_field k Example.new_user_fields.
Proof.
  apply (auditLogger_records "user" (Some "create")
           (Example.post_user (JObj Example.new_user_fields))
           Example.admin Example.new_user_fields
           (JObj [("message", JStr "User created successfully")])
           100 130 2000 201 []);
    [reflexivity | discriminate | reflexivity | intros Hge; lia].
Defined.

(** C7 as stated fails: a sensitive field with a falsy value is logged as
    it came, not replaced by the marker. *)
Lemma auditLogger_falsy_field_kept :
  exists entry,
    Audit.auditLogger "user" (Some "update")
      (Example.post_user
         (JObj [("name", JStr "Eve"); ("password", JStr "")]))
      100 130 2000 200 (JObj [("message", JStr "ok")]) []
    = (Ret tt, [entry])
    /\ get "password" (Audit.d_body (Audit.l_details (Audit.a_data entry)))
       = JStr ""
    /\ get "password" (Audit.d_body (Audit.l_details (Audit.a_data entry)))
       <> JStr "[REDACTED]".
Proof.
  eexists. split; [vm_compute; reflexivity |].
  split; [reflexivity | discriminate].
Qed.

Example auditLogger_redacts_password :
  exists entry,
    Audit.auditLogger "user" (Some "create")
      (Example.post_user (JObj Example.new_user_fields))
      100 130 2000 201 (JObj [("message", JStr "User created successfully")]) []
    = (Ret tt, [entry])
    /\ Audit.d_body (Audit.l_details (Audit.a_data entry))
       = JObj [("name", JStr "Eve"); ("phone", JStr "+998900000009");
               ("password", JStr "[REDACTED]"); ("role", JStr "user")]
    /\ Audit.l_success (Audit.a_data entry) = true.
Proof.
  eexists. split; [vm_compute; reflexivity |]. split; reflexivity.
Qed.

(** Without an [action] argument the entry's action is the lower-cased
    HTTP method; [post] is not a value of the schema's action enum, the
    write is rejected, and nothing is persisted. *)
Example auditLogger_default_action :
  Audit.auditLogger "user" None
    (Example.post_user (JObj Example.new_user_fields))
    100 130 2000 201 (JObj [("message", JStr "User created successfully")]) []
  = (Ret tt, []).
Proof. vm_compute. reflexivity. Qed.

(** Nested fields are not visited. *)
Example sanitizeBody_nested :
  Audit.sanitizeBody (JObj [("user", JObj [("password", JStr "hunter2")])])
  = JObj [("user", JObj [("password", JStr "hunter2")])].
Proof. reflexivity. Qed.

(** * Further properties of the modelled handlers *)

(** ** Payments: what the signature check and the webhook guarantee *)

Section PaymentsMore.
Context `{Externals}.
Import Payments.

(** X1.  [verifySignature] returns [true] for one header only: the hex
    digest of the raw body under a configured, non-empty secret. *)
Theorem verifySignature_accepts_only_digest (raw : string)
    (signature secret : option string) :
  verifySignature raw signature secret = Ret true <->
  exists k, secret = Some k /\ k <> ""
            /\ signature = Some (hmac_sha256_hex k raw).
Proof.
  split.
  - rewrite verifySignature_cases.
    destruct signature as [s |], secret as [k |]; simpl; try discriminate.
    + destruct (String.eqb_spec s "") as [-> | Hs]; simpl; [discriminate |].
      destruct (String.eqb_spec k "") as [-> | Hk]; simpl; [discriminate |].
      destruct (Nat.eqb (String.length s) 64); [| discriminate].
      intros E. injection E as E. apply String.eqb_eq in E. subst s.
      exists k. auto.
    + destruct (negb (negb (s =? "")%string)); discriminate.
  - intros (k & -> & Hk & ->). now apply verifySignature_valid.
Qed.

(** X2.  A delivery with a valid signature whose body lacks a truthy
    [intentId] or a truthy [orderId] is answered 400 [invalid payload] and
    changes nothing. *)
Theorem paymeWebhook_malformed_payload (env : Env) (secret : string)
    (body : jsval) (now : Z) (db : Orders) :
  PAYME_SECRET env = Some secret -> secret <> "" ->
  truthy (get "intentId" (or_else body (JObj []))) = false
  \/ truthy (get "orderId" (or_else body (JObj []))) = false ->
  paymeWebhook env
    (Some (hmac_sha256_hex secret (JSON_stringify (or_else body (JObj [])))))
    body now db
  = (Sent 400 (Message "invalid payload"), db).
Proof.
  intros Henv Hs Hmiss. unfold paymeWebhook.
  rewrite Henv, (verifySignature_valid _ _ Hs).
  destruct Hmiss as [-> | ->]; simpl; [reflexivity | now rewrite orb_true_r].
Qed.

Lemma findByIdAndUpdate_frame (new : bool) (now : Z) (id : jsval)
    (upd : list (string * jsval)) (db : Orders) :
  let db' := snd (OrderModel.findByIdAndUpdate new now id upd db) in
  (forall k, is_Some (db' !! k) <-> is_Some (db !! k))
  /\ forall k, castObjectId id <> Some k -> db' !! k = db !! k.
Proof.
  unfold OrderModel.findByIdAndUpdate.
  destruct (castObjectId id) as [k0 |]; simpl; [| now split].
  destruct (db !! k0) as [o |] eqn:Eo; simpl; [| now split].
  destruct (OrderModel.apply_update _ _ _) as [o' |]; simpl; [| now split].
  split; intros k.
  - destruct (decide (k0 = k)) as [<- | Hne].
    + rewrite lookup_insert_eq, Eo. split; eauto.
    + now rewrite lookup_insert_ne.
  - intros Hk. apply lookup_insert_ne. congruence.
Qed.

(** X3.  Whatever the request, a webhook delivery neither adds nor removes
    an order, and every order other than the one its [orderId] names is
    left exactly as it was. *)
Theorem paymeWebhook_frame (env : Env) (sig : option string) (body : jsval)
    (now : Z) (db : Orders) :
  let db' := snd (paymeWebhook env sig body now db) in
  (forall k, is_Some (db' !! k) <-> is_Some (db !! k))
  /\ forall k, castObjectId (get "orderId" (or_else body (JObj []))) <> Some k ->
       db' !! k = db !! k.
Proof.
  unfold paymeWebhook.
  destruct (verifySignature _ _ _) as [[|] | e]; simpl; try now split.
  destruct (negb _ || negb _); simpl; [now split |].
  pose proof (findByIdAndUpdate_frame false now
                (get "orderId" (or_else body (JObj [])))
                [("status", JStr "paid"); ("payment.status", JStr "paid");
                 ("payment.paidAt", JNum now)] db) as Hf.
  destruct (OrderModel.findByIdAndUpdate _ _ _ _ _) as [[r | e] db'];
    exact Hf.
Qed.

(** X4.  A signed, well-formed delivery whose [orderId] names no stored
    order is still answered 200 [{ ok: true }]; nothing is written. *)
Theorem paymeWebhook_unknown_order (env : Env) (sig : option string)
    (body : jsval) (now : Z) (db : Orders) (k : string) :
  signed_delivery env sig body k -> db !! k = None ->
  paymeWebhook env sig body now db = (Sent 200 OkTrue, db).
Proof.
  intros ((secret & Henv & Hsec & ->) & Hi & Ho & Hk) Hdb.
  unfold paymeWebhook. rewrite Henv, (verifySignature_valid _ _ Hsec).
  rewrite Hi, Ho. simpl.
  now rewrite (findByIdAndUpdate_missing false now _ _ db k Hk Hdb).
Qed.

End PaymentsMore.

(** X2 on the test payload without its [orderId]. *)
Lemma paymeWebhook_malformed_payload_witness :
  @Payments.paymeWebhook Example.platform Example.env
    (Some (Example.digest "payme_secret"
             (Example.stringify (JObj [("intentId", JStr "i1")]))))
    (JObj [("intentId", JStr "i1")]) 2000 Example.db1
  = (Sent 400 (Message "invalid payload"), Example.db1).
Proof.
  apply (@paymeWebhook_malformed_payload Example.platform Example.env
           "payme_secret" (JObj [("intentId", JStr "i1")]) 2000 Example.db1);
    [reflexivity | discriminate | right; reflexivity].
Defined.

(** X4 on the signed test payload, with an empty collection. *)
Lemma paymeWebhook_unknown_order_witness :
  @Payments.paymeWebhook Example.platform Example.env
    (Some Example.good_signature) Example.payload 2000 ∅
  = (Sent 200 OkTrue, ∅).
Proof.
  apply (@paymeWebhook_unknown_order Example.platform Example.env
           (Some Example.good_signature) Example.payload 2000 ∅ "o1");
    [exact example_signed_delivery | reflexivity].
Defined.

Section Redelivery.
Context `{Externals}.
Import Payments OrderModel.

Lemma filter_other_twice (p q : string) (l : list (string * jsval)) :
  filter (fun kv => negb (fst kv =? p)%string)
    (filter (fun kv => negb (fst kv =? q)%string)
       (filter (fun kv => negb (fst kv =? p)%string)
          (filter (fun kv => negb (fst kv =? q)%string) l)))
  = filter (fun kv => negb (fst kv =? p)%string)
      (filter (fun kv => negb (fst kv =? q)%string) l).
Proof.
  induction l as [| x l IH]; [reflexivity |].
  rewrite !filter_cons.
  repeat (case_decide; rewrite ?filter_cons); try congruence; try tauto.
Qed.

Lemma filter_cons_other (p k : string) (v : jsval) (l : list (string * jsval)) :
  (k =? p)%string = false ->
  filter (fun kv => negb (fst kv =? p)%string) ((k, v) :: l)
  = (k, v) :: filter (fun kv => negb (fst kv =? p)%string) l.
Proof.
  intros E. rewrite filter_cons. cbn [fst]. rewrite E.
  case_decide as D; [reflexivity | now destruct D].
Qed.

Lemma filter_cons_same (p : string) (v : jsval) (l : list (string * jsval)) :
  filter (fun kv => negb (fst kv =? p)%string) ((p, v) :: l)
  = filter (fun kv => negb (fst kv =? p)%string) l.
Proof.
  rewrite filter_cons. cbn [fst]. rewrite String.eqb_refl.
  case_decide as D; [now destruct D | reflexivity].
Qed.

Lemma order_ext (a b : Order) :
  extra a = extra b -> _id a = _id b -> userId a = userId b ->
  items a = items b -> totals a = totals b -> status a = status b ->
  address a = address b -> delivery a = delivery b ->
  paymentStatus a = paymentStatus b -> paymentMethod a = paymentMethod b ->
  notes a = notes b -> createdAt a = createdAt b ->
  updatedAt a = updatedAt b -> a = b.
Proof. destruct a, b. cbn. intros. now subst. Qed.

Lemma extra_set_extra (p : string) (v : jsval) (o : Order) :
  extra (set_extra p v o)
  = (p, v) :: filter (fun kv => negb (fst kv =? p)%string) (extra o).
Proof. reflexivity. Qed.

(** The webhook's update applied at [t1] and then at [t2] leaves what the
    update at [t2] alone leaves. *)
Lemma settle_twice (strict : bool) (t1 t2 : Z) (o o1 o2 o2' : Order) :
  apply_update strict
    [("status", JStr "paid"); ("payment.status", JStr "paid");
     ("payment.paidAt", JNum t1)] o = Some o1 ->
  apply_update strict
    [("status", JStr "paid"); ("payment.status", JStr "paid");
     ("payment.paidAt", JNum t2)] (set_updatedAt t1 o1) = Some o2 ->
  apply_update strict
    [("status", JStr "paid"); ("payment.status", JStr "paid");
     ("payment.paidAt", JNum t2)] o = Some o2' ->
  set_updatedAt t2 o2 = set_updatedAt t2 o2'.
Proof.
  destruct strict.
  - intros E1 E2 E3.
    change (Some (set_status "paid" o) = Some o1) in E1.
    injection E1 as <-.
    change (Some (set_status "paid" (set_updatedAt t1 (set_status "paid" o)))
            = Some o2) in E2.
    injection E2 as <-.
    change (Some (set_status "paid" o) = Some o2') in E3.
    injection E3 as <-. reflexivity.
  - intros E1 E2 E3.
    change (Some (set_extra "payment.paidAt" (JNum t1)
                    (set_extra "payment.status" (JStr "paid")
                       (set_status "paid" o))) = Some o1) in E1.
    injection E1 as <-.
    change (Some (set_extra "payment.paidAt" (JNum t2)
                    (set_extra "payment.status" (JStr "paid")
                       (set_status "paid"
                          (set_updatedAt t1
                             (set_extra "payment.paidAt" (JNum t1)
                                (set_extra "payment.status" (JStr "paid")
                                   (set_status "paid" o)))))))
            = Some o2) in E2.
    injection E2 as <-.
    change (Some (set_extra "payment.paidAt" (JNum t2)
                    (set_extra "payment.status" (JStr "paid")
                       (set_status "paid" o))) = Some o2') in E3.
    injection E3 as <-.
    apply order_ext; try reflexivity.
    change (extra (set_updatedAt t2 ?x)) with (extra x).
    rewrite !extra_set_extra.
    change (extra (set_status "paid" ?x)) with (extra x).
    change (extra (set_updatedAt t1 ?x)) with (extra x).
    rewrite !extra_set_extra.
    change (extra (set_status "paid" o)) with (extra o).
    repeat first [ rewrite filter_cons_same
                 | rewrite filter_cons_other by reflexivity ].
    do 2 f_equal. apply filter_other_twice.
Qed.

(** X5.  Redelivery is harmless: for every request and every state, the
    collection after a delivery at [t1] followed by the same delivery at
    [t2] is the collection after the single delivery at [t2]. *)
Theorem paymeWebhook_redelivery (env : Env) (sig : option string) (body : jsval)
    (t1 t2 : Z) (db : Orders) :
  snd (paymeWebhook env sig body t2 (snd (paymeWebhook env sig body t1 db)))
  = snd (paymeWebhook env sig body t2 db).
Proof.
  unfold paymeWebhook.
  destruct (verifySignature _ _ _) as [[|] | e]; simpl; try reflexivity.
  destruct (negb _ || negb _); simpl; [reflexivity |].
  unfold findByIdAndUpdate.
  destruct (castObjectId _) as [k |]; simpl; [| reflexivity].
  destruct (db !! k) as [o |] eqn:Eo; simpl; [| now rewrite Eo].
  destruct (apply_update_settle strictMode t1 o) as (o1 & E1 & _).
  destruct (apply_update_settle strictMode t2 o) as (o2' & E3 & _).
  destruct (apply_update_settle strictMode t2 (set_updatedAt t1 o1))
    as (o2 & E2 & _).
  rewrite E1. simpl. rewrite lookup_insert_eq, E2, E3. simpl.
  rewrite insert_insert_eq.
  now rewrite (settle_twice strictMode t1 t2 o o1 o2 o2' E1 E2 E3).
Qed.

(** X6.  [idempotencyKey] hands back a non-empty id it is given; without
    one it returns 16 hexadecimal characters, and two different draws of
    the 8 random bytes never give the same key. *)
Theorem idempotencyKey_fresh (id : string) (r1 r2 : list Byte.byte) :
  length r1 = 8%nat -> length r2 = 8%nat ->
  (id <> "" -> idempotencyKey (Some id) r1 = id)
  /\ String.length (idempotencyKey None r1) = 16%nat
  /\ forallb is_hex (list_ascii_of_string (idempotencyKey None r1)) = true
  /\ (r1 <> r2 -> idempotencyKey None r1 <> idempotencyKey None r2).
Proof.
  intros H1 H2. repeat split.
  - intros Hid. unfold idempotencyKey.
    apply truthy_str_Some in Hid. now rewrite Hid.
  - unfold idempotencyKey. simpl. now rewrite toString_hex_length, H1.
  - apply toString_hex_chars.
  - intros Hne E. apply Hne. unfold idempotencyKey in E. simpl in E.
    apply toString_hex_inj; congruence.
Qed.

(** X7.  [createPayme] does not check that the order exists: a call with
    truthy [orderId] and [amount] naming no stored order is answered 200
    with an intent and a redirect URL, and nothing is written. *)
Theorem createPayme_unknown_order (env : Env) (body : jsval)
    (randomBytes8 : list Byte.byte) (now : Z) (db : Orders) (k : string) :
  truthy (get "orderId" (or_else body (JObj []))) = true ->
  truthy (get "amount" (or_else body (JObj []))) = true ->
  castObjectId (get "orderId" (or_else body (JObj []))) = Some k ->
  db !! k = None ->
  createPayme env body randomBytes8 now db
  = (Sent 200
       (Intent (toString_hex randomBytes8)
          (redirect env (get "orderId" (or_else body (JObj [])))
             (toString_hex randomBytes8))), db).
Proof.
  intros Ho Ha Hk Hdb. unfold createPayme. rewrite Ho, Ha. simpl.
  now rewrite (findByIdAndUpdate_missing false now _ _ db k Hk Hdb).
Qed.

End Redelivery.

(** X6 on two draws that differ in their last byte. *)
Lemma idempotencyKey_fresh_witness :
  ("abc" <> "" -> Payments.idempotencyKey (Some "abc")
                    (repeat Byte.x00 8) = "abc")
  /\ String.length (Payments.idempotencyKey None (repeat Byte.x00 8)) = 16%nat
  /\ forallb Payments.is_hex
       (list_ascii_of_string (Payments.idempotencyKey None (repeat Byte.x00 8)))
     = true
  /\ (repeat Byte.x00 8 <> app (repeat Byte.x00 7) [Byte.x01] ->
      Payments.idempotencyKey None (repeat Byte.x00 8)
      <> Payments.idempotencyKey None (app (repeat Byte.x00 7) [Byte.x01])).
Proof.
  apply (idempotencyKey_fresh "abc" (repeat Byte.x00 8)
           (app (repeat Byte.x00 7) [Byte.x01])); reflexivity.
Defined.

(** X7 on a create call for the unknown order [o9]. *)
Lemma createPayme_unknown_order_witness :
  @Payments.createPayme Example.platform Example.env
    (JObj [("orderId", JStr "o9"); ("amount", JNum 500)])
    (repeat Byte.xff 8) 2000 Example.db1
  = (Sent 200
       (Intent "ffffffffffffffff"
          "http://localhost:5173/payment/success?orderId=o9&intentId=ffffffffffffffff"),
     Example.db1).
Proof.
  apply (@createPayme_unknown_order Example.platform Example.env
           (JObj [("orderId", JStr "o9"); ("amount", JNum 500)])
           (repeat Byte.xff 8) 2000 Example.db1 "o9"); reflexivity.
Defined.

(** ** The Order schema as an invariant (models/Order.ts) *)

Module OrderSchema.

Definition nonempty (s : string) : bool := negb (s =? "")%string.

(** CartItemSchema: four required strings, and [qty] at least 1. *)
Definition item_ok (i : CartItem) : bool :=
  nonempty (productId i) && nonempty (title i) && nonempty (slug i)
  && nonempty (image i) && (1 <=? qty i).

(** AddressSchema: six required strings. *)
Definition address_ok (a : Address) : bool :=
  nonempty (fullName a) && nonempty (phone a) && nonempty (country a)
  && nonempty (city a) && nonempty (street a) && nonempty (zip a).

Definition method_ok (m : option string) : bool :=
  match m with
  | Some s => in_enum paymentMethod_enum s
  | None => true
  end.

(** What OrderSchema demands of a document: the required paths, and the
    three enums of the values that are not [null]. *)
Definition order_ok (o : Order) : bool :=
  nonempty (userId o)
  && forallb item_ok (items o)
  && enum_validator status_enum (status o)
  && address_ok (address o)
  && address_ok (d_address (delivery o))
  && enum_validator paymentStatus_enum (paymentStatus o)
  && method_ok (paymentMethod o).

(** A document as the plain object [Order.create] is given: the paths of
    the schema, with [null] where an optional value is absent. *)
Definition opt_str (v : option string) : jsval :=
  match v with
  | Some s => JStr s
  | None => JNull
  end.

Definition opt_num (v : option Z) : jsval :=
  match v with
  | Some n => JNum n
  | None => JNull
  end.

Definition item_object (i : CartItem) : jsval :=
  JObj [("productId", JStr (productId i)); ("title", JStr (title i));
        ("slug", JStr (slug i)); ("price", JNum (price i));
        ("qty", JNum (qty i)); ("color", opt_str (color i));
        ("size", opt_str (size i)); ("image", JStr (image i))].

Definition address_object (a : Address) : jsval :=
  JObj [("fullName", JStr (fullName a)); ("phone", JStr (phone a));
        ("country", JStr (country a)); ("city", JStr (city a));
        ("street", JStr (street a)); ("zip", JStr (zip a));
        ("isDefault", JBool (isDefault a))].

Definition totals_object (t : Totals) : jsval :=
  JObj [("subtotal", JNum (subtotal t)); ("shipping", JNum (shipping t));
        ("tax", JNum (tax t)); ("total", JNum (total t))].

Definition delivery_object (d : Delivery) : jsval :=
  JObj [("coordinates",
         JObj [("latitude", opt_num (latitude (coordinates d)));
               ("longitude", opt_num (longitude (coordinates d)))]);
        ("address", address_object (d_address d));
        ("estimatedTime", opt_num (estimatedTime d));
        ("courierId", opt_str (courierId d));
        ("courierName", opt_str (courierName d));
        ("courierPhone", opt_str (courierPhone d));
        ("instructions", opt_str (instructions d))].

Definition order_object (o : Order) : list (string * jsval) :=
  [("userId", JStr (userId o));
   ("items", JArr (map item_object (items o)));
   ("totals", totals_object (totals o));
   ("status", opt_str (status o));
   ("address", address_object (address o));
   ("delivery", delivery_object (delivery o));
   ("paymentStatus", opt_str (paymentStatus o));
   ("paymentMethod", opt_str (paymentMethod o));
   ("notes", opt_str (notes o))].

(** The document [Order.create] makes of it: a fresh id, both timestamps
    at the time of creation, and no path outside the schema. *)
Definition stamped (fresh_id : string) (now : Z) (o : Order) : Order :=
  {| _id := fresh_id; userId := userId o; items := items o;
     totals := totals o; status := status o; address := address o;
     delivery := delivery o; paymentStatus := paymentStatus o;
     paymentMethod := paymentMethod o; notes := notes o;
     createdAt := now; updatedAt := now; extra := [] |}.

End OrderSchema.

(** ** routes/orders.ts: the two listings *)

Module OrderLists.

(** [sort({ createdAt: -1 })]: newest first. *)
Definition newer_first (a b : Order) : Prop := createdAt b <= createdAt a.

#[export] Instance newer_first_dec : RelDecision newer_first.
Proof. intros a b. unfold newer_first. apply Z_le_dec. Defined.

(** [Order.find(filter).sort({ createdAt: -1 })].  The order among
    documents of equal [createdAt] is not fixed by the source; the model
    takes the one a merge sort of the collection gives. *)
Definition find_sorted (keep : Order -> bool) (db : Orders) : list Order :=
  merge_sort newer_first
    (List.filter keep (map snd (map_to_list db))).

(** The body [{ orders: orders.map(o => o.toJSON()) }], or [{ message }]. *)
Inductive ListBody :=
| OrdersJSON (orders : list Order)
| ListMessage (message : string).

(** [getMyOrders]: reading [req.user.id] from an absent user is a
    TypeError, caught by the handler. *)
Definition getMyOrders (user : option TokenPayload) (db : Orders)
  : Outcome ListBody :=
  match user with
  | None => Sent 500 (ListMessage "Server error")
  | Some u =>
      let userId' := tp_id u in
      Sent 200 (OrdersJSON
                  (find_sorted (fun o => (userId o =? userId')%string) db))
  end.

Definition adminListOrders (db : Orders) : Outcome ListBody :=
  Sent 200 (OrdersJSON (find_sorted (fun _ => true) db)).

End OrderLists.

Section OrderModelMore.
Context `{Externals}.
Import OrderModel OrderSchema.

Lemma required_string_nonempty (v : jsval) (s : string) :
  required_string v = Some s -> nonempty s = true.
Proof.
  unfold required_string, nonempty. destruct v; try discriminate.
  destruct (s0 =? "")%string eqn:E; [discriminate |].
  intros [= <-]. now rewrite E.
Qed.

Lemma castCartItem_ok (v : jsval) (i : CartItem) :
  castCartItem v = Some i -> item_ok i = true.
Proof.
  unfold castCartItem. destruct v; try discriminate.
  intros Hc.
  apply bind_Some in Hc as (pid & E1 & Hc).
  apply bind_Some in Hc as (ttl & E2 & Hc).
  apply bind_Some in Hc as (slg & E3 & Hc).
  apply bind_Some in Hc as (prc & _ & Hc).
  apply bind_Some in Hc as (q & _ & Hc).
  apply bind_Some in Hc as (col & _ & Hc).
  apply bind_Some in Hc as (sz & _ & Hc).
  apply bind_Some in Hc as (img & E4 & Hc).
  destruct (1 <=? q) eqn:Eq; [| discriminate].
  injection Hc as <-. unfold item_ok. cbn.
  rewrite (required_string_nonempty _ _ E1), (required_string_nonempty _ _ E2),
    (required_string_nonempty _ _ E3), (required_string_nonempty _ _ E4), Eq.
  reflexivity.
Qed.

Lemma castItems_ok (v : jsval) (its : list CartItem) :
  castItems v = Some its -> forallb item_ok its = true.
Proof.
  assert (Hm : forall xs, mapM castCartItem xs = Some its ->
                          forallb item_ok its = true).
  { intros xs Hx. apply mapM_Some_1 in Hx.
    induction Hx as [| x i xs its' Hxi _ IH]; [reflexivity |].
    cbn. now rewrite (castCartItem_ok _ _ Hxi), IH. }
  unfold castItems. destruct v; try discriminate; apply Hm.
Qed.

Lemma castAddress_ok (v : jsval) (a : Address) :
  castAddress v = Some a -> address_ok a = true.
Proof.
  unfold castAddress. destruct v; try discriminate. intros Hc.
  apply bind_Some in Hc as (s1 & E1 & Hc).
  apply bind_Some in Hc as (s2 & E2 & Hc).
  apply bind_Some in Hc as (s3 & E3 & Hc).
  apply bind_Some in Hc as (s4 & E4 & Hc).
  apply bind_Some in Hc as (s5 & E5 & Hc).
  apply bind_Some in Hc as (s6 & E6 & Hc).
  apply bind_Some in Hc as (dflt & _ & Hc).
  injection Hc as <-. unfold address_ok. cbn.
  now rewrite (required_string_nonempty _ _ E1),
    (required_string_nonempty _ _ E2), (required_string_nonempty _ _ E3),
    (required_string_nonempty _ _ E4), (required_string_nonempty _ _ E5),
    (required_string_nonempty _ _ E6).
Qed.

Lemma castDelivery_ok (v : jsval) (d : Delivery) :
  castDelivery v = Some d -> address_ok (d_address d) = true.
Proof.
  unfold castDelivery. destruct v; try discriminate. intros Hc.
  apply bind_Some in Hc as (co & _ & Hc).
  apply bind_Some in Hc as (ad & Ea & Hc).
  apply bind_Some in Hc as (et & _ & Hc).
  apply bind_Some in Hc as (cid & _ & Hc).
  apply bind_Some in Hc as (cn & _ & Hc).
  apply bind_Some in Hc as (cp & _ & Hc).
  apply bind_Some in Hc as (ins & _ & Hc).
  injection Hc as <-. cbn. exact (castAddress_ok _ _ Ea).
Qed.

Lemma enum_with_default_ok (enum : list string) (dflt : string) (v : jsval)
    (s : option string) :
  in_enum enum dflt = true ->
  enum_with_default enum dflt v = Some s -> enum_validator enum s = true.
Proof.
  intros Hd. unfold enum_with_default. destruct v; try discriminate.
  - now intros [= <-].
  - now intros [= <-].
  - destruct (in_enum enum s0) eqn:E; [| discriminate]. now intros [= <-].
Qed.

Lemma optional_enum_ok (enum : list string) (v : jsval) (m : option string) :
  optional_enum enum v = Some m ->
  match m with Some s => in_enum enum s = true | None => True end.
Proof.
  unfold optional_enum. destruct v; try discriminate;
    try (intros [= <-]; exact I).
  destruct (in_enum enum s) eqn:E; [| discriminate]. now intros [= <-].
Qed.

(** A document that passes validation satisfies the schema. *)
Lemma build_ok (fresh_id : string) (now : Z) (doc : list (string * jsval))
    (o : Order) :
  build fresh_id now doc = Some o ->
  order_ok o = true /\ _id o = fresh_id /\ createdAt o = now
  /\ updatedAt o = now.
Proof.
  unfold build. intros Hb.
  apply bind_Some in Hb as (uid & E1 & Hb).
  apply bind_Some in Hb as (its & E2 & Hb).
  apply bind_Some in Hb as (tot & _ & Hb).
  apply bind_Some in Hb as (st & E3 & Hb).
  apply bind_Some in Hb as (adr & E4 & Hb).
  apply bind_Some in Hb as (dlv & E5 & Hb).
  apply bind_Some in Hb as (pst & E6 & Hb).
  apply bind_Some in Hb as (pm & E7 & Hb).
  apply bind_Some in Hb as (nts & _ & Hb).
  injection Hb as <-. repeat split.
  unfold order_ok.
  cbn [userId items status address delivery paymentStatus paymentMethod].
  rewrite (required_string_nonempty _ _ E1), (castItems_ok _ _ E2),
    (enum_with_default_ok status_enum status_default _ _ eq_refl E3),
    (castAddress_ok _ _ E4), (castDelivery_ok _ _ E5),
    (enum_with_default_ok paymentStatus_enum paymentStatus_default _ _
       eq_refl E6).
  pose proof (optional_enum_ok _ _ _ E7) as Hm.
  destruct pm as [m |]; cbn [andb method_ok]; [exact Hm | reflexivity].
Qed.

Lemma required_string_of (s0 : string) :
  nonempty s0 = true -> required_string (JStr s0) = Some s0.
Proof.
  unfold nonempty, required_string. now destruct (s0 =? "")%string.
Qed.

Lemma optional_string_of (v : option string) :
  optional_string (opt_str v) = Some v.
Proof. now destruct v. Qed.

Lemma optional_number_of (v : option Z) :
  optional_number (opt_num v) = Some v.
Proof. now destruct v. Qed.

Lemma enum_of (enum : list string) (dflt : string) (v : option string) :
  enum_validator enum v = true ->
  enum_with_default enum dflt (opt_str v) = Some v.
Proof. destruct v as [s0 |]; cbn; [now intros -> | reflexivity]. Qed.

Lemma optional_enum_of (enum : list string) (v : option string) :
  enum_validator enum v = true -> optional_enum enum (opt_str v) = Some v.
Proof. destruct v as [s0 |]; cbn; [now intros -> | reflexivity]. Qed.

Lemma castCartItem_of (i : CartItem) :
  item_ok i = true -> castCartItem (item_object i) = Some i.
Proof.
  unfold item_ok. rewrite !andb_true_iff.
  intros ((((Hp & Ht) & Hs) & Hi) & Hq).
  unfold castCartItem, item_object, get. cbn [lookup_field String.eqb
    Ascii.eqb Bool.eqb].
  rewrite !required_string_of, !optional_string_of by assumption.
  cbn. rewrite Hq. now destruct i.
Qed.

Lemma castItems_of (its : list CartItem) :
  forallb item_ok its = true ->
  castItems (JArr (map item_object its)) = Some its.
Proof.
  intros Hall. unfold castItems. apply mapM_Some_2.
  induction its as [| i its IH]; [constructor |].
  cbn in Hall. apply andb_true_iff in Hall as [Hi Hits].
  constructor; [now apply castCartItem_of | now apply IH].
Qed.

Lemma castAddress_of (a : Address) :
  address_ok a = true -> castAddress (address_object a) = Some a.
Proof.
  unfold address_ok. rewrite !andb_true_iff.
  intros (((((H1 & H2) & H3) & H4) & H5) & H6).
  unfold castAddress, address_object, get. cbn [lookup_field String.eqb
    Ascii.eqb Bool.eqb].
  rewrite !required_string_of by assumption. cbn. now destruct a.
Qed.

Lemma castTotals_of (t : Totals) : castTotals (totals_object t) = Some t.
Proof. now destruct t. Qed.

Lemma castDelivery_of (d : Delivery) :
  address_ok (d_address d) = true ->
  castDelivery (delivery_object d) = Some d.
Proof.
  intros Ha. unfold castDelivery, delivery_object, get.
  cbn [lookup_field String.eqb Ascii.eqb Bool.eqb].
  unfold castCoordinates, get.
  cbn [lookup_field String.eqb Ascii.eqb Bool.eqb].
  rewrite !optional_number_of, !optional_string_of, (castAddress_of _ Ha).
  cbn. now destruct d as [[la lo] ad et cid cn cp ins].
Qed.

(** A document that satisfies the schema passes validation as it is. *)
Lemma build_of (fresh_id : string) (now : Z) (o : Order) :
  order_ok o = true ->
  build fresh_id now (order_object o) = Some (stamped fresh_id now o).
Proof.
  unfold order_ok. rewrite !andb_true_iff.
  intros ((((((Hu & Hi) & Hs) & Ha) & Hd) & Hp) & Hm).
  unfold build, order_object.
  cbn [lookup_field String.eqb Ascii.eqb Bool.eqb].
  rewrite (required_string_of _ Hu), (castItems_of _ Hi), castTotals_of,
    (enum_of _ _ _ Hs), (castAddress_of _ Ha), (castDelivery_of _ Hd),
    (enum_of _ _ _ Hp), (optional_enum_of _ _ Hm), optional_string_of.
  reflexivity.
Qed.

(** X8.  [Order.create] stores what the schema allows and nothing else.
    For any document it either stores, under the fresh id and stamped with
    the creation time, a document that satisfies the schema (required
    strings non-empty, every item with [qty >= 1], [status],
    [paymentStatus] and [paymentMethod] each [null] or within its enum)
    and leaves every other order as it was, or throws and leaves the
    collection unchanged; and a document that satisfies the schema,
    given as a plain object, is stored as it is. *)
Theorem create_stores_valid_order (fresh_id : string) (now : Z)
    (doc : list (string * jsval)) (db : Orders) :
  match create fresh_id now doc db with
  | (Ret o, db') =>
      order_ok o = true
      /\ _id o = fresh_id /\ createdAt o = now /\ updatedAt o = now
      /\ db' !! fresh_id = Some o
      /\ forall k, k <> fresh_id -> db' !! k = db !! k
  | (Throw _, db') => db' = db
  end
  /\ forall o,
       order_ok o = true ->
       create fresh_id now (order_object o) db
       = (Ret (stamped fresh_id now o),
          <[fresh_id := stamped fresh_id now o]> db).
Proof.
  split.
  - unfold create. destruct (build fresh_id now doc) as [o |] eqn:Eb;
      [| reflexivity].
    destruct (build_ok _ _ _ _ Eb) as (Hok & Hid & Hc & Hu).
    repeat split; try assumption.
    + apply lookup_insert_eq.
    + intros k Hk. apply lookup_insert_ne. congruence.
  - intros o Hok. unfold create. now rewrite (build_of _ _ _ Hok).
Qed.

(** X9.  One item with [qty < 1] anywhere in the [items] array makes
    [Order.create] throw a ValidationError, with nothing stored. *)
Theorem create_rejects_low_qty (fresh_id : string) (now : Z)
    (doc : list (string * jsval)) (db : Orders) (xs : list jsval)
    (x : jsval) (q : Z) :
  lookup_field "items" doc = JArr xs -> In x xs ->
  get "qty" x = JNum q -> q < 1 ->
  create fresh_id now doc db = (Throw "ValidationError", db).
Proof.
  intros Hitems Hin Hq Hlt.
  assert (Hx : castCartItem x = None).
  { destruct (castCartItem x) as [i |] eqn:Ec; [exfalso | reflexivity].
    unfold castCartItem in Ec. destruct x; try discriminate.
    apply bind_Some in Ec as (pid & _ & Ec).
    apply bind_Some in Ec as (ttl & _ & Ec).
    apply bind_Some in Ec as (slg & _ & Ec).
    apply bind_Some in Ec as (prc & _ & Ec).
    apply bind_Some in Ec as (q0 & Eq0 & Ec).
    rewrite Hq in Eq0. injection Eq0 as <-.
    apply bind_Some in Ec as (col & _ & Ec).
    apply bind_Some in Ec as (sz & _ & Ec).
    apply bind_Some in Ec as (img & _ & Ec).
    destruct (Z.leb_spec 1 q); [lia | discriminate]. }
  assert (Hits : castItems (JArr xs) = None).
  { clear Hitems. unfold castItems.
    destruct (mapM castCartItem xs) as [its |] eqn:Em; [| reflexivity].
    apply mapM_Some_1 in Em. exfalso.
    apply list_elem_of_In in Hin.
    revert Hin. induction Em as [| y i ys is' Hy _ IH]; intros Hin.
    - inversion Hin.
    - apply elem_of_cons in Hin as [-> | Hin]; [congruence | auto]. }
  unfold create, build. rewrite Hitems, Hits.
  now destruct (required_string _).
Qed.

End OrderModelMore.

(** A document with a [delivery] sub-document and an empty [items] array,
    as [Order.create] accepts it. *)
Definition full_doc (items : jsval) : list (string * jsval) :=
  [("userId", JStr "u1"); ("items", items);
   ("totals", get "totals" (Example.order_body items));
   ("address", get "address" (Example.order_body items));
   ("delivery", JObj [("address", get "address" (Example.order_body items))])].

Example create_accepts_empty_items :
  exists o,
    OrderModel.create "o2" 2000 (full_doc (JArr [])) Example.db1
    = (Ret o, <["o2" := o]> Example.db1)
    /\ items o = [] /\ status o = Some "pending" /\ paymentStatus o = Some "pending".
Proof. eexists. split; [reflexivity |]. repeat split. Qed.

(** X9 on a document whose second item has [qty = 0]. *)
Lemma create_rejects_low_qty_witness :
  OrderModel.create "o2" 2000
    (full_doc (JArr [Example.tee 2; Example.tee 0])) Example.db1
  = (Throw "ValidationError", Example.db1).
Proof.
  apply (create_rejects_low_qty "o2" 2000
           (full_doc (JArr [Example.tee 2; Example.tee 0])) Example.db1
           [Example.tee 2; Example.tee 0] (Example.tee 0) 0);
    [reflexivity | right; left; reflexivity | reflexivity | lia].
Defined.

(** ** Status updates and listings (routes/orders.ts) *)

Section OrdersMore.
Context `{Externals}.
Import Orders OrderLists.

(** X10.  Whatever the request, [updateOrderStatus] neither adds nor
    removes an order and leaves every order but the addressed one as it
    was; the addressed order is either unchanged or differs from before in
    [status], set to one of the handler's five values, and [updatedAt]. *)
Theorem updateOrderStatus_frame (orderId : string) (body : jsval) (now : Z)
    (db : Orders) :
  let db' := snd (updateOrderStatus orderId body now db) in
  (forall k, is_Some (db' !! k) <-> is_Some (db !! k))
  /\ (forall k, castObjectId (JStr orderId) <> Some k -> db' !! k = db !! k)
  /\ (forall k o', castObjectId (JStr orderId) = Some k ->
        db' !! k = Some o' ->
        exists o, db !! k = Some o
                  /\ (o' = o
                      \/ exists s, In s okStatuses
                           /\ o' = set_updatedAt now (set_status s o))).
Proof.
  unfold updateOrderStatus.
  destruct (includes okStatuses _) eqn:Einc; simpl;
    [| split; [tauto | split; [tauto | intros k o' _ Ho'; eauto]]].
  destruct (get "status" (or_else body (JObj []))) as [| | | | s | |] eqn:Es;
    try discriminate.
  assert (Hin : In s okStatuses).
  { unfold includes in Einc. apply existsb_exists in Einc as (x & Hx & Ex).
    apply String.eqb_eq in Ex. now subst. }
  unfold OrderModel.findByIdAndUpdate.
  destruct (castObjectId (JStr orderId)) as [k0 |]; simpl;
    [| split; [tauto | split; [tauto | intros k o' [=]]]].
  destruct (db !! k0) as [o |] eqn:Eo; simpl.
  - split; [| split].
    + intros k. destruct (decide (k0 = k)) as [<- | Hne].
      * rewrite lookup_insert_eq, Eo. split; eauto.
      * now rewrite lookup_insert_ne.
    + intros k Hk. apply lookup_insert_ne. congruence.
    + intros k o' [= <-] Ho'. rewrite lookup_insert_eq in Ho'.
      injection Ho' as <-. exists o. split; [assumption |].
      right. exists s. split; [assumption | reflexivity].
  - split; [tauto | split; [tauto |]].
    intros k o' [= <-] Ho'. congruence.
Qed.

Lemma newer_first_total : Total newer_first.
Proof. intros a b. unfold newer_first. lia. Qed.

Lemma newer_first_trans : Transitive newer_first.
Proof. intros a b c. unfold newer_first. lia. Qed.

Lemma find_sorted_spec (keep : Order -> bool) (db : Orders) :
  find_sorted keep db ≡ₚ List.filter keep (map snd (map_to_list db))
  /\ StronglySorted newer_first (find_sorted keep db).
Proof.
  split.
  - apply merge_sort_Permutation.
  - apply (@StronglySorted_merge_sort _ _ _ newer_first_trans newer_first_total).
Qed.

Lemma elem_of_find_sorted (keep : Order -> bool) (db : Orders) (o : Order) :
  In o (find_sorted keep db) <->
  (exists k, db !! k = Some o) /\ keep o = true.
Proof.
  destruct (find_sorted_spec keep db) as [Hp _].
  rewrite <- list_elem_of_In, Hp, list_elem_of_In, filter_In, in_map_iff.
  split.
  - intros [((k & o0) & <- & Hin) Hk]. split; [| assumption].
    exists k. apply elem_of_map_to_list. now apply list_elem_of_In.
  - intros [(k & Hk) Hkeep]. split; [| assumption].
    exists (k, o). split; [reflexivity |].
    apply list_elem_of_In. now apply elem_of_map_to_list.
Qed.

(** X11.  [getMyOrders] answers 200 with exactly the stored orders whose
    [userId] is the caller's id, each stored document once and none of any
    other user, newest first. *)
Theorem getMyOrders_own_orders (u : TokenPayload) (db : Orders) :
  exists orders,
    getMyOrders (Some u) db = Sent 200 (OrdersJSON orders)
    /\ (forall o, In o orders <->
                  (exists k, db !! k = Some o) /\ userId o = tp_id u)
    /\ orders ≡ₚ List.filter (fun o => (userId o =? tp_id u)%string)
                   (map snd (map_to_list db))
    /\ StronglySorted newer_first orders.
Proof.
  eexists. split; [reflexivity |].
  destruct (find_sorted_spec (fun o => (userId o =? tp_id u)%string) db)
    as [Hp Hs].
  split; [| split; assumption].
  intros o. rewrite elem_of_find_sorted. now rewrite String.eqb_eq.
Qed.

(** X12.  [adminListOrders] answers 200 with every stored order, each
    once, newest first. *)
Theorem adminListOrders_all_orders (db : Orders) :
  exists orders,
    adminListOrders db = Sent 200 (OrdersJSON orders)
    /\ orders ≡ₚ map snd (map_to_list db)
    /\ length orders = base.size db
    /\ StronglySorted newer_first orders.
Proof.
  eexists. split; [reflexivity |].
  destruct (find_sorted_spec (fun _ => true) db) as [Hp Hs].
  assert (Hall : List.filter (fun _ : Order => true) (map snd (map_to_list db))
                 = map snd (map_to_list db)).
  { generalize (map snd (map_to_list db)). intros l.
    induction l as [| x l IH]; [reflexivity |].
    cbn [List.filter]. now f_equal. }
  rewrite Hall in Hp. split; [assumption |]. split; [| assumption].
  now rewrite Hp, length_map, length_map_to_list.
Qed.

End OrdersMore.

Example getMyOrders_other_user :
  OrderLists.getMyOrders (Some {| tp_id := "u2"; tp_role := "user" |}) Example.db1
  = Sent 200 (OrderLists.OrdersJSON [])
  /\ OrderLists.getMyOrders (Some {| tp_id := "u1"; tp_role := "user" |})
       Example.db1
     = Sent 200 (OrderLists.OrdersJSON [Example.o1]).
Proof. split; vm_compute; reflexivity. Qed.

(** ** The tracker on any status (routes/delivery.ts) *)

Section TrackerMore.
Import Delivery.

(** X13.  Whatever an order's [status] holds, the timeline's
    statuses are a non-empty prefix of pending, confirmed, preparing,
    ready_for_delivery, in_transit, delivered: it always starts with
    [pending], never skips a stage and never lists a stage twice. *)
Theorem timeline_is_stage_prefix (order : Order) :
  exists n : nat,
    (1 <= n <= 6)%nat
    /\ map te_status (timeline order) = take n stages.
Proof.
  destruct (is_one_of ["confirmed"; "preparing"; "ready_for_delivery";
                       "in_transit"; "delivered"] (status order)) eqn:E.
  - unfold is_one_of in E.
    destruct (status order) as [st |] eqn:Est; [| discriminate].
    apply existsb_exists in E as (s & Hin & Es).
    apply String.eqb_eq in Es. subst st.
    simpl in Hin.
    destruct Hin as [<- | [<- | [<- | [<- | [<- | []]]]]].
    + exists 2%nat. split; [lia |]. apply (timeline_stage order 1 _ eq_refl Est).
    + exists 3%nat. split; [lia |]. apply (timeline_stage order 2 _ eq_refl Est).
    + exists 4%nat. split; [lia |]. apply (timeline_stage order 3 _ eq_refl Est).
    + exists 5%nat. split; [lia |]. apply (timeline_stage order 4 _ eq_refl Est).
    + exists 6%nat. split; [lia |]. apply (timeline_stage order 5 _ eq_refl Est).
  - exists 1%nat. split; [lia |]. now apply timeline_pending_only.
Qed.

End TrackerMore.

(** ** middleware/permissions.ts: role gates and the permission table *)

Module Rbac.

Import Permissions.

Definition requireAdmin (user : option AuthUser) : Gate AuthUser :=
  match user with
  | Some u =>
      if negb (au_role u =? "admin")%string
      then Rejected 403 "Admin access required"
      else Next u
  | None => Rejected 403 "Admin access required"
  end.

Definition requireAdminOrModerator (user : option AuthUser) : Gate AuthUser :=
  match user with
  | Some u =>
      if negb (au_role u =? "admin")%string
         && negb (au_role u =? "moderator")%string
      then Rejected 403 "Admin or Moderator access required"
      else Next u
  | None => Rejected 403 "Admin or Moderator access required"
  end.

(** [req.params.userId || req.body.userId]: the body is read only when
    the route has no truthy [userId] parameter, and reading it from an
    absent body is a TypeError. *)
Definition targetUserId (params_userId : option string) (body : jsval)
  : Exn jsval :=
  if truthy_str params_userId then Ret (JStr (default "" params_userId))
  else
    match body with
    | JUndefined | JNull => Throw "TypeError"
    | b => Ret (get "userId" b)
    end.

(** [req.user.id === targetUserId] *)
Definition same_id (id : string) (target : jsval) : bool :=
  match target with
  | JStr s => (id =? s)%string
  | _ => false
  end.

Definition requireOwnershipOrAdmin (params_userId : option string)
    (body : jsval) (user : option AuthUser) : Exn (Gate AuthUser) :=
  match targetUserId params_userId body with
  | Throw e => Throw e
  | Ret target =>
      match user with
      | None => Ret (Rejected 401 "Authentication required")
      | Some u =>
          if (au_role u =? "admin")%string || (au_role u =? "moderator")%string
          then Ret (Next u)
          else if same_id (au_id u) target then Ret (Next u)
          else Ret (Rejected 403 "Access denied")
      end
  end.

(** [keyof typeof PERMISSIONS.ADMIN] *)
Inductive Resource :=
| R_users | R_products | R_categories | R_orders | R_comments | R_analytics
| R_system | R_delivery.

Definition resource_name (r : Resource) : string :=
  match r with
  | R_users => "users" | R_products => "products"
  | R_categories => "categories" | R_orders => "orders"
  | R_comments => "comments" | R_analytics => "analytics"
  | R_system => "system" | R_delivery => "delivery"
  end.

(** One role's entry of [PERMISSIONS]: the actions of a resource, [None]
    where the entry has no such key. *)
Definition ADMIN (r : Resource) : option (list string) :=
  match r with
  | R_users => Some ["create"; "read"; "update"; "delete"; "list"]
  | R_products => Some ["create"; "read"; "update"; "delete"; "list"]
  | R_categories => Some ["create"; "read"; "update"; "delete"; "list"]
  | R_orders => Some ["create"; "read"; "update"; "delete"; "list"; "manage"]
  | R_comments => Some ["create"; "read"; "update"; "delete"; "moderate"]
  | R_analytics => Some ["view"; "export"]
  | R_system => Some ["settings"; "logs"; "backup"]
  | R_delivery => Some ["manage"; "assign"; "track"]
  end.

Definition MODERATOR (r : Resource) : option (list string) :=
  match r with
  | R_users => Some ["read"; "list"]
  | R_products => Some ["create"; "read"; "update"; "list"]
  | R_categories => Some ["read"; "list"]
  | R_orders => Some ["read"; "update"; "list"; "manage"]
  | R_comments => Some ["read"; "update"; "delete"; "moderate"]
  | R_analytics => Some ["view"]
  | R_system => None
  | R_delivery => Some ["manage"; "assign"; "track"]
  end.

Definition USER (r : Resource) : option (list string) :=
  match r with
  | R_users => Some []
  | R_products => Some ["read"; "list"]
  | R_categories => Some ["read"; "list"]
  | R_orders => Some []
  | R_comments => Some ["create"; "read"; "update"]
  | R_analytics => Some []
  | R_system => None
  | R_delivery => Some ["track"]
  end.

(** [PERMISSIONS[userRole]] *)
Definition PERMISSIONS (userRole : string)
  : option (Resource -> option (list string)) :=
  if (userRole =? "ADMIN")%string then Some ADMIN
  else if (userRole =? "MODERATOR")%string then Some MODERATOR
  else if (userRole =? "USER")%string then Some USER
  else None.

Definition upper_ascii (c : ascii) : ascii :=
  let n := N_of_ascii c in
  if ((97 <=? n) && (n <=? 122))%N then ascii_of_N (n - 32) else c.

(** [s.toUpperCase()] on ASCII text. *)
Fixpoint toUpperCase (s : string) : string :=
  match s with
  | EmptyString => EmptyString
  | String c rest => String (upper_ascii c) (toUpperCase rest)
  end.

(** What the middleware [checkPermission(resource, action)] does: call
    [next()], or answer 401, or answer 403 with [{ message, userRole,
    requiredPermission }]. *)
Inductive Checked :=
| Granted
| Unauthenticated (message : string)
| Denied (message userRole requiredPermission : string).

Definition permitted (resource : Resource) (action : string) (role : string)
  : bool :=
  match PERMISSIONS (toUpperCase role) with
  | None => false
  | Some permissions =>
      match permissions resource with
      | None => false
      | Some actions => existsb (String.eqb action) actions
      end
  end.

Definition checkPermission (resource : Resource) (action : string)
    (user : option AuthUser) : Checked :=
  match user with
  | None => Unauthenticated "Authentication required"
  | Some u =>
      if negb (permitted resource action (au_role u))
      then Denied
             ("Access denied: " ++ action ++ " permission required for "
              ++ resource_name resource)
             (au_role u)
             (resource_name resource ++ ":" ++ action)
      else Granted
  end.

End Rbac.

(** ** server.ts: routes behind [requireAuth] and [requireRole] *)

Module Routes.

(** [app.METHOD(path, requireAuth, requireRole(...roles), handler)]: the
    handler runs with the decoded token as [req.user] when both gates call
    [next()]; otherwise the gate's answer is the response. *)
Definition guarded `{Externals} {S B : Type} (message : string -> B)
    (roles : list string) (env : Env) (authorization : option string)
    (handler : TokenPayload -> S -> Outcome B * S) (st : S)
  : Outcome B * S :=
  match Auth.requireAuth env authorization with
  | Rejected c m => (Sent c (message m), st)
  | Next decoded =>
      match Auth.requireRole roles (Some decoded) with
      | Rejected c m => (Sent c (message m), st)
      | Next current => handler current st
      end
  end.

(** [PATCH /api/orders/:orderId/status] *)
Definition patch_order_status `{Externals} (env : Env)
    (authorization : option string) (orderId : string) (body : jsval)
    (now : Z) (db : Orders) : Outcome Body * Orders :=
  guarded Message ["admin"; "cashier"] env authorization
    (fun _ => Orders.updateOrderStatus orderId body now) db.

(** [POST /api/orders] *)
Definition post_order `{Externals} (env : Env) (authorization : option string)
    (body : jsval) (fresh_id : string) (now : Z) (db : Orders)
  : Outcome Body * Orders :=
  guarded Message ["user"; "admin"; "cashier"] env authorization
    (fun u => Orders.createOrder (Some u) body fresh_id now) db.

(** [GET /api/orders/my] *)
Definition get_my_orders `{Externals} (env : Env)
    (authorization : option string) (db : Orders)
  : Outcome OrderLists.ListBody * Orders :=
  guarded OrderLists.ListMessage ["user"; "admin"; "cashier"] env authorization
    (fun u db => (OrderLists.getMyOrders (Some u) db, db)) db.

(** [DELETE /api/admin/users/:id], behind [requireRole("admin")]. *)
Definition delete_user `{Externals} (env : Env) (authorization : option string)
    (id : string) (users : Users) : Outcome Body * Users :=
  guarded Message ["admin"] env authorization
    (fun u => Admin.deleteUser (Some u) id) users.

End Routes.

(** ** Gates and routes (routes/auth.ts, server.ts) *)

Section GatesMore.
Context `{Externals}.
Import Auth Permissions Routes.

Lemma prefix_slice (p s : string) :
  String.prefix p s = true -> s = p ++ slice (String.length p) s.
Proof.
  revert s. induction p as [| a p IH]; intros s Hp.
  - now destruct s.
  - destruct s as [| b s]; [discriminate |].
    cbn [String.prefix] in Hp. destruct (ascii_dec a b) as [-> |]; [| discriminate].
    change (String b s = String b (p ++ slice (String.length p) s)).
    f_equal. now apply IH.
Qed.

Lemma requireAuth_next_inv (env : Env) (authorization : option string)
    (payload : TokenPayload) :
  requireAuth env authorization = Next payload ->
  exists token,
    authorization = Some ("Bearer " ++ token) /\ token <> ""
    /\ jwt_verify token (JWT_SECRET env) = Some payload.
Proof.
  unfold requireAuth.
  destruct (String.prefix "Bearer " (default "" authorization)) eqn:Ep;
    [| discriminate].
  cbn [truthy_str default from_option id].
  destruct (String.eqb_spec (slice 7 (default "" authorization)) "")
    as [E | Hne]; cbn [negb]; [discriminate |].
  destruct (jwt_verify _ _) as [d |] eqn:Ev; [| discriminate].
  intros [= <-].
  exists (slice 7 (default "" authorization)).
  split; [| split; assumption].
  destruct authorization as [a |]; [| discriminate].
  f_equal. exact (prefix_slice "Bearer " a Ep).
Qed.

Lemma requireAuth_rejected (env : Env) (authorization : option string)
    (c : Z) (m : string) :
  requireAuth env authorization = Rejected c m -> c = 401.
Proof.
  unfold requireAuth.
  destruct (negb _); [now intros [= <- _] |].
  destruct (jwt_verify _ _); [discriminate | now intros [= <- _]].
Qed.

Lemma requireRole_next_inv (roles : list string)
    (current : option TokenPayload) (c : TokenPayload) :
  requireRole roles current = Next c ->
  current = Some c /\ tp_role c <> "" /\ In (tp_role c) roles.
Proof.
  unfold requireRole. destruct current as [u |]; [| discriminate].
  destruct (String.eqb_spec (tp_role u) "") as [E | Hne]; [discriminate |].
  destruct (existsb (String.eqb (tp_role u)) roles) eqn:Ex; cbn [negb];
    [| discriminate].
  intros [= <-]. split; [reflexivity |]. split; [assumption |].
  apply existsb_exists in Ex as (r & Hin & Er).
  apply String.eqb_eq in Er. now subst.
Qed.

Lemma requireRole_rejected (roles : list string)
    (current : option TokenPayload) (c : Z) (m : string) :
  requireRole roles current = Rejected c m -> c = 403 /\ m = "Forbidden".
Proof.
  unfold requireRole. destruct current as [u |]; [| now intros [= <- <-]].
  destruct (tp_role u =? "")%string; [now intros [= <- <-] |].
  destruct (negb _); [now intros [= <- <-] | discriminate].
Qed.

(** X14.  [requireAuth] lets a request through in one case only: the
    Authorization header is [Bearer ] followed by a non-empty token that
    [jwt.verify] accepts under the server's secret, and [req.user] is then
    the decoded payload.  Every other request is answered 401. *)
Theorem requireAuth_passes_iff (env : Env) (authorization : option string)
    (payload : TokenPayload) :
  (requireAuth env authorization = Next payload <->
   exists token,
     authorization = Some ("Bearer " ++ token) /\ token <> ""
     /\ jwt_verify token (JWT_SECRET env) = Some payload)
  /\ forall c m, requireAuth env authorization = Rejected c m -> c = 401.
Proof.
  split; [split |].
  - apply requireAuth_next_inv.
  - intros (token & -> & Ht & Hv). now apply requireAuth_verified.
  - apply requireAuth_rejected.
Qed.

(** X15.  [requireRole(...roles)] calls [next()] exactly when the request
    has a user whose role is non-empty and among [roles]; every other
    request is answered 403 Forbidden. *)
Theorem requireRole_passes_iff (roles : list string)
    (current : option TokenPayload) (c : TokenPayload) :
  (requireRole roles current = Next c <->
   current = Some c /\ tp_role c <> "" /\ In (tp_role c) roles)
  /\ forall code m, requireRole roles current = Rejected code m ->
        code = 403 /\ m = "Forbidden".
Proof.
  split; [split |].
  - apply requireRole_next_inv.
  - intros (-> & Hne & Hin). unfold requireRole.
    apply String.eqb_neq in Hne. rewrite Hne.
    assert (Ex : existsb (String.eqb (tp_role c)) roles = true)
      by (apply existsb_exists; exists (tp_role c); split;
          [assumption | apply String.eqb_refl]).
    now rewrite Ex.
  - apply requireRole_rejected.
Qed.

(** A guarded route whose gates do not both call [next()] answers 401 or
    403 and leaves the state alone. *)
Lemma guarded_gate {S B : Type} (message : string -> B) (roles : list string)
    (env : Env) (authorization : option string)
    (handler : TokenPayload -> S -> Outcome B * S) (st : S) :
  (exists p, requireAuth env authorization = Next p
             /\ tp_role p <> "" /\ In (tp_role p) roles
             /\ guarded message roles env authorization handler st
                = handler p st)
  \/ (exists c m, (c = 401 \/ c = 403)
        /\ guarded message roles env authorization handler st
           = (Sent c (message m), st)).
Proof.
  unfold guarded.
  destruct (requireAuth env authorization) as [p | c m] eqn:Ea.
  - destruct (requireRole roles (Some p)) as [p' | c m] eqn:Er.
    + left. exists p.
      apply requireRole_next_inv in Er as ([= <-] & Hne & Hin). auto.
    + right. exists c, m. split; [| reflexivity]. right.
      now apply requireRole_rejected in Er.
  - right. exists c, m. split; [| reflexivity]. left.
    exact (requireAuth_rejected env authorization c m Ea).
Qed.

(** X16.  On [PATCH /api/orders/:orderId/status], a request changes the
    order collection only if it carries a bearer token that verifies and
    whose role is admin or cashier; any other request is answered 401 or
    403 with the collection untouched. *)
Theorem patch_order_status_route (env : Env) (authorization : option string)
    (orderId : string) (body : jsval) (now : Z) (db : Orders) :
  (exists token p,
      authorization = Some ("Bearer " ++ token)
      /\ jwt_verify token (JWT_SECRET env) = Some p
      /\ (tp_role p = "admin" \/ tp_role p = "cashier")
      /\ patch_order_status env authorization orderId body now db
         = Orders.updateOrderStatus orderId body now db)
  \/ (exists c m, (c = 401 \/ c = 403)
        /\ patch_order_status env authorization orderId body now db
           = (Sent c (Message m), db)).
Proof.
  unfold patch_order_status.
  destruct (guarded_gate Message ["admin"; "cashier"] env authorization
              (fun _ => Orders.updateOrderStatus orderId body now) db)
    as [(p & Ha & _ & Hin & Hg) | Hrej]; [left | now right].
  apply requireAuth_next_inv in Ha as (token & -> & _ & Hv).
  exists token, p. split; [reflexivity |]. split; [assumption |].
  split; [| assumption]. simpl in Hin. intuition.
Qed.

(** X17.  On [DELETE /api/admin/users/:id], the user collection changes
    only when the request carries a verifying bearer token with role
    admin, and then the one change is the removal of the addressed
    account, which is never the account the token names. *)
Theorem delete_user_route (env : Env) (authorization : option string)
    (id : string) (users : Users) :
  snd (delete_user env authorization id users) = users
  \/ exists token p k,
       authorization = Some ("Bearer " ++ token)
       /\ jwt_verify token (JWT_SECRET env) = Some p
       /\ tp_role p = "admin"
       /\ castObjectId (JStr id) = Some k /\ k <> tp_id p
       /\ delete_user env authorization id users
          = (Sent 200 (Message "User deleted successfully"), delete k users).
Proof.
  unfold delete_user.
  destruct (guarded_gate Message ["admin"] env authorization
              (fun u => Admin.deleteUser (Some u) id) users)
    as [(p & Ha & _ & Hin & Hg) | (c & m & _ & ->)]; [| now left].
  rewrite Hg.
  apply requireAuth_next_inv in Ha as (token & -> & _ & Hv).
  destruct Hin as [Hrole | []].
  unfold Admin.deleteUser, UserModel.findById.
  destruct (castObjectId (JStr id)) as [k |] eqn:Ek; [| now left].
  destruct (users !! k) as [user |]; simpl; [| now left].
  destruct (Admin.only_admin _ _ _) as [[|] |]; simpl; try now left.
  destruct (String.eqb_spec k (tp_id p)) as [| Hne]; [now left |].
  right. exists token, p, k. repeat split; auto.
Qed.

(** X18.  [authenticateToken] lets a request through only for an account
    that is stored and active, whatever the header: [req.user] then
    carries that account's id, role, name and phone as stored now. *)
Theorem authenticateToken_sound (env : Env) (authorization : option string)
    (users : Users) (au : AuthUser) :
  authenticateToken env authorization users = Next au ->
  exists user,
    users !! au_id au = Some user /\ u_isActive user = true
    /\ au_role au = u_role user /\ au_name au = u_name user
    /\ au_phone au = u_phone user.
Proof.
  unfold authenticateToken, UserModel.findById.
  destruct (negb _); [discriminate |].
  destruct (jwt_verify _ _) as [d |]; [| discriminate].
  destruct (castObjectId _) as [k |]; [| discriminate].
  destruct (users !! k) as [user |] eqn:Eu; simpl; [| discriminate].
  destruct (u_isActive user) eqn:Ea; simpl; [| discriminate].
  intros [= <-]. exists user. auto.
Qed.

End GatesMore.

(** X18 on the token of the active moderator [u2]. *)
Lemma authenticateToken_sound_witness :
  exists user,
    Example.users1 !! "u2" = Some user /\ u_isActive user = true
    /\ "moderator" = u_role user /\ "Mod" = u_name user
    /\ "+998900000002" = u_phone user.
Proof.
  apply (@authenticateToken_sound Example.platform Example.env
           (Some "Bearer u2.moderator") Example.users1
           {| Permissions.au_id := "u2"; Permissions.au_role := "moderator";
              Permissions.au_name := "Mod";
              Permissions.au_phone := "+998900000002" |}).
  reflexivity.
Defined.

Example delete_user_route_by_moderator :
  @Routes.delete_user Example.platform Example.env
    (Some "Bearer u2.moderator") "u3" Example.users1
  = (Sent 403 (Message "Forbidden"), Example.users1).
Proof. reflexivity. Qed.

Example delete_user_route_by_admin :
  @Routes.delete_user Example.platform Example.env
    (Some "Bearer u1.admin") "u3" Example.users1
  = (Sent 200 (Message "User deleted successfully"),
     delete "u3" Example.users1).
Proof. reflexivity. Qed.

(** ** Role gates and the permission table (middleware/permissions.ts) *)

Section RbacMore.
Import Rbac Permissions.

(** X19.  [requireOwnershipOrAdmin] never lets an unauthenticated request
    through, and lets a user whose role is neither admin nor moderator
    through only when the target id ([req.params.userId], or else
    [req.body.userId]) is the user's own id. *)
Theorem requireOwnershipOrAdmin_passes (params_userId : option string)
    (body : jsval) (user : option AuthUser) (u : AuthUser) :
  requireOwnershipOrAdmin params_userId body user = Ret (Next u) ->
  user = Some u
  /\ (au_role u = "admin" \/ au_role u = "moderator"
      \/ targetUserId params_userId body = Ret (JStr (au_id u))).
Proof.
  unfold requireOwnershipOrAdmin.
  destruct (targetUserId params_userId body) as [target | e]; [| discriminate].
  destruct user as [u' |]; [| discriminate].
  destruct (String.eqb_spec (au_role u') "admin") as [Ha | _]; simpl.
  - intros [= <-]. auto.
  - destruct (String.eqb_spec (au_role u') "moderator") as [Hm | _]; simpl.
    + intros [= <-]. auto.
    + destruct target; simpl; try discriminate.
      destruct (String.eqb_spec (au_id u') s) as [<- | _]; [| discriminate].
      intros [= <-]. auto.
Qed.

Lemma existsb_incl (a : string) (l1 l2 : list string) :
  incl l1 l2 -> existsb (String.eqb a) l1 = true ->
  existsb (String.eqb a) l2 = true.
Proof.
  intros Hincl Hex. apply existsb_exists in Hex as (x & Hin & Hx).
  apply existsb_exists. exists x. auto.
Qed.

Lemma admin_has_all (r : Resource) (actions : list string) :
  MODERATOR r = Some actions \/ USER r = Some actions ->
  exists all, ADMIN r = Some all /\ incl actions all.
Proof.
  intros [E | E]; destruct r; simpl in E; try discriminate;
    injection E as <-; eexists; (split; [reflexivity |]);
    intros x Hx; simpl in *; tauto.
Qed.

Lemma permitted_cases (resource : Resource) (action role : string) :
  permitted resource action role = true ->
  exists table actions,
    (table = ADMIN \/ table = MODERATOR \/ table = USER)
    /\ PERMISSIONS (toUpperCase role) = Some table
    /\ table resource = Some actions
    /\ existsb (String.eqb action) actions = true.
Proof.
  unfold permitted, PERMISSIONS.
  destruct (toUpperCase role =? "ADMIN")%string.
  - destruct (ADMIN resource) as [actions |] eqn:Et; [| discriminate].
    intros Hex. exists ADMIN, actions. auto.
  - destruct (toUpperCase role =? "MODERATOR")%string.
    + destruct (MODERATOR resource) as [actions |] eqn:Et; [| discriminate].
      intros Hex. exists MODERATOR, actions. auto.
    + destruct (toUpperCase role =? "USER")%string; [| discriminate].
      destruct (USER resource) as [actions |] eqn:Et; [| discriminate].
      intros Hex. exists USER, actions. auto.
Qed.

(** X20.  The admin role dominates the table: whatever resource and
    action [checkPermission] grants to a user of any role, it grants to an
    admin. *)
Theorem checkPermission_admin_dominates (resource : Resource) (action : string)
    (u a : AuthUser) :
  checkPermission resource action (Some u) = Granted ->
  au_role a = "admin" ->
  checkPermission resource action (Some a) = Granted.
Proof.
  unfold checkPermission. intros Hu Ha.
  destruct (permitted resource action (au_role u)) eqn:Ep; [| discriminate].
  apply permitted_cases in Ep
    as (table & actions & Ht & _ & Hr & Hex).
  assert (Hadmin : permitted resource action (au_role a) = true).
  { rewrite Ha. unfold permitted.
    change (PERMISSIONS (toUpperCase "admin")) with (Some ADMIN).
    destruct Ht as [-> | Ht].
    - now rewrite Hr.
    - destruct (admin_has_all resource actions) as (all & -> & Hincl).
      + destruct Ht as [-> | ->]; auto.
      + now apply (existsb_incl action actions all). }
  now rewrite Hadmin.
Qed.

(** X21.  Destructive rights are the admin's alone: if [checkPermission]
    grants any action on [system], or [delete] on users, products,
    categories or orders, then the user's role, upper-cased, is ADMIN. *)
Theorem checkPermission_admin_only (resource : Resource) (action : string)
    (u : AuthUser) :
  checkPermission resource action (Some u) = Granted ->
  resource = R_system
  \/ (action = "delete"
      /\ (resource = R_users \/ resource = R_products
          \/ resource = R_categories \/ resource = R_orders)) ->
  toUpperCase (au_role u) = "ADMIN".
Proof.
  unfold checkPermission. intros Hu Hwhat.
  destruct (permitted resource action (au_role u)) eqn:Ep; [| discriminate].
  unfold permitted, PERMISSIONS in Ep.
  destruct (String.eqb_spec (toUpperCase (au_role u)) "ADMIN") as [E | _];
    [assumption | exfalso].
  destruct (toUpperCase (au_role u) =? "MODERATOR")%string;
    [| destruct (toUpperCase (au_role u) =? "USER")%string; [| discriminate]].
  all: destruct Hwhat as [-> | (-> & [-> | [-> | [-> | ->]]])];
    simpl in Ep; discriminate.
Qed.

End RbacMore.

(** X19 for a plain user asking for its own record. *)
Lemma requireOwnershipOrAdmin_passes_witness :
  Some {| Permissions.au_id := "u7"; Permissions.au_role := "user";
          Permissions.au_name := "Ann"; Permissions.au_phone := "+998900000007" |}
  = Some {| Permissions.au_id := "u7"; Permissions.au_role := "user";
            Permissions.au_name := "Ann";
            Permissions.au_phone := "+998900000007" |}
  /\ ("user" = "admin" \/ "user" = "moderator"
      \/ Rbac.targetUserId (Some "u7") JUndefined = Ret (JStr "u7")).
Proof.
  apply (requireOwnershipOrAdmin_passes (Some "u7") JUndefined
           (Some {| Permissions.au_id := "u7"; Permissions.au_role := "user";
                    Permissions.au_name := "Ann";
                    Permissions.au_phone := "+998900000007" |})).
  reflexivity.
Defined.

(** X20 for a moderator and an admin, on updating products. *)
Lemma checkPermission_admin_dominates_witness :
  Rbac.checkPermission Rbac.R_products "update" (Some Example.admin)
  = Rbac.Granted.
Proof.
  apply (checkPermission_admin_dominates Rbac.R_products "update"
           {| Permissions.au_id := "u2"; Permissions.au_role := "moderator";
              Permissions.au_name := "Mod";
              Permissions.au_phone := "+998900000002" |} Example.admin);
    reflexivity.
Defined.

(** X21 for the admin deleting a product. *)
Lemma checkPermission_admin_only_witness :
  Rbac.toUpperCase "admin" = "ADMIN".
Proof.
  apply (checkPermission_admin_only Rbac.R_products "delete" Example.admin);
    [reflexivity | right; split; [reflexivity | right; left; reflexivity]].
Defined.

Example checkPermission_denied :
  Rbac.checkPermission Rbac.R_products "delete"
    (Some {| Permissions.au_id := "u2"; Permissions.au_role := "moderator";
             Permissions.au_name := "Mod";
             Permissions.au_phone := "+998900000002" |})
  = Rbac.Denied "Access denied: delete permission required for products"
      "moderator" "products:delete".
Proof. reflexivity. Qed.

Example requireOwnershipOrAdmin_no_body :
  Rbac.requireOwnershipOrAdmin None JUndefined None = Throw "TypeError"
  /\ Rbac.requireOwnershipOrAdmin None (JObj [("userId", JStr "u1")])
       (Some {| Permissions.au_id := "u7"; Permissions.au_role := "user";
                Permissions.au_name := "Ann";
                Permissions.au_phone := "+998900000007" |})
     = Ret (Rejected 403 "Access denied").
Proof. split; reflexivity. Qed.

(** ** models/User.ts and routes/auth.ts: signup, login, me *)

(** Library functions of the auth routes that [Externals] does not hold:
    [jwt_sign payload secret iat] is [jwt.sign(payload, secret)] called
    when the clock reads [iat] seconds, which the token carries as its
    [iat] claim, so the token depends on the time of the call;
    [bcrypt_compare password hash] is [bcrypt.compare]. *)
Class AuthExternals := {
  jwt_sign : TokenPayload -> string -> Z -> string;
  bcrypt_compare : string -> string -> bool
}.

Module AuthRoutes.

(** A stored User document of the schema with a unique, required [phone]
    and the roles admin, cashier and user.  A document's id is its key in
    the collection. *)
Record Account := {
  acc_name : string;
  acc_password : string;
  acc_phone : string;
  acc_role : string;
  acc_addresses : list Address;
  acc_wishlist : list string;
  acc_recentlyViewed : list string;
  acc_createdAt : Z;
  acc_updatedAt : Z
}.

Abbreviation Accounts := (gmap string Account).

Definition role_enum : list string := ["admin"; "cashier"; "user"].
Definition role_default : string := "user".

(** [user.toJSON()]: [id] in place of [_id], and no [password]. *)
Record AccountJSON := {
  j_id : string;
  j_name : string;
  j_phone : string;
  j_role : string;
  j_addresses : list Address;
  j_wishlist : list string;
  j_recentlyViewed : list string;
  j_createdAt : Z;
  j_updatedAt : Z
}.

Definition toJSON (id : string) (a : Account) : AccountJSON :=
  {| j_id := id; j_name := acc_name a; j_phone := acc_phone a;
     j_role := acc_role a; j_addresses := acc_addresses a;
     j_wishlist := acc_wishlist a; j_recentlyViewed := acc_recentlyViewed a;
     j_createdAt := acc_createdAt a; j_updatedAt := acc_updatedAt a |}.

(** [User.findOne({ phone })] *)
Definition findOne_phone (p : string) (users : Accounts)
  : option (string * Account) :=
  List.find (fun kv => (acc_phone (snd kv) =? p)%string) (map_to_list users).

(** [User.create({ name, password, phone, role })]: the three required
    strings must be non-empty, an absent [role] takes the default and a
    given one must be in the enum, and the unique index on [phone] refuses
    a second document with the same phone. *)
Definition create (fresh_id : string) (now : Z) (name password phone : string)
    (role : option string) (users : Accounts)
  : Exn (string * Account) * Accounts :=
  if (name =? "")%string || (password =? "")%string || (phone =? "")%string
  then (Throw "ValidationError", users)
  else
    let r := default role_default role in
    if negb (in_enum role_enum r) then (Throw "ValidationError", users)
    else
      match findOne_phone phone users with
      | Some _ => (Throw "MongoServerError", users)
      | None =>
          let a := {| acc_name := name; acc_password := password;
                      acc_phone := phone; acc_role := r;
                      acc_addresses := []; acc_wishlist := [];
                      acc_recentlyViewed := []; acc_createdAt := now;
                      acc_updatedAt := now |} in
          (Ret (fresh_id, a), <[fresh_id := a]> users)
      end.

Definition is_digit (c : ascii) : bool :=
  let n := N_of_ascii c in ((48 <=? n) && (n <=? 57))%N.

(** Exactly [n] digits and then the end of the input. *)
Fixpoint digits_then_end (n : nat) (s : string) : bool :=
  match n, s with
  | O, EmptyString => true
  | S n', String c rest => is_digit c && digits_then_end n' rest
  | _, _ => false
  end.

(** [998[0-9]{9}$] read from the start of [s]. *)
Definition match_998 (s : string) : bool :=
  match s with
  | String a (String b (String c rest)) =>
      (a =? "9")%char && (b =? "9")%char && (c =? "8")%char
      && digits_then_end 9 rest
  | _ => false
  end.

(** [/^\+?998[0-9]{9}$/.test(phone)]: after a leading [+] the rest must
    match, since [998] cannot start at the [+] itself. *)
Definition phoneRegex_test (phone : string) : bool :=
  match phone with
  | String c rest => if (c =? "+")%char then match_998 rest else match_998 phone
  | EmptyString => false
  end.

(** The fields the two routes read from [req.body || {}], each a string
    or absent, as the routes document them. *)
Record Credentials := {
  c_name : option string;
  c_phone : option string;
  c_password : option string;
  c_role : option string
}.

Inductive AuthBody :=
| AuthMessage (message : string)
| Session (token : string) (user : AccountJSON)
| Profile (user : AccountJSON).

(** [signToken(payload)], called when the clock reads [iat] seconds; the
    two routes call it with [{ id: user.id, role: user.role }]. *)
Definition signToken `{AuthExternals} (env : Env) (iat : Z)
    (payload : TokenPayload) : string :=
  jwt_sign payload (Auth.JWT_SECRET env) iat.

(** [now] is the time [User.create] stamps the document with, [iat] the
    clock reading, in seconds, when the token is signed. *)
Definition signup `{Externals} `{AuthExternals} (env : Env) (body : Credentials)
    (fresh_id : string) (now iat : Z) (users : Accounts)
  : Outcome AuthBody * Accounts :=
  if negb (truthy_str (c_name body)) || negb (truthy_str (c_phone body))
     || negb (truthy_str (c_password body))
  then (Sent 400 (AuthMessage "Name, phone and password are required"), users)
  else
    let name := default "" (c_name body) in
    let phone := default "" (c_phone body) in
    let password := default "" (c_password body) in
    if negb (phoneRegex_test phone)
    then (Sent 400
            (AuthMessage "Invalid phone number format. Use +998XXXXXXXXX"),
          users)
    else
      match findOne_phone phone users with
      | Some _ =>
          (Sent 409 (AuthMessage "User already exists with this phone number"),
           users)
      | None =>
          let hashed := bcrypt_hash password in
          match create fresh_id now name hashed phone (c_role body) users with
          | (Throw _, users') =>
              (Sent 500 (AuthMessage "Server error"), users')
          | (Ret (id, user), users') =>
              (Sent 201
                 (Session
                    (signToken env iat
                       {| tp_id := id; tp_role := acc_role user |})
                    (toJSON id user)),
               users')
          end
      end.

Definition login `{Externals} `{AuthExternals} (env : Env) (body : Credentials)
    (iat : Z) (users : Accounts) : Outcome AuthBody :=
  if negb (truthy_str (c_phone body)) || negb (truthy_str (c_password body))
  then Sent 400 (AuthMessage "Phone and password are required")
  else
    let phone := default "" (c_phone body) in
    let password := default "" (c_password body) in
    if negb (phoneRegex_test phone)
    then Sent 400
           (AuthMessage "Invalid phone number format. Use +998XXXXXXXXX")
    else
      match findOne_phone phone users with
      | None => Sent 401 (AuthMessage "Invalid credentials")
      | Some (id, user) =>
          if negb (bcrypt_compare password (acc_password user))
          then Sent 401 (AuthMessage "Invalid credentials")
          else Sent 200
                 (Session
                    (signToken env iat
                       {| tp_id := id; tp_role := acc_role user |})
                    (toJSON id user))
      end.

(** [me]: the inner [try] covers both [jwt.verify] and [User.findById],
    so a failed cast of the decoded id is answered like a bad token. *)
Definition me `{Externals} (env : Env) (authorization : option string)
    (users : Accounts) : Outcome AuthBody :=
  let auth := default "" authorization in
  let token :=
    if String.prefix "Bearer " auth then Some (Auth.slice 7 auth) else None in
  if negb (truthy_str token) then Sent 401 (AuthMessage "Missing token")
  else
    match jwt_verify (default "" token) (Auth.JWT_SECRET env) with
    | None => Sent 401 (AuthMessage "Invalid token")
    | Some decoded =>
        match castObjectId (JStr (tp_id decoded)) with
        | None => Sent 401 (AuthMessage "Invalid token")
        | Some k =>
            match users !! k with
            | None => Sent 404 (AuthMessage "User not found")
            | Some user => Sent 200 (Profile (toJSON k user))
            end
        end
    end.

End AuthRoutes.

Section AuthRoutesMore.
Context `{Externals} `{AuthExternals}.
Import AuthRoutes.

(** Every character of [s] is one of [0] to [9]. *)
Fixpoint all_digits (s : string) : bool :=
  match s with
  | EmptyString => true
  | String c rest => is_digit c && all_digits rest
  end.

Lemma digits_then_end_spec (n : nat) (s : string) :
  digits_then_end n s = true <-> String.length s = n /\ all_digits s = true.
Proof.
  revert s. induction n as [| n IH]; intros [| c s]; cbn.
  - tauto.
  - split; [discriminate | intros [[=] _]].
  - split; [discriminate | intros [[=] _]].
  - rewrite andb_true_iff, IH. split.
    + intros (Hc & <- & Hs). now rewrite Hc.
    + intros ([= <-] & Hcs). apply andb_true_iff in Hcs. tauto.
Qed.

Lemma match_998_spec (s : string) :
  match_998 s = true <->
  exists d, s = "998" ++ d /\ String.length d = 9%nat /\ all_digits d = true.
Proof.
  split.
  - destruct s as [| a [| b [| c rest]]]; try discriminate.
    cbn [match_998]. rewrite !andb_true_iff.
    intros (((Ha & Hb) & Hc) & Hd).
    apply Ascii.eqb_eq in Ha, Hb, Hc. subst.
    exists rest. split; [reflexivity |]. now apply digits_then_end_spec.
  - intros (d & -> & Hd).
    change ("998" ++ d) with (String "9" (String "9" (String "8" d))).
    cbn [match_998]. rewrite !Ascii.eqb_refl. cbn [andb].
    now apply digits_then_end_spec.
Qed.

Lemma findOne_phone_Some (p : string) (users : Accounts) (k : string)
    (a : Account) :
  findOne_phone p users = Some (k, a) ->
  users !! k = Some a /\ acc_phone a = p.
Proof.
  unfold findOne_phone. intros Hf. apply find_some in Hf as [Hin Hp].
  split.
  - apply elem_of_map_to_list. now apply list_elem_of_In.
  - now apply String.eqb_eq in Hp.
Qed.

Lemma findOne_phone_None (p : string) (users : Accounts) :
  findOne_phone p users = None <->
  forall k a, users !! k = Some a -> acc_phone a <> p.
Proof.
  unfold findOne_phone. split.
  - intros Hf k a Hk Hp.
    apply elem_of_map_to_list, list_elem_of_In in Hk.
    pose proof (find_none _ _ Hf _ Hk) as Hn. cbn in Hn.
    apply String.eqb_neq in Hn. contradiction.
  - intros Hall.
    destruct (List.find _ _) as [[k a] |] eqn:Hf; [| reflexivity].
    apply find_some in Hf as [Hin Hp]. cbn in Hp. apply String.eqb_eq in Hp.
    apply list_elem_of_In, elem_of_map_to_list in Hin.
    now destruct (Hall k a Hin).
Qed.

(** After an account with a phone nobody had is stored, a search for that
    phone finds it. *)
Lemma findOne_phone_insert (p : string) (users : Accounts) (k : string)
    (a : Account) :
  findOne_phone p users = None -> acc_phone a = p ->
  findOne_phone p (<[k := a]> users) = Some (k, a).
Proof.
  intros Hnone Hp.
  destruct (findOne_phone p (<[k := a]> users)) as [[k' a'] |] eqn:Hf.
  - apply findOne_phone_Some in Hf as [Hk' Hp'].
    destruct (decide (k = k')) as [<- | Hne].
    + rewrite lookup_insert_eq in Hk'. now injection Hk' as <-.
    + rewrite lookup_insert_ne in Hk' by assumption.
      now destruct (proj1 (findOne_phone_None p users) Hnone k' a' Hk').
  - exfalso.
    apply (proj1 (findOne_phone_None p _) Hf k a);
      [apply lookup_insert_eq | assumption].
Qed.

(** What [signup] does once the three fields are present, the phone is
    well formed and not registered, and the document validates. *)
Lemma signup_created (env : Env) (name phone password : string)
    (role : option string) (fresh_id : string) (now iat : Z)
    (users : Accounts) :
  name <> "" -> password <> "" -> phoneRegex_test phone = true ->
  findOne_phone phone users = None ->
  in_enum role_enum (default role_default role) = true ->
  bcrypt_hash password <> "" ->
  exists a,
    signup env {| c_name := Some name; c_phone := Some phone;
                  c_password := Some password; c_role := role |}
      fresh_id now iat users
    = (Sent 201 (Session
                   (signToken env iat
                      {| tp_id := fresh_id; tp_role := acc_role a |})
                   (toJSON fresh_id a)),
       <[fresh_id := a]> users)
    /\ acc_name a = name /\ acc_phone a = phone
    /\ acc_password a = bcrypt_hash password
    /\ acc_role a = default role_default role.
Proof.
  intros Hn Hpw Hre Hnone Hrole Hhash.
  assert (Hph : phone <> "") by (intros ->; discriminate).
  eexists. split.
  - unfold signup. cbn [c_name c_phone c_password c_role].
    rewrite (proj2 (truthy_str_Some name) Hn),
      (proj2 (truthy_str_Some phone) Hph),
      (proj2 (truthy_str_Some password) Hpw).
    cbn [negb orb default from_option id]. rewrite Hre, Hnone. cbn [negb].
    unfold create.
    apply String.eqb_neq in Hn, Hph, Hhash. rewrite Hn, Hph, Hhash.
    cbn [orb]. rewrite Hrole, Hnone. cbn [negb]. reflexivity.
  - repeat split.
Qed.

(** No two stored accounts share a phone: what the unique index keeps. *)
Definition unique_phones (users : Accounts) : Prop :=
  forall k1 k2 a1 a2,
    users !! k1 = Some a1 -> users !! k2 = Some a2 ->
    acc_phone a1 = acc_phone a2 -> k1 = k2.

Lemma unique_phones_insert (users : Accounts) (k : string) (a : Account) :
  (forall k' b, users !! k' = Some b -> acc_phone b <> acc_phone a) ->
  unique_phones users -> unique_phones (<[k := a]> users).
Proof.
  intros Hnew Hu k1 k2 a1 a2 H1 H2 Hp.
  destruct (decide (k = k1)) as [<- | N1], (decide (k = k2)) as [<- | N2];
    try reflexivity.
  - rewrite lookup_insert_eq in H1. injection H1 as <-.
    rewrite lookup_insert_ne in H2 by assumption.
    now destruct (Hnew k2 a2 H2).
  - rewrite lookup_insert_eq in H2. injection H2 as <-.
    rewrite lookup_insert_ne in H1 by assumption.
    now destruct (Hnew k1 a1 H1).
  - rewrite lookup_insert_ne in H1, H2 by assumption. eauto.
Qed.

(** [me] is [requireAuth]'s token check followed by the account lookup. *)
Lemma me_as_requireAuth (env : Env) (authorization : option string)
    (users : Accounts) :
  me env authorization users =
  match Auth.requireAuth env authorization with
  | Rejected c m => Sent c (AuthMessage m)
  | Next decoded =>
      match castObjectId (JStr (tp_id decoded)) with
      | None => Sent 401 (AuthMessage "Invalid token")
      | Some k =>
          match users !! k with
          | None => Sent 404 (AuthMessage "User not found")
          | Some user => Sent 200 (Profile (toJSON k user))
          end
      end
  end.
Proof.
  unfold me, Auth.requireAuth.
  destruct (negb _); [reflexivity |].
  now destruct (jwt_verify _ _).
Qed.

(** X22.  The phone check of [signup] and [login] accepts exactly the
    strings made of an optional [+], then [998], then nine decimal
    digits, and nothing else. *)
Theorem phoneRegex_test_iff (phone : string) :
  phoneRegex_test phone = true <->
  exists d, (phone = "998" ++ d \/ phone = "+998" ++ d)
            /\ String.length d = 9%nat /\ all_digits d = true.
Proof.
  split.
  - destruct phone as [| c rest]; [discriminate |].
    cbn [phoneRegex_test].
    destruct (Ascii.eqb_spec c "+") as [-> | _]; intros Hm;
      apply match_998_spec in Hm as (d & E & Hl & Hd); exists d.
    + split; [right; now rewrite E | tauto].
    + split; [now left | tauto].
  - intros (d & [-> | ->] & Hl & Hd).
    + change ("998" ++ d) with (String "9" ("98" ++ d)).
      cbn [phoneRegex_test].
      change ("9" =? "+")%char with false. cbn iota.
      apply match_998_spec. now exists d.
    + change ("+998" ++ d) with (String "+" ("998" ++ d)).
      cbn [phoneRegex_test]. rewrite Ascii.eqb_refl.
      apply match_998_spec. now exists d.
Qed.

(** X23.  Sign up, then log in: when the three fields are non-empty, the
    phone is well formed and not yet registered, the role is absent or
    one of the schema's three, and the libraries behave ([bcrypt.compare]
    accepts the password against its own hash, [jwt.verify] decodes the
    two tokens [jwt.sign] makes under the same secret), [signup] answers
    201 with the token signed at its time and stores the account, with
    the role of the request, without touching any other; a [login] with
    the same phone and password then answers 200 with the same user and
    the token signed at its own time; [requireAuth] passes either token
    with the new id and role, and [me] answers 200 with the same user
    for either. *)
Theorem signup_then_login (env : Env) (name phone password : string)
    (role : option string) (fresh_id : string) (now iat1 iat2 : Z)
    (users : Accounts) (token1 token2 : string) :
  name <> "" -> password <> "" -> phoneRegex_test phone = true ->
  (forall k a, users !! k = Some a -> acc_phone a <> phone) ->
  users !! fresh_id = None ->
  in_enum role_enum (default role_default role) = true ->
  bcrypt_hash password <> "" ->
  bcrypt_compare password (bcrypt_hash password) = true ->
  token1 = signToken env iat1 {| tp_id := fresh_id;
                                 tp_role := default role_default role |} ->
  token2 = signToken env iat2 {| tp_id := fresh_id;
                                 tp_role := default role_default role |} ->
  token1 <> "" -> token2 <> "" ->
  jwt_verify token1 (Auth.JWT_SECRET env)
  = Some {| tp_id := fresh_id; tp_role := default role_default role |} ->
  jwt_verify token2 (Auth.JWT_SECRET env)
  = Some {| tp_id := fresh_id; tp_role := default role_default role |} ->
  castObjectId (JStr fresh_id) = Some fresh_id ->
  exists user users',
    signup env {| c_name := Some name; c_phone := Some phone;
                  c_password := Some password; c_role := role |}
      fresh_id now iat1 users
    = (Sent 201 (Session token1 user), users')
    /\ j_id user = fresh_id /\ j_name user = name /\ j_phone user = phone
    /\ j_role user = default role_default role
    /\ (forall k a, users !! k = Some a -> users' !! k = Some a)
    /\ login env {| c_name := None; c_phone := Some phone;
                    c_password := Some password; c_role := None |}
         iat2 users'
       = Sent 200 (Session token2 user)
    /\ forall token, token = token1 \/ token = token2 ->
         Auth.requireAuth env (Some ("Bearer " ++ token))
         = Next {| tp_id := fresh_id;
                   tp_role := default role_default role |}
         /\ me env (Some ("Bearer " ++ token)) users'
            = Sent 200 (Profile user).
Proof.
  intros Hn Hpw Hre Hnew Hfresh Hrole Hhash Hcmp Ht1 Ht2 Hne1 Hne2 Hv1 Hv2
    Hcast.
  assert (Hnone : findOne_phone phone users = None)
    by now apply findOne_phone_None.
  destruct (signup_created env name phone password role fresh_id now iat1
              users Hn Hpw Hre Hnone Hrole Hhash)
    as (a & Hs & Ea & Ep & Epw & Er).
  assert (Hph : phone <> "") by (intros ->; discriminate).
  exists (toJSON fresh_id a), (<[fresh_id := a]> users).
  rewrite Hs, Er, <- Ht1.
  split; [reflexivity |]. split; [reflexivity |].
  split; [exact Ea |]. split; [exact Ep |]. split; [exact Er |].
  split; [| split].
  - intros k b Hk. rewrite lookup_insert_ne; [assumption |].
    intros <-. congruence.
  - unfold login. cbn [c_phone c_password].
    rewrite (proj2 (truthy_str_Some phone) Hph),
      (proj2 (truthy_str_Some password) Hpw).
    cbn [negb orb default from_option id]. rewrite Hre. cbn [negb].
    rewrite (findOne_phone_insert phone users fresh_id a Hnone Ep).
    rewrite Epw, Hcmp. cbn [negb]. now rewrite Er, <- Ht2.
  - intros token Htoken.
    assert (Hauth : Auth.requireAuth env (Some ("Bearer " ++ token))
                    = Next {| tp_id := fresh_id;
                              tp_role := default role_default role |})
      by (destruct Htoken as [-> | ->]; now apply requireAuth_verified).
    split; [exact Hauth |].
    rewrite me_as_requireAuth, Hauth. cbn [tp_id]. rewrite Hcast.
    now rewrite lookup_insert_eq.
Qed.

(** X24.  What [signup] can do to the collection: either it answers 400,
    409 or 500 and changes nothing, or it answers 201 and adds exactly one
    account under the fresh id.  That account has the phone of the
    request, well formed and registered to nobody before, so the phones
    stay unique; its role is one of the schema's three; and its stored
    password is the bcrypt hash of the request's password. *)
Theorem signup_outcomes (env : Env) (body : Credentials) (fresh_id : string)
    (now iat : Z) (users : Accounts) :
  (exists c m,
      signup env body fresh_id now iat users = (Sent c (AuthMessage m), users)
      /\ (c = 400 \/ c = 409 \/ c = 500))
  \/ (exists a password,
        signup env body fresh_id now iat users
        = (Sent 201 (Session
                       (signToken env iat {| tp_id := fresh_id;
                                             tp_role := acc_role a |})
                       (toJSON fresh_id a)),
           <[fresh_id := a]> users)
        /\ c_phone body = Some (acc_phone a)
        /\ phoneRegex_test (acc_phone a) = true
        /\ (forall k b, users !! k = Some b -> acc_phone b <> acc_phone a)
        /\ (unique_phones users -> unique_phones (<[fresh_id := a]> users))
        /\ in_enum role_enum (acc_role a) = true
        /\ c_password body = Some password
        /\ acc_password a = bcrypt_hash password).
Proof.
  unfold signup.
  destruct (negb (truthy_str (c_name body)) || negb (truthy_str (c_phone body))
            || negb (truthy_str (c_password body))) eqn:Ereq;
    [left; eauto 6 |].
  apply orb_false_elim in Ereq as [Ereq Epw].
  apply orb_false_elim in Ereq as [_ Eph].
  destruct (c_phone body) as [phone |] eqn:Ephone; [| discriminate].
  destruct (c_password body) as [password |] eqn:Epassword; [| discriminate].
  cbn [default from_option id].
  destruct (phoneRegex_test phone) eqn:Ere; cbn [negb]; [| left; eauto 6].
  destruct (findOne_phone phone users) as [[k0 a0] |] eqn:Ef;
    [left; eauto 7 |].
  unfold create.
  destruct ((_ =? "")%string || (_ =? "")%string || (_ =? "")%string);
    [left; eauto 7 |].
  destruct (in_enum role_enum (default role_default (c_role body))) eqn:Erole;
    cbn [negb]; [| left; eauto 7].
  rewrite Ef. right. eexists. exists password.
  split; [reflexivity |]. cbn [acc_phone acc_role acc_password].
  assert (Hnew : forall k b, users !! k = Some b -> acc_phone b <> phone)
    by now apply findOne_phone_None.
  repeat split; try assumption.
  intros Hu. now apply unique_phones_insert.
Qed.

(** X25.  What [login] answers: 200 with a token only for a stored
    account that has the phone of the request and whose stored hash
    [bcrypt.compare] accepts for the request's password, the token naming
    that account's id and role; otherwise 400, or 401 with the one message
    [Invalid credentials], whether the phone is unknown or the password
    is wrong. *)
Theorem login_outcomes (env : Env) (body : Credentials) (iat : Z)
    (users : Accounts) :
  (exists c m,
      login env body iat users = Sent c (AuthMessage m)
      /\ (c = 400 \/ (c = 401 /\ m = "Invalid credentials")))
  \/ (exists k a password,
        login env body iat users
        = Sent 200 (Session
                      (signToken env iat
                         {| tp_id := k; tp_role := acc_role a |})
                      (toJSON k a))
        /\ users !! k = Some a
        /\ c_phone body = Some (acc_phone a)
        /\ c_password body = Some password
        /\ bcrypt_compare password (acc_password a) = true).
Proof.
  unfold login.
  destruct (negb (truthy_str (c_phone body))
            || negb (truthy_str (c_password body))) eqn:Ereq;
    [left; eauto 6 |].
  apply orb_false_elim in Ereq as [Eph Epw].
  destruct (c_phone body) as [phone |] eqn:Ephone; [| discriminate].
  destruct (c_password body) as [password |] eqn:Epassword; [| discriminate].
  cbn [default from_option id].
  destruct (phoneRegex_test phone); cbn [negb]; [| left; eauto 6].
  destruct (findOne_phone phone users) as [[k a] |] eqn:Ef;
    [| left; eauto 7].
  apply findOne_phone_Some in Ef as [Hk Hp].
  destruct (bcrypt_compare password (acc_password a)) eqn:Ecmp; cbn [negb];
    [| left; eauto 7].
  right. exists k, a, password. rewrite Hp. auto.
Qed.

(** X26.  [me] answers 200 exactly when the header carries a bearer token
    that verifies and the account its id names is stored, and the body is
    then that account without its password; every other request is
    answered 401 or, for a token whose account is gone, 404. *)
Theorem me_profile_iff (env : Env) (authorization : option string)
    (users : Accounts) (user : AccountJSON) :
  (me env authorization users = Sent 200 (Profile user) <->
   exists token p k a,
     authorization = Some ("Bearer " ++ token) /\ token <> ""
     /\ jwt_verify token (Auth.JWT_SECRET env) = Some p
     /\ castObjectId (JStr (tp_id p)) = Some k
     /\ users !! k = Some a /\ user = toJSON k a)
  /\ exists c b,
       me env authorization users = Sent c b
       /\ (c = 200 \/ c = 401 \/ c = 404).
Proof.
  rewrite me_as_requireAuth. split; [split |].
  - destruct (Auth.requireAuth env authorization) as [p | c m] eqn:Ea;
      [| intros [= -> _]; now apply requireAuth_rejected in Ea].
    apply requireAuth_next_inv in Ea as (token & -> & Ht & Hv).
    destruct (castObjectId (JStr (tp_id p))) as [k |] eqn:Ek; [| discriminate].
    destruct (users !! k) as [a |] eqn:Eu; [| discriminate].
    intros [= <-]. exists token, p, k, a. auto 7.
  - intros (token & p & k & a & -> & Ht & Hv & Hk & Hu & ->).
    rewrite (requireAuth_verified env token p Ht Hv), Hk, Hu. reflexivity.
  - destruct (Auth.requireAuth env authorization) as [p | c m] eqn:Ea.
    + destruct (castObjectId _); [destruct (users !! _) |]; eauto 6.
    + apply requireAuth_rejected in Ea as ->. eauto 6.
Qed.

End AuthRoutesMore.

(** ** The wrapped [res.json] on any request (middleware/auditLogger.ts) *)

Section AuditMore.
Import Audit Permissions.

Lemma logAction_appends (d : LogData) (now : Z) (logs : list AuditLog) :
  logAction d now logs
  = app logs (if valid d then [{| a_data := d; a_timestamp := now |}] else []).
Proof.
  unfold logAction. destruct (valid d); [reflexivity |].
  now rewrite app_nil_r.
Qed.

Lemma resourceId_throws (req : Request) (e : string) :
  resourceId req = Throw e <->
  e = "TypeError"
  /\ truthy_str (param "id" (req_params req)) = false
  /\ truthy_str (param "userId" (req_params req)) = false
  /\ truthy_str (param "productId" (req_params req)) = false
  /\ (req_body req = JUndefined \/ req_body req = JNull).
Proof.
  unfold resourceId.
  destruct (truthy_str (param "id" _));
    [split; [discriminate | intros (_ & [=] & _)] |].
  destruct (truthy_str (param "userId" _));
    [split; [discriminate | intros (_ & _ & [=] & _)] |].
  destruct (truthy_str (param "productId" _));
    [split; [discriminate | intros (_ & _ & _ & [=] & _)] |].
  destruct (req_body req) eqn:Eb;
    (split; [intros Hx | intros (-> & _ & _ & _ & [Hb | Hb])]);
    try discriminate; try reflexivity;
    injection Hx as <-; repeat split; auto.
Qed.

Lemma errorMessage_throws (statusCode : Z) (body : jsval) (e : string) :
  errorMessage statusCode body = Throw e <->
  e = "TypeError" /\ 400 <= statusCode
  /\ (body = JUndefined \/ body = JNull).
Proof.
  unfold errorMessage. destruct (Z.leb_spec 400 statusCode) as [Hge | Hlt].
  - destruct body eqn:Eb;
      (split; [intros Hx | intros (-> & _ & [Hb | Hb])]);
      try discriminate; try reflexivity;
      injection Hx as <-; repeat split; auto.
  - split; [discriminate | intros (_ & Hge & _); lia].
Qed.

(** X27.  The audit collection is append-only under the middleware:
    whatever the request and the response, one call of the wrapped
    [res.json] leaves the collection as it was or adds one entry at its
    end.  An added entry passed the schema's validation, carries the time
    of the write, the id of the request's authenticated user, the
    middleware's resource and [success = statusCode < 400], and the
    response was then written. *)
Theorem auditLogger_append_only (resource : string) (action : option string)
    (req : Request) (startTime endTime now statusCode : Z) (body : jsval)
    (logs : list AuditLog) :
  exists added,
    snd (auditLogger resource action req startTime endTime now statusCode
           body logs) = app logs added
    /\ (length added <= 1)%nat
    /\ forall entry, In entry added ->
         fst (auditLogger resource action req startTime endTime now statusCode
                body logs) = Ret tt
         /\ valid (a_data entry) = true
         /\ a_timestamp entry = now
         /\ l_resource (a_data entry) = resource
         /\ l_success (a_data entry) = (statusCode <? 400)
         /\ exists u, req_user req = Some u /\ au_id u <> ""
                      /\ l_userId (a_data entry) = au_id u.
Proof.
  unfold auditLogger.
  assert (Hnil : forall r : Exn unit,
             exists added, logs = app logs added /\ (length added <= 1)%nat
               /\ forall entry, In entry added ->
                    r = Ret tt
                    /\ valid (a_data entry) = true
                    /\ a_timestamp entry = now
                    /\ l_resource (a_data entry) = resource
                    /\ l_success (a_data entry) = (statusCode <? 400)
                    /\ exists u, req_user req = Some u /\ au_id u <> ""
                                 /\ l_userId (a_data entry) = au_id u).
  { intros r. exists []. rewrite app_nil_r.
    split; [reflexivity |]. split; [cbn; lia | intros entry []]. }
  destruct (req_user req) as [u |] eqn:Eu; [| apply Hnil].
  destruct (String.eqb_spec (au_id u) "") as [E | Hid]; cbn [negb];
    [apply Hnil |].
  destruct (resourceId req) as [rid | e]; [| apply Hnil].
  destruct (errorMessage statusCode body) as [msg | e]; [| apply Hnil].
  cbn [fst snd]. rewrite logAction_appends.
  destruct (valid _) eqn:Ev.
  - eexists. split; [reflexivity |]. split; [cbn; lia |].
    intros entry [<- | []]. cbn [a_data a_timestamp].
    split; [reflexivity |]. split; [exact Ev |].
    split; [reflexivity |]. split; [reflexivity |]. split; [reflexivity |].
    exists u. auto.
  - exists []. split; [reflexivity |]. split; [cbn; lia | intros entry []].
Qed.

(** X28.  When the wrapped [res.json] throws instead of writing the
    response: exactly for a request of an authenticated user (one with a
    non-empty id) for which either none of the parameters [id], [userId]
    and [productId] is truthy and [req.body] is [undefined] or [null], or
    the status is 400 or more and the response body is [undefined] or
    [null].  The error is a TypeError, and nothing is logged. *)
Theorem auditLogger_throws_iff (resource : string) (action : option string)
    (req : Request) (startTime endTime now statusCode : Z) (body : jsval)
    (logs : list AuditLog) (e : string) :
  (fst (auditLogger resource action req startTime endTime now statusCode
          body logs) = Throw e <->
   e = "TypeError"
   /\ (exists u, req_user req = Some u /\ au_id u <> "")
   /\ ((truthy_str (param "id" (req_params req)) = false
        /\ truthy_str (param "userId" (req_params req)) = false
        /\ truthy_str (param "productId" (req_params req)) = false
        /\ (req_body req = JUndefined \/ req_body req = JNull))
       \/ (400 <= statusCode /\ (body = JUndefined \/ body = JNull))))
  /\ (fst (auditLogger resource action req startTime endTime now statusCode
             body logs) = Throw e ->
      snd (auditLogger resource action req startTime endTime now statusCode
             body logs) = logs).
Proof.
  unfold auditLogger.
  destruct (req_user req) as [u |] eqn:Eu;
    [| split; [split; [discriminate | intros (_ & (u & [=] & _) & _)]
              | discriminate]].
  destruct (String.eqb_spec (au_id u) "") as [E | Hid]; cbn [negb].
  { split; [split; [discriminate |] | discriminate].
    intros (_ & (u' & [= <-] & Hne) & _). contradiction. }
  destruct (resourceId req) as [rid | e1] eqn:Er.
  - destruct (errorMessage statusCode body) as [msg | e2] eqn:Em; cbn [fst snd].
    + split; [split; [discriminate |] | discriminate].
      intros (-> & _ & [Hr | Hm]).
      * assert (Hthrow : resourceId req = Throw "TypeError")
          by (apply resourceId_throws; tauto).
        congruence.
      * assert (Hthrow : errorMessage statusCode body = Throw "TypeError")
          by (apply errorMessage_throws; tauto).
        congruence.
    + split; [| reflexivity]. split.
      * intros [= <-]. apply errorMessage_throws in Em as (-> & Hge & Hb).
        split; [reflexivity |]. split; [exists u; auto |]. right. auto.
      * intros (-> & _). apply errorMessage_throws in Em as (-> & _).
        reflexivity.
  - cbn [fst snd]. split; [| reflexivity]. split.
    + intros [= <-]. apply resourceId_throws in Er as (-> & Hr).
      split; [reflexivity |]. split; [exists u; auto |]. left. exact Hr.
    + intros (-> & _). apply resourceId_throws in Er as (-> & _).
      reflexivity.
Qed.

End AuditMore.

(** Library behaviour for the examples of the auth routes: tokens of the
    form [id.role.iat], and hashes compared as [Example.platform] makes
    them. *)
Module AuthExample.

Definition sign (payload : TokenPayload) (secret : string) (iat : Z)
  : string :=
  tp_id payload ++ "." ++ tp_role payload ++ "." ++ pretty iat.

Definition verify (token secret : string) : option TokenPayload :=
  match Permissions.split "." token with
  | [i; r; _] => Some {| tp_id := i; tp_role := r |}
  | _ => None
  end.

Definition compare (password hash : string) : bool :=
  (hash =? "$2a$10$" ++ password)%string.

Definition platform : Externals :=
  {| hmac_sha256_hex := Example.digest;
     JSON_stringify := Example.stringify;
     jwt_verify := verify;
     bcrypt_hash := fun pw => "$2a$10$" ++ pw;
     castObjectId := Example.cast;
     toStr := Example.render;
     build_user := Example.build;
     strictMode := true;
     hmac_hex_length := fun _ _ => eq_refl |}.

Definition library : AuthExternals :=
  {| jwt_sign := sign; bcrypt_compare := compare |}.

Definition ann : AuthRoutes.Credentials :=
  {| AuthRoutes.c_name := Some "Ann";
     AuthRoutes.c_phone := Some "+998901234567";
     AuthRoutes.c_password := Some "pw";
     AuthRoutes.c_role := Some "admin" |}.

End AuthExample.

(** X23 on an empty collection: Ann signs up with the role admin in the
    request and logs in a minute later; the two tokens differ, and each
    passes [requireAuth] and reads her profile. *)
Lemma signup_then_login_witness :
  exists user users',
    @AuthRoutes.signup AuthExample.platform AuthExample.library Example.env
      AuthExample.ann "u9" 2000 1700000000 ∅
    = (Sent 201 (AuthRoutes.Session "u9.admin.1700000000" user), users')
    /\ AuthRoutes.j_id user = "u9" /\ AuthRoutes.j_name user = "Ann"
    /\ AuthRoutes.j_phone user = "+998901234567"
    /\ AuthRoutes.j_role user = "admin"
    /\ (forall k a, (∅ : AuthRoutes.Accounts) !! k = Some a ->
                    users' !! k = Some a)
    /\ @AuthRoutes.login AuthExample.platform AuthExample.library Example.env
         {| AuthRoutes.c_name := None;
            AuthRoutes.c_phone := Some "+998901234567";
            AuthRoutes.c_password := Some "pw";
            AuthRoutes.c_role := None |} 1700000060 users'
       = Sent 200 (AuthRoutes.Session "u9.admin.1700000060" user)
    /\ forall token,
         token = "u9.admin.1700000000" \/ token = "u9.admin.1700000060" ->
         @Auth.requireAuth AuthExample.platform Example.env
           (Some ("Bearer " ++ token))
         = Next {| tp_id := "u9"; tp_role := "admin" |}
         /\ @AuthRoutes.me AuthExample.platform Example.env
              (Some ("Bearer " ++ token)) users'
            = Sent 200 (AuthRoutes.Profile user).
Proof.
  apply (@signup_then_login AuthExample.platform AuthExample.library
           Example.env "Ann" "+998901234567" "pw" (Some "admin") "u9" 2000
           1700000000 1700000060 ∅
           "u9.admin.1700000000" "u9.admin.1700000060");
    try reflexivity; discriminate.
Defined.

Example signup_rejects_bad_phone :
  @AuthRoutes.signup AuthExample.platform AuthExample.library Example.env
    {| AuthRoutes.c_name := Some "Ann";
       AuthRoutes.c_phone := Some "901234567";
       AuthRoutes.c_password := Some "pw";
       AuthRoutes.c_role := None |} "u9" 2000 1700000000 ∅
  = (Sent 400
       (AuthRoutes.AuthMessage "Invalid phone number format. Use +998XXXXXXXXX"),
     ∅).
Proof. reflexivity. Qed.

Example signup_rejects_unknown_role :
  @AuthRoutes.signup AuthExample.platform AuthExample.library Example.env
    {| AuthRoutes.c_name := Some "Ann";
       AuthRoutes.c_phone := Some "998901234567";
       AuthRoutes.c_password := Some "pw";
       AuthRoutes.c_role := Some "moderator" |} "u9" 2000 1700000000 ∅
  = (Sent 500 (AuthRoutes.AuthMessage "Server error"), ∅).
Proof. reflexivity. Qed.

(** ** server.ts: the caller's own orders behind the two gates *)

Section ListingRoute.
Context `{Externals}.
Import Auth Routes OrderLists.

(** X29.  [GET /api/orders/my] never changes the order collection, and
    whenever it answers with a list of orders the request carried a bearer
    token that verifies, and the list holds exactly the stored orders
    whose [userId] is the id in that token: no order of another user is
    disclosed. *)
Theorem get_my_orders_route (env : Env) (authorization : option string)
    (db : Orders) :
  snd (get_my_orders env authorization db) = db
  /\ forall code orders,
       fst (get_my_orders env authorization db)
       = Sent code (OrdersJSON orders) ->
       exists token p,
         authorization = Some ("Bearer " ++ token)
         /\ jwt_verify token (JWT_SECRET env) = Some p
         /\ forall o, In o orders <->
                      (exists k, db !! k = Some o) /\ userId o = tp_id p.
Proof.
  unfold get_my_orders.
  destruct (guarded_gate ListMessage ["user"; "admin"; "cashier"] env
              authorization
              (fun u db0 => (getMyOrders (Some u) db0, db0)) db)
    as [(p & Ha & _ & _ & ->) | (c & m & _ & ->)]; cbn [fst snd].
  - split; [reflexivity |]. intros code orders [= _ <-].
    apply requireAuth_next_inv in Ha as (token & -> & _ & Hv).
    exists token, p. split; [reflexivity |]. split; [assumption |].
    intros o. rewrite elem_of_find_sorted. now rewrite String.eqb_eq.
  - split; [reflexivity | discriminate].
Qed.

End ListingRoute.
